(** * Toolbox package manager: install / uninstall lifecycle

    A shallow embedding of [toolbox.py] and the properties of its
    install / uninstall engine.  The program is interpreted in a small
    state-and-exception monad over an explicit world (file system, standard
    input and output, log of the URLs opened, clock, registered launchers).

    Library behaviour the program relies on is modelled as follows.
    - Python [str] values are byte strings; [lower] and [strip] act on the
      ASCII range.
    - [pathlib] paths are lists of components below the root; the [/]
      operator splits its right operand at ['/'], drops empty and ["."]
      components and restarts from the root on an absolute operand, as
      [PurePosixPath] does.  [".."] is kept as a component and is not
      resolved by the file-system model.  The program has these rules on
      the branch of its path functions that is not the Windows one, and
      the statements about where things are saved are made for that
      branch; the store finds a node by the spelling of its path.
    - [hashlib.sha256] is SHA-256 as in FIPS 180-4; an object's [update]
      appends to the message hashed.
    - [json], the network, the failure mode of [shutil.rmtree], the clock and
      the shortcut registrar are parameters of the environment. *)

From Stdlib Require Import ZArith List String Ascii Lia Bool.
From Stdlib.Strings Require Import Byte.
From Stdlib Require Import DecimalString.
From Equations Require Import Equations.
From stdpp Require Import base gmap list strings option.

Abbreviation byte := Init.Byte.byte.

(** ** SHA-256 (FIPS 180-4) *)

Module Sha256.

Local Open Scope Z_scope.

Definition wmod (x : Z) : Z := x mod 2 ^ 32.

Definition rotr (n x : Z) : Z :=
  wmod (Z.lor (Z.shiftr x n) (Z.shiftl x (32 - n))).

Definition shr (n x : Z) : Z := Z.shiftr x n.

Definition Ch (x y z : Z) : Z :=
  Z.lxor (Z.land x y) (Z.land (Z.lxor x (2 ^ 32 - 1)) z).

Definition Maj (x y z : Z) : Z :=
  Z.lxor (Z.lxor (Z.land x y) (Z.land x z)) (Z.land y z).

Definition Sigma0 (x : Z) : Z :=
  Z.lxor (Z.lxor (rotr 2 x) (rotr 13 x)) (rotr 22 x).
Definition Sigma1 (x : Z) : Z :=
  Z.lxor (Z.lxor (rotr 6 x) (rotr 11 x)) (rotr 25 x).
Definition sigma0 (x : Z) : Z :=
  Z.lxor (Z.lxor (rotr 7 x) (rotr 18 x)) (shr 3 x).
Definition sigma1 (x : Z) : Z :=
  Z.lxor (Z.lxor (rotr 17 x) (rotr 19 x)) (shr 10 x).

(** The round constants are the first 32 bits of the fractional parts of
    the cube roots of the first 64 primes, the initial hash value those of
    the square roots of the first 8 primes. *)

Definition is_prime (n : Z) : bool :=
  forallb (fun d => negb (n mod (Z.of_nat d) =? 0)) (seq 2 (Z.to_nat n - 2)).

Definition primes64 : list Z :=
  Eval vm_compute in
    firstn 64 (List.filter is_prime (List.map Z.of_nat (seq 2 400))).

Definition icbrt (n : Z) : Z :=
  fold_left
    (fun r b => let r' := r + 2 ^ Z.of_nat b in
                if r' * r' * r' <=? n then r' else r)
    (rev (seq 0 40)) 0.

Definition K : list Z :=
  Eval vm_compute in
    List.map (fun p => wmod (icbrt (p * 2 ^ 96))) primes64.

Definition H0 : list Z :=
  Eval vm_compute in
    List.map (fun p => wmod (Z.sqrt (p * 2 ^ 64))) (firstn 8 primes64).

Definition byte_val (b : byte) : Z := Z.of_N (Byte.to_N b).

Definition byte_of_Z (z : Z) : byte :=
  match Byte.of_N (Z.to_N (z mod 256)) with
  | Some b => b
  | None => Byte.x00
  end.

(** Big-endian encoding of [z] on [n] bytes. *)
Fixpoint be_bytes (n : nat) (z : Z) : list byte :=
  match n with
  | O => []
  | S n' => byte_of_Z (Z.shiftr z (8 * Z.of_nat n')) :: be_bytes n' z
  end.

Definition be_word (bs : list byte) : Z :=
  fold_left (fun acc b => acc * 256 + byte_val b) bs 0.

Definition pad (msg : list byte) : list byte :=
  let len := Z.of_nat (length msg) in
  let zeros := Z.to_nat ((55 - len) mod 64) in
  msg ++ Byte.x80 :: repeat Byte.x00 zeros ++ be_bytes 8 (8 * len).

(** The words of a block, 4 bytes each; the blocks of a padded message,
    64 bytes each. *)
Fixpoint group (fuel k : nat) (bs : list byte) : list (list byte) :=
  match fuel with
  | O => []
  | S fuel' =>
      match bs with
      | [] => []
      | _ => firstn k bs :: group fuel' k (skipn k bs)
      end
  end.

Definition words (block : list byte) : list Z :=
  List.map be_word (group 16 4 block).

Definition blocks (padded : list byte) : list (list byte) :=
  group (length padded) 64 padded.

(** Message schedule, most recent word first. *)
Fixpoint schedule (n : nat) (w : list Z) : list Z :=
  match n with
  | O => w
  | S n' =>
      let x := wmod (sigma1 (nth 1 w 0) + nth 6 w 0
                     + sigma0 (nth 14 w 0) + nth 15 w 0) in
      schedule n' (x :: w)
  end.

Definition round (st : list Z) (kw : Z * Z) : list Z :=
  match st with
  | [a; b; c; d; e; f; g; h] =>
      let t1 := h + Sigma1 e + Ch e f g + fst kw + snd kw in
      let t2 := Sigma0 a + Maj a b c in
      [wmod (t1 + t2); a; b; c; wmod (d + t1); e; f; g]
  | _ => st
  end.

Definition compress (h : list Z) (block : list byte) : list Z :=
  let w := rev (schedule 48 (rev (words block))) in
  let st := fold_left round (combine K w) h in
  List.map (fun p => wmod (fst p + snd p)) (combine h st).

Definition digest (msg : list byte) : list byte :=
  concat (List.map (be_bytes 4) (fold_left compress (blocks (pad msg)) H0)).

Definition hex_digit (z : Z) : ascii :=
  if z <? 10 then ascii_of_nat (Z.to_nat (48 + z))
  else ascii_of_nat (Z.to_nat (87 + z)).

Fixpoint hex (bs : list byte) : string :=
  match bs with
  | [] => EmptyString
  | b :: bs' =>
      String (hex_digit (byte_val b / 16))
        (String (hex_digit (byte_val b mod 16)) (hex bs'))
  end.

(** The interface of a [hashlib] hash object: the bytes fed so far. *)
Definition hash_object : Type := list byte.
Definition new : hash_object := [].
Definition update (h : hash_object) (data : list byte) : hash_object :=
  h ++ data.
Definition hexdigest (h : hash_object) : string := hex (digest h).

End Sha256.

Local Open Scope string_scope.
Local Open Scope list_scope.

(** ** Python strings *)

Module PyStr.

Definition lower_ascii (c : ascii) : ascii :=
  let n := nat_of_ascii c in
  if (Nat.leb 65 n && Nat.leb n 90)%bool then ascii_of_nat (n + 32) else c.

Fixpoint lower (s : string) : string :=
  match s with
  | EmptyString => EmptyString
  | String c s' => String (lower_ascii c) (lower s')
  end.

(** ASCII characters for which [str.isspace] holds. *)
Definition is_space (c : ascii) : bool :=
  let n := nat_of_ascii c in
  (Nat.eqb n 32 || (Nat.leb 9 n && Nat.leb n 13)
   || (Nat.leb 28 n && Nat.leb n 31))%bool.

Fixpoint lstrip (s : string) : string :=
  match s with
  | EmptyString => EmptyString
  | String c s' => if is_space c then lstrip s' else s
  end.

Fixpoint rstrip (s : string) : string :=
  match s with
  | EmptyString => EmptyString
  | String c s' =>
      match rstrip s' with
      | EmptyString => if is_space c then EmptyString else String c EmptyString
      | r => String c r
      end
  end.

Definition strip (s : string) : string := rstrip (lstrip s).

(** [s.split(sep)] for a one-character separator: never empty. *)
Fixpoint split (sep : ascii) (s : string) : list string :=
  match s with
  | EmptyString => [EmptyString]
  | String c s' =>
      if Ascii.eqb c sep then EmptyString :: split sep s'
      else match split sep s' with
           | [] => [String c EmptyString]
           | h :: t => String c h :: t
           end
  end.

(** [l[-1]] on the result of a split. *)
Definition last_item (l : list string) : string := List.last l EmptyString.

(** [pat in s] for two strings. *)
Fixpoint contains (pat s : string) : bool :=
  (String.prefix pat s
   || match s with
      | EmptyString => false
      | String _ s' => contains pat s'
      end)%bool.

Fixpoint has_char (c : ascii) (s : string) : bool :=
  match s with
  | EmptyString => false
  | String c' s' => (Ascii.eqb c' c || has_char c s')%bool
  end.

(** [s.split()]: the maximal runs of characters that are not white space. *)
Fixpoint split_ws (s : string) : list string :=
  match s with
  | EmptyString => []
  | String c s' =>
      if is_space c then split_ws s'
      else
        match s' with
        | EmptyString => [String c EmptyString]
        | String c' _ =>
            if is_space c' then String c EmptyString :: split_ws s'
            else match split_ws s' with
                 | h :: t => String c h :: t
                 | [] => [String c EmptyString]
                 end
        end
  end.

(** [s * n] *)
Fixpoint times (s : string) (n : nat) : string :=
  match n with
  | O => EmptyString
  | S n' => s +:+ times s n'
  end.

End PyStr.

(** ** Paths and exceptions *)

Abbreviation path := (list string).

(** Paths are taken apart and joined by the rules of [PurePosixPath]: the
    separator is the slash, an absolute operand of [/] restarts the path,
    and two paths are the same when they are spelt the same.  These are
    the rules the program runs under on the branch of its path functions
    that is not the Windows one; a [WindowsPath] also separates at the
    backslash, knows drives, and is compared without regard to letter
    case, as [eqb] does. *)
Module PyPath.

Definition is_absolute (s : string) : bool :=
  match s with
  | String c _ => Ascii.eqb c "/"
  | EmptyString => false
  end.

Definition parts (s : string) : list string :=
  List.filter (fun c => negb (String.eqb c "" || String.eqb c "."))
    (PyStr.split "/" s).

(** [p / s] *)
Definition div (p : path) (s : string) : path :=
  if is_absolute s then parts s else p ++ parts s.

(** [p.parent] *)
Definition parent (p : path) : path := removelast p.

(** [str(p)] *)
Definition str (p : path) : string :=
  match p with
  | [] => "/"
  | _ => String.concat "" (List.map (fun c => "/" +:+ c) p)
  end.

(** [p == q], for the flavour of the platform. *)
Definition eqb (windows : bool) (p q : path) : bool :=
  if windows
  then bool_decide (List.map PyStr.lower p = List.map PyStr.lower q)
  else bool_decide (p = q).

End PyPath.

Infix "/." := PyPath.div (at level 40, left associativity).

Inductive exn : Type :=
| FileNotFoundError (p : path)
| FileExistsError (p : path)
| NotADirectoryError (p : path)
| IsADirectoryError (p : path)
| OSError (detail : string)
| KeyError (key : string)
| TypeError (detail : string)
| AttributeError (detail : string)
| ValueError (detail : string)
| JSONDecodeError
| EOFError
| RecursionError.

Inductive result (A : Type) : Type :=
| Ok (a : A)
| Err (e : exn).
Arguments Ok {A} a.
Arguments Err {A} e.

(** [except FileNotFoundError] *)
Definition is_FileNotFoundError (e : exn) : bool :=
  match e with FileNotFoundError _ => true | _ => false end.

(** [except (FileNotFoundError, json.JSONDecodeError)] *)
Definition is_missing_or_malformed (e : exn) : bool :=
  match e with FileNotFoundError _ | JSONDecodeError => true | _ => false end.

(** ** Python values as [json.load] yields them *)

#[warnings="-register-all"]
Inductive json : Type :=
| JNull
| JBool (b : bool)
| JNum (n : Z)
| JStr (s : string)
| JArr (items : list json)
| JObj (members : list (string * json)).

Module Py.

(** Dictionaries keep insertion order. *)
Fixpoint dict_get (k : string) (d : list (string * json)) : option json :=
  match d with
  | [] => None
  | (k', v) :: d' => if String.eqb k' k then Some v else dict_get k d'
  end.

Fixpoint dict_set (k : string) (v : json) (d : list (string * json))
  : list (string * json) :=
  match d with
  | [] => [(k, v)]
  | (k', v') :: d' =>
      if String.eqb k' k then (k, v) :: d' else (k', v') :: dict_set k v d'
  end.

Definition dict_del (k : string) (d : list (string * json))
  : list (string * json) :=
  List.filter (fun kv => negb (String.eqb (fst kv) k)) d.

Definition dict_has (k : string) (d : list (string * json)) : bool :=
  match dict_get k d with Some _ => true | None => false end.

(** [bool(v)] *)
Definition truthy (v : json) : bool :=
  match v with
  | JNull => false
  | JBool b => b
  | JNum n => negb (n =? 0)%Z
  | JStr s => negb (String.eqb s "")
  | JArr l => match l with [] => false | _ => true end
  | JObj d => match d with [] => false | _ => true end
  end.

(** [v == s] for a string [s] *)
Definition eq_str (v : json) (s : string) : bool :=
  match v with JStr t => String.eqb t s | _ => false end.

(** [v[k]] for a string [k] *)
Definition getitem (v : json) (k : string) : result json :=
  match v with
  | JObj d =>
      match dict_get k d with Some x => Ok x | None => Err (KeyError k) end
  | JArr _ | JStr _ => Err (TypeError "indices must be integers")
  | _ => Err (TypeError "object is not subscriptable")
  end.

(** [v.get(k, default)] *)
Definition get (v : json) (k : string) (default : json) : result json :=
  match v with
  | JObj d =>
      match dict_get k d with Some x => Ok x | None => Ok default end
  | _ => Err (AttributeError "get")
  end.

(** [v.lower()] *)
Definition lower (v : json) : result string :=
  match v with
  | JStr s => Ok (PyStr.lower s)
  | _ => Err (AttributeError "lower")
  end.

(** [v.split('.')] *)
Definition split_dot (v : json) : result (list string) :=
  match v with
  | JStr s => Ok (PyStr.split "." s)
  | _ => Err (AttributeError "split")
  end.

(** [iter(v)] *)
Definition iter (v : json) : result (list json) :=
  match v with
  | JArr l => Ok l
  | JObj d => Ok (List.map (fun kv => JStr (fst kv)) d)
  | JStr s =>
      Ok (List.map (fun c => JStr (String c EmptyString))
            (list_ascii_of_string s))
  | _ => Err (TypeError "object is not iterable")
  end.

(** [s in v] for a string [s] *)
Definition contains (v : json) (s : string) : result bool :=
  match v with
  | JArr l => Ok (existsb (fun x => eq_str x s) l)
  | JObj d => Ok (dict_has s d)
  | JStr t => Ok (PyStr.contains s t)
  | _ => Err (TypeError "argument is not iterable")
  end.

(** [v[k] = x] for a string [k] *)
Definition setitem (v : json) (k : string) (x : json) : result json :=
  match v with
  | JObj d => Ok (JObj (dict_set k x d))
  | JArr _ => Err (TypeError "list indices must be integers")
  | _ => Err (TypeError "object does not support item assignment")
  end.

(** [del v[k]] for a string [k] *)
Definition delitem (v : json) (k : string) : result json :=
  match v with
  | JObj d =>
      if dict_has k d then Ok (JObj (dict_del k d)) else Err (KeyError k)
  | JArr _ => Err (TypeError "list indices must be integers")
  | _ => Err (TypeError "object does not support item deletion")
  end.

(** A value used where [pathlib] or [str] concatenation needs a [str]. *)
Definition as_str (v : json) : result string :=
  match v with
  | JStr s => Ok s
  | _ => Err (TypeError "expected str")
  end.

Fixpoint join_items (sep : string) (l : list json) : result string :=
  match l with
  | [] => Ok EmptyString
  | x :: l' =>
      match as_str x with
      | Err e => Err e
      | Ok s =>
          match l' with
          | [] => Ok s
          | _ =>
              match join_items sep l' with
              | Err e => Err e
              | Ok r => Ok (s +:+ sep +:+ r)
              end
          end
      end
  end.

(** [sep.join(v)] *)
Definition join (sep : string) (v : json) : result string :=
  match iter v with
  | Ok l => join_items sep l
  | Err _ => Err (TypeError "can only join an iterable")
  end.

End Py.

(** ** The world the program runs in *)

Inductive node : Type :=
| File (data : list byte)
| Dir.

(** What opening a URL and copying it to a file does: the whole body
    arrives, the request fails before anything is written, or the transfer
    breaks after part of the body has been written. *)
Inductive response : Type :=
| Served (body : list byte)
| Refused (e : exn)
| Broken (partial : list byte) (e : exn).

(** The environment: what the program reads from its platform and from the
    libraries it calls, fixed during a run. *)
Record Env : Type := {
  platform_system : string;               (* platform.system() *)
  appdata : path;                         (* Path(os.getenv('APPDATA')) *)
  home : path;                            (* Path.home() *)
  json_load : list byte -> result json;   (* json.load(f) on f's content *)
  json_dump : json -> list byte;          (* json.dump(v, f, indent=4) *)
  remote : string -> response;            (* the network *)
  rmtree_fault : path -> option (exn * list path);
      (* whether shutil.rmtree fails on a directory, with which error and
         after having removed which entries below it *)
  shortcut_fault : string -> string -> option exn;
      (* whether the desktop refuses a shortcut (target, name) *)
  isoformat_now : nat -> string;          (* datetime.now().isoformat() *)
  str_exn : exn -> string;                (* str(e) *)
  repr : json -> string                   (* str(v) of a value not a str *)
}.

Record World : Type := {
  fs : gmap path node;
  stdin : list string;                    (* lines still to be read *)
  stdout : list string;                   (* texts printed, oldest first *)
  opened_urls : list string;              (* URLs opened, oldest first *)
  ticks : nat;                            (* readings of the clock so far *)
  launchers : list (string * string)      (* shortcuts (name, target) *)
}.

Definition set_fs (f : gmap path node -> gmap path node) (w : World) : World :=
  {| fs := f (fs w); stdin := stdin w; stdout := stdout w;
     opened_urls := opened_urls w; ticks := ticks w;
     launchers := launchers w |}.

Definition set_stdin (i : list string) (w : World) : World :=
  {| fs := fs w; stdin := i; stdout := stdout w;
     opened_urls := opened_urls w; ticks := ticks w;
     launchers := launchers w |}.

Definition add_stdout (s : string) (w : World) : World :=
  {| fs := fs w; stdin := stdin w; stdout := stdout w ++ [s];
     opened_urls := opened_urls w; ticks := ticks w;
     launchers := launchers w |}.

Definition add_opened_url (u : string) (w : World) : World :=
  {| fs := fs w; stdin := stdin w; stdout := stdout w;
     opened_urls := opened_urls w ++ [u]; ticks := ticks w;
     launchers := launchers w |}.

Definition add_tick (w : World) : World :=
  {| fs := fs w; stdin := stdin w; stdout := stdout w;
     opened_urls := opened_urls w; ticks := S (ticks w);
     launchers := launchers w |}.

Definition add_launcher (l : string * string) (w : World) : World :=
  {| fs := fs w; stdin := stdin w; stdout := stdout w;
     opened_urls := opened_urls w; ticks := ticks w;
     launchers := launchers w ++ [l] |}.

(** ** State and exceptions *)

(** A computation returns, raises an [Exception], or raises [SystemExit],
    which no [except Exception] clause catches.  Effects on the world are
    kept in every case. *)
Inductive outcome (A : Type) : Type :=
| Return (a : A)
| Raise (e : exn)
| Exit (status : Z).
Arguments Return {A} a.
Arguments Raise {A} e.
Arguments Exit {A} status.

Definition M (A : Type) : Type := World -> World * outcome A.

Definition ret {A} (a : A) : M A := fun w => (w, Return a).

Definition bind {A B} (m : M A) (k : A -> M B) : M B :=
  fun w =>
    match m w with
    | (w', Return a) => k a w'
    | (w', Raise e) => (w', Raise e)
    | (w', Exit c) => (w', Exit c)
    end.

Definition raise {A} (e : exn) : M A := fun w => (w, Raise e).

Definition sys_exit {A} (status : Z) : M A := fun w => (w, Exit status).

(** [try: m  except Exception as e: h e] *)
Definition try_except {A} (m : M A) (h : exn -> M A) : M A :=
  fun w =>
    match m w with
    | (w', Raise e) => h e w'
    | r => r
    end.

Definition lift {A} (r : result A) : M A :=
  match r with
  | Ok a => ret a
  | Err e => raise e
  end.

Definition modify (f : World -> World) : M unit := fun w => (f w, Return tt).

Definition gets {A} (f : World -> A) : M A := fun w => (w, Return (f w)).

Declare Scope py_scope.
Delimit Scope py_scope with py.
Notation "x <- m ;; k" := (bind m (fun x => k))
  (at level 100, m at next level, right associativity) : py_scope.
Notation "m ;; k" := (bind m (fun _ => k))
  (at level 100, right associativity) : py_scope.
Local Open Scope py_scope.

(** [for x in l: f x] *)
Fixpoint for_each {A} (l : list A) (f : A -> M unit) : M unit :=
  match l with
  | [] => ret tt
  | x :: l' => f x ;; for_each l' f
  end.

(** ** File system, console and network primitives *)

Module Os.

(** The root is a directory that is always there. *)
Definition node_at (m : gmap path node) (p : path) : option node :=
  match p with
  | [] => Some Dir
  | _ => m !! p
  end.

(** [p.exists()] *)
Definition path_exists (p : path) : M bool :=
  gets (fun w => match node_at (fs w) p with Some _ => true | None => false end).

(** [os.mkdir] on every missing prefix of [done ++ todo] that extends
    [done]; a file in the way is an error. *)
Fixpoint mkdir_from (done : path) (todo : list string) (m : gmap path node)
  : result (gmap path node) :=
  match todo with
  | [] => Ok m
  | c :: todo' =>
      let p := done ++ [c] in
      match m !! p with
      | Some Dir => mkdir_from p todo' m
      | Some (File _) =>
          Err (match todo' with
               | [] => FileExistsError p
               | _ => NotADirectoryError p
               end)
      | None => mkdir_from p todo' (<[p := Dir]> m)
      end
  end.

(** [p.mkdir(parents=True, exist_ok=True)] *)
Definition mkdir_parents (p : path) : M unit :=
  fun w =>
    match mkdir_from [] p (fs w) with
    | Ok m => (set_fs (fun _ => m) w, Return tt)
    | Err e => (w, Raise e)
    end.

(** [open(p, 'rb')], giving the bytes the handle will deliver. *)
Definition open_read (p : path) : M (list byte) :=
  fun w =>
    match node_at (fs w) p with
    | Some (File data) => (w, Return data)
    | Some Dir => (w, Raise (IsADirectoryError p))
    | None => (w, Raise (FileNotFoundError p))
    end.

(** [open(p, 'w')], writing [data], closing. *)
Definition write_file (p : path) (data : list byte) : M unit :=
  fun w =>
    match node_at (fs w) p with
    | Some Dir => (w, Raise (IsADirectoryError p))
    | _ =>
        match node_at (fs w) (PyPath.parent p) with
        | Some Dir => (set_fs (insert p (File data)) w, Return tt)
        | Some (File _) => (w, Raise (NotADirectoryError p))
        | None => (w, Raise (FileNotFoundError p))
        end
    end.

Definition below (root q : path) : Prop := root `prefix_of` q /\ q <> root.

(** [shutil.rmtree(p)]: everything at and below [p] goes, unless the
    environment makes the removal fail, in which case only some entries
    strictly below [p] are gone. *)
Definition rmtree (E : Env) (p : path) : M unit :=
  fun w =>
    match node_at (fs w) p with
    | None => (w, Raise (FileNotFoundError p))
    | Some (File _) => (w, Raise (NotADirectoryError p))
    | Some Dir =>
        match rmtree_fault E p with
        | None =>
            (set_fs (filter (fun kv => ~ p `prefix_of` kv.1)) w, Return tt)
        | Some (e, gone) =>
            (set_fs (filter (fun kv => ~ (below p kv.1 /\ kv.1 ∈ gone))) w,
             Raise e)
        end
    end.

(** [next(p.glob('*'), None)]: the first entry directly inside [p], in the
    order in which the store lists them. *)
Definition glob_first (p : path) : M (option path) :=
  gets (fun w =>
    head (List.filter
            (fun q => bool_decide (PyPath.parent q = p /\ q <> []))
            (map_to_list (fs w)).*1)).

(** [print(s)] *)
Definition print (s : string) : M unit := modify (add_stdout s).

(** [input(prompt)] *)
Definition input (prompt : string) : M string :=
  fun w =>
    let w' := add_stdout prompt w in
    match stdin w' with
    | [] => (w', Raise EOFError)
    | line :: rest => (set_stdin rest w', Return line)
    end.

(** [urllib.request.urlretrieve(url, p, reporthook)]: the URL is opened
    first, then the file. *)
Definition urlretrieve (E : Env) (url : string) (p : path) : M unit :=
  modify (add_opened_url url) ;;
  match remote E url with
  | Refused e => raise e
  | Served body => write_file p body
  | Broken partial e => write_file p partial ;; raise e
  end.

(** [datetime.now().isoformat()] *)
Definition now_isoformat (E : Env) : M string :=
  fun w => (add_tick w, Return (isoformat_now E (ticks w))).

End Os.

(** ** The program *)

(** [colorama] escape sequences. *)
Module Fore.
Definition esc (code : string) : string :=
  String "027"%char ("[" +:+ code +:+ "m").
Definition RED : string := esc "31".
Definition GREEN : string := esc "32".
Definition YELLOW : string := esc "33".
Definition WHITE : string := esc "37".
Definition RESET_ALL : string := esc "0".
Definition MAGENTA : string := esc "35".
Definition CYAN : string := esc "36".
End Fore.

Definition inspect {A} (a : A) : {b | a = b} := exist _ a eq_refl.

(** [for byte_block in iter(lambda: f.read(4096), b""):
        sha256_hash.update(byte_block)]
    where [rest] is what the handle [f] has not delivered yet. *)
Equations? read_blocks (sha256_hash : Sha256.hash_object) (rest : list byte)
  : Sha256.hash_object by wf (length rest) lt :=
  read_blocks sha256_hash rest with inspect (take 4096 rest) => {
    | exist _ [] _ := sha256_hash;
    | exist _ (b :: byte_block) _ :=
        read_blocks (Sha256.update sha256_hash (b :: byte_block))
          (drop 4096 rest) }.
Proof.
  destruct rest; [discriminate|]. rewrite length_drop. simpl. lia.
Qed.

(** [next((pkg for pkg in packages
           if pkg["name"].lower() == package_name.lower()), None)] *)
Fixpoint find_package (packages : list json) (package_name : json)
  : result (option json) :=
  match packages with
  | [] => Ok None
  | pkg :: packages' =>
      match Py.getitem pkg "name" with
      | Err e => Err e
      | Ok n =>
          match Py.lower n with
          | Err e => Err e
          | Ok a =>
              match Py.lower package_name with
              | Err e => Err e
              | Ok b =>
                  if String.eqb a b then Ok (Some pkg)
                  else find_package packages' package_name
              end
          end
      end
  end.

(** What lines 206-217 of [install_package] leave in its local variables. *)
Record artifact : Type := {
  install_path : path;
  download_path : path;
  sha256 : json
}.

Section Toolbox.

Variable E : Env.

Definition is_windows : bool := String.eqb (platform_system E) "Windows".

Definition get_package_file_path : path :=
  if is_windows
  then appdata E /. "ravendevteam" /. "toolbox" /. "packages.json"
  else home E /. "Library" /. "Application Support" /. "ravendevteam"
         /. "toolbox" /. "packages.json".

Definition get_installation_path (package_name : string) : path :=
  if is_windows
  then appdata E /. "ravendevteam" /. package_name
  else home E /. "Library" /. "Application Support" /. "ravendevteam"
         /. package_name.

Definition handle_error {A} (message : string) : M A :=
  Os.print (Fore.RED +:+ "Error: " +:+ message +:+ Fore.RESET_ALL) ;;
  sys_exit 1.

Definition handle_warning (message : string) : M unit :=
  Os.print (Fore.YELLOW +:+ "Warning: " +:+ message +:+ Fore.RESET_ALL).

Definition get_record_file_path : path :=
  if is_windows
  then appdata E /. "ravendevteam" /. "record.json"
  else home E /. "Library" /. "Application Support" /. "ravendevteam"
         /. "record.json".

Definition read_record : M json :=
  let record_file := get_record_file_path in
  present <- Os.path_exists record_file ;;
  if negb present then ret (JObj [])
  else
    try_except
      (f <- Os.open_read record_file ;; lift (json_load E f))
      (fun e => if is_missing_or_malformed e then ret (JObj []) else raise e).

Definition write_record (record : json) : M unit :=
  let record_file := get_record_file_path in
  Os.mkdir_parents (PyPath.parent record_file) ;;
  Os.write_file record_file (json_dump E record).

(** [str(v)] inside an f-string *)
Definition py_str (v : json) : string :=
  match v with
  | JStr s => s
  | _ => repr E v
  end.

(** Lines 72-77 of [uninstall_package]. *)
Definition remove_installed (package_name : string) : M unit :=
  let install_path := get_installation_path package_name in
  Os.rmtree E install_path ;;
  Os.print (Fore.GREEN +:+ "'" +:+ package_name
            +:+ "' has been successfully uninstalled."
            +:+ Fore.RESET_ALL) ;;
  record <- read_record ;;
  listed <- lift (Py.contains record package_name) ;;
  if listed : bool
  then record' <- lift (Py.delitem record package_name) ;;
       write_record record'
  else ret tt.

(** The [except] clause of [uninstall_package]. *)
Definition uninstall_failed (package_name : string) (e : exn) : M unit :=
  handle_error ("An error occurred while uninstalling '"
                +:+ package_name +:+ "': " +:+ str_exn E e
                +:+ ". Please try again.").

Definition uninstall_package (package_name : string)
  (skip_confirmation : bool) : M unit :=
  try_except
    (let install_path := get_installation_path package_name in
     present <- Os.path_exists install_path ;;
     (if negb present
      then handle_error ("Package '" +:+ package_name
                         +:+ "' is not installed.")
      else ret tt) ;;
     if negb skip_confirmation
     then
       answer <- Os.input ("Are you sure you want to uninstall '"
                           +:+ package_name +:+ "'? (Y/N): ") ;;
       let confirmation := PyStr.lower (PyStr.strip answer) in
       if negb (String.eqb confirmation "y")
       then Os.print (Fore.WHITE +:+ "Uninstallation of '" +:+ package_name
                      +:+ "' cancelled." +:+ Fore.RESET_ALL)
       else remove_installed package_name
     else remove_installed package_name)
    (uninstall_failed package_name).

Definition catalog_url : string :=
  "https://raw.githubusercontent.com/ravendevteam/toolbox/main/packages.json".

Definition ensure_packages_file : M unit :=
  let package_file_path := get_package_file_path in
  present <- Os.path_exists package_file_path ;;
  if negb present
  then
    Os.print (Fore.YELLOW +:+ "Package list not found at "
              +:+ PyPath.str package_file_path +:+ ". Downloading..."
              +:+ Fore.RESET_ALL) ;;
    let url := catalog_url in
    try_except
      (Os.mkdir_parents (PyPath.parent package_file_path) ;;
       Os.urlretrieve E url package_file_path ;;
       Os.print (Fore.GREEN +:+ "Package list downloaded successfully to "
                 +:+ PyPath.str package_file_path +:+ "."
                 +:+ Fore.RESET_ALL))
      (fun e =>
         handle_error ("Failed to download package list: " +:+ str_exn E e))
  else ret tt.

Definition validate_checksum (file_path : path) (expected_hash : json)
  : M bool :=
  f <- Os.open_read file_path ;;
  let sha256_hash := read_blocks Sha256.new f in
  ret (Py.eq_str expected_hash (Sha256.hexdigest sha256_hash)).

(** The desktop is outside the store modelled here: a shortcut that the
    desktop accepts is recorded among the launchers. *)
Definition create_shortcut (target : string) (shortcut_name : string)
  : M unit :=
  match shortcut_fault E target shortcut_name with
  | None =>
      modify (add_launcher (shortcut_name, target)) ;;
      if is_windows
      then Os.print (Fore.GREEN +:+ "Shortcut created at "
                     +:+ PyPath.str (home E /. "Desktop")
                     +:+ "/" +:+ shortcut_name +:+ ".lnk"
                     +:+ Fore.RESET_ALL)
      else Os.print (Fore.GREEN +:+ "Symbolic link created at "
                     +:+ PyPath.str (home E /. "Desktop")
                     +:+ "/" +:+ shortcut_name +:+ Fore.RESET_ALL)
  | Some e =>
      handle_warning ("Could not create a shortcut for '" +:+ shortcut_name
                      +:+ "': " +:+ str_exn E e)
  end.

(** Lines 187-190 of [install_package]. *)
Definition load_packages : M json :=
  ensure_packages_file ;;
  f <- Os.open_read get_package_file_path ;;
  data <- lift (json_load E f) ;;
  lift (Py.get data "packages" (JArr [])).

(** Lines 195-197. *)
Definition resolve_package (packages package_name : json) : M json :=
  let not_found : M json :=
    handle_error ("Package '" +:+ py_str package_name
                  +:+ "' not found in the package list.") in
  items <- lift (Py.iter packages) ;;
  found <- lift (find_package items package_name) ;;
  match found with
  | Some package => if Py.truthy package then ret package else not_found
  | None => not_found
  end.

(** Lines 198-200. *)
Definition check_platform (package_name package : json) : M string :=
  let platform_name := platform_system E in
  os <- lift (Py.getitem package "os") ;;
  supported <- lift (Py.contains os platform_name) ;;
  if negb supported
  then handle_error ("'" +:+ py_str package_name
                     +:+ "' is not available for your platform ("
                     +:+ platform_name +:+ ").")
  else ret platform_name.

(** Lines 201-205: [false] when the installation is cancelled. *)
Definition confirm_install (package_name : json) (skip_confirmation : bool)
  : M bool :=
  if negb skip_confirmation
  then
    answer <- Os.input ("Are you sure you want to install '"
                        +:+ py_str package_name +:+ "'? (Y/N): ") ;;
    let confirmation := PyStr.lower (PyStr.strip answer) in
    if negb (String.eqb confirmation "y")
    then Os.print (Fore.WHITE +:+ "Installation of '"
                   +:+ py_str package_name +:+ "' cancelled."
                   +:+ Fore.RESET_ALL) ;;
         ret false
    else ret true
  else ret true.

(** Lines 206-217. *)
Definition fetch_artifact (package_name package : json)
  (platform_name : string) : M artifact :=
  urls <- lift (Py.getitem package "url") ;;
  url <- lift (Py.getitem urls platform_name) ;;
  digests <- lift (Py.getitem package "sha256") ;;
  sha256 <- lift (Py.getitem digests platform_name) ;;
  version <- lift (Py.getitem package "version") ;;
  Os.print (Fore.WHITE +:+ "Installing " +:+ py_str package_name
            +:+ " (v" +:+ py_str version +:+ ") for " +:+ platform_name
            +:+ "..." +:+ Fore.RESET_ALL) ;;
  name <- lift (Py.as_str package_name) ;;
  let install_path := get_installation_path name in
  Os.mkdir_parents install_path ;;
  pieces <- lift (Py.split_dot url) ;;
  let download_path :=
    install_path /. (py_str package_name +:+ "." +:+ PyStr.last_item pieces) in
  Os.urlretrieve E (py_str url) download_path ;;
  Os.print (Fore.WHITE +:+ "Downloaded " +:+ py_str package_name +:+ " to "
            +:+ PyPath.str download_path +:+ Fore.RESET_ALL) ;;
  ret {| install_path := install_path;
         download_path := download_path;
         sha256 := sha256 |}.

(** Lines 218-231. *)
Definition finish_install (package_name package : json) (a : artifact)
  : M unit :=
  valid <- validate_checksum (download_path a) (sha256 a) ;;
  (if negb valid
   then handle_error ("Checksum mismatch for " +:+ py_str package_name
                      +:+ ". Installation aborted.")
   else ret tt) ;;
  present <- Os.path_exists (install_path a) ;;
  if present : bool
  then
    Os.print (Fore.GREEN +:+ py_str package_name
              +:+ " installed successfully!" +:+ Fore.RESET_ALL) ;;
    shortcut <- lift (Py.getitem package "shortcut") ;;
    (if Py.truthy shortcut
     then
       target <- Os.glob_first (install_path a) ;;
       match target with
       | Some t => create_shortcut (PyPath.str t) (py_str package_name)
       | None => ret tt
       end
     else ret tt) ;;
    record <- read_record ;;
    version <- lift (Py.getitem package "version") ;;
    installed_on <- Os.now_isoformat E ;;
    key <- lift (Py.as_str package_name) ;;
    record' <- lift (Py.setitem record key
                       (JObj [("version", version);
                              ("installed_on", JStr installed_on)])) ;;
    write_record record'
  else ret tt.

(** Lines 198-231, for the package found in the catalog. *)
Definition install_resolved (package_name package : json)
  (skip_confirmation : bool) : M unit :=
  platform_name <- check_platform package_name package ;;
  proceed <- confirm_install package_name skip_confirmation ;;
  if proceed : bool
  then a <- fetch_artifact package_name package platform_name ;;
       finish_install package_name package a
  else ret tt.

(** The [except] clauses of [install_package]. *)
Definition install_failed (e : exn) : M unit :=
  if is_FileNotFoundError e
  then handle_error ("Package list not found. Try updating the package "
                     +:+ "list using the 'update' command.")
  else handle_error ("An error occurred during installation: "
                     +:+ str_exn E e +:+ ".").

(** [depth] bounds the nesting of calls, as the interpreter's recursion
    limit does. *)
Fixpoint install_package (depth : nat) (package_name : json)
  (skip_confirmation : bool) : M unit :=
  match depth with
  | O => raise RecursionError
  | S depth' =>
      try_except
        (packages <- load_packages ;;
         if Py.eq_str package_name "*"
         then
           items <- lift (Py.iter packages) ;;
           for_each items (fun package =>
             name <- lift (Py.getitem package "name") ;;
             install_package depth' name skip_confirmation)
         else
           package <- resolve_package packages package_name ;;
           install_resolved package_name package skip_confirmation)
        install_failed
  end.

End Toolbox.

(** ** The other commands and the command loop *)

(** [except json.JSONDecodeError] *)
Definition is_JSONDecodeError (e : exn) : bool :=
  match e with JSONDecodeError => true | _ => false end.

(** What an iteration of the loop of [main] ends with: [continue], or
    falling off the end of the body, and [break]. *)
Inductive flow : Type :=
| Next
| Stop.

Section Commands.

Variable E : Env.

(** [urllib.request.urlretrieve(url, p)] for a value taken from the catalog:
    what is not a [str] is rejected before any connection is made. *)
Definition urlretrieve_value (url : json) (p : path) : M unit :=
  match url with
  | JStr s => Os.urlretrieve E s p
  | _ => raise (TypeError "expected string or bytes-like object")
  end.

Definition update_packages : M unit :=
  let default_update_url := catalog_url in
  update_url <-
    try_except
      (f <- Os.open_read (get_package_file_path E) ;;
       data <- lift (json_load E f) ;;
       lift (Py.get data "updateurl" (JStr default_update_url)))
      (fun e =>
         if is_missing_or_malformed e
         then
           Os.print (Fore.YELLOW
                     +:+ "Package list is missing or invalid. "
                     +:+ "Using default update URL: " +:+ default_update_url
                     +:+ Fore.RESET_ALL) ;;
           ret (JStr default_update_url)
         else raise e) ;;
  Os.print (Fore.WHITE +:+ "Updating package list from: "
            +:+ py_str E update_url +:+ Fore.RESET_ALL) ;;
  try_except
    (urlretrieve_value update_url (get_package_file_path E) ;;
     Os.print (Fore.GREEN +:+ "Package list updated successfully!"
               +:+ Fore.RESET_ALL))
    (fun e =>
       handle_error ("Failed to update package list: " +:+ str_exn E e)).

Definition yes_no (v : json) : string :=
  if Py.truthy v then "Yes" else "No".

(** Lines 116-122: the body of the loop of [list_packages]. *)
Definition describe_package (package : json) : M unit :=
  name <- lift (Py.getitem package "name") ;;
  Os.print (Fore.CYAN +:+ "Name: " +:+ py_str E name +:+ Fore.RESET_ALL) ;;
  version <- lift (Py.getitem package "version") ;;
  Os.print ("Version: " +:+ py_str E version) ;;
  description <- lift (Py.getitem package "description") ;;
  Os.print ("Description: " +:+ py_str E description) ;;
  os <- lift (Py.getitem package "os") ;;
  available <- lift (Py.join ", " os) ;;
  Os.print ("Available for: " +:+ available) ;;
  requirepath <- lift (Py.getitem package "requirepath") ;;
  Os.print ("Requires Path: " +:+ yes_no requirepath) ;;
  shortcut <- lift (Py.getitem package "shortcut") ;;
  Os.print ("Creates Shortcut: " +:+ yes_no shortcut) ;;
  Os.print (Fore.MAGENTA +:+ PyStr.times "-" 40 +:+ Fore.RESET_ALL).

Definition list_packages : M unit :=
  try_except
    (ensure_packages_file E ;;
     f <- Os.open_read (get_package_file_path E) ;;
     data <- lift (json_load E f) ;;
     Os.print (Fore.WHITE +:+ "Available Packages:"
               +:+ String "010"%char Fore.RESET_ALL) ;;
     packages <- lift (Py.get data "packages" (JArr [])) ;;
     items <- lift (Py.iter packages) ;;
     for_each items describe_package)
    (fun e =>
       if is_FileNotFoundError e
       then handle_error ("Package list not found. Try running the 'update' "
                          +:+ "command to fetch the package list.")
       else if is_JSONDecodeError e
       then handle_error
              "Failed to read package list (corrupted or invalid JSON)."
       else raise e).

(** The text that [help] prints: a triple-quoted literal, which begins with
    a line break and ends with the indentation of its closing quotes. *)
Definition help_text : string :=
  let nl := String "010"%char EmptyString in
  nl +:+ "Available Commands:" +:+ nl
  +:+ "list               List all available packages." +:+ nl
  +:+ "install <package>  Install the specified package." +:+ nl
  +:+ "uninstall <package> Uninstall the specified package." +:+ nl
  +:+ "update             Update the package list." +:+ nl
  +:+ "exit               Exit the application." +:+ nl
  +:+ "                ".

(** Lines 244-278: what [main] does with a line read at its prompt, once
    stripped.  [args] is not empty where [args[0]] is taken, the line being
    stripped and not empty. *)
Definition run_line (depth : nat) (user_input : string) : M flow :=
  if String.eqb user_input "" then ret Next
  else if String.eqb (PyStr.lower user_input) "exit"
  then Os.print (Fore.GREEN +:+ "Goodbye!" +:+ Fore.RESET_ALL) ;; ret Stop
  else
    let args := PyStr.split_ws user_input in
    let command := PyStr.lower (hd EmptyString args) in
    let package :=
      match args with
      | _ :: second :: _ => JStr second
      | _ => JNull
      end in
    let skip_confirmation :=
      (existsb (String.eqb "-y") args
       || existsb (String.eqb "--yes") args)%bool in
    (if String.eqb command "list" then list_packages
     else if String.eqb command "install" then
       (if negb (Py.truthy package)
        then handle_error "You must specify the package name to install."
        else ret tt) ;;
       install_package E depth package skip_confirmation
     else if String.eqb command "uninstall" then
       (if negb (Py.truthy package)
        then handle_error "You must specify the package name to uninstall."
        else ret tt) ;;
       name <- lift (Py.as_str package) ;;
       uninstall_package E name skip_confirmation
     else if String.eqb command "update" then update_packages
     else if String.eqb command "help" then Os.print help_text
     else handle_warning
            "Unknown command. Type 'help' for a list of commands.") ;;
    ret Next.

(** One turn of the loop of [main]: the body of its [try] and its
    [except Exception] clause.  An interrupt from the keyboard is not an
    event of the world modelled here. *)
Definition iteration (depth : nat) : M flow :=
  try_except
    (line <- Os.input (Fore.WHITE +:+ "toolbox> " +:+ Fore.RESET_ALL) ;;
     run_line depth (PyStr.strip line))
    (fun e =>
       handle_error ("An unexpected error occurred: " +:+ str_exn E e)).

(** [while True:], for at most [fuel] turns: [None] when they do not
    suffice. *)
Fixpoint main_loop (fuel depth : nat) (w : World)
  : option (World * outcome unit) :=
  match fuel with
  | O => None
  | S fuel' =>
      match iteration depth w with
      | (w', Return Next) => main_loop fuel' depth w'
      | (w', Return Stop) => Some (w', Return tt)
      | (w', Raise e) => Some (w', Raise e)
      | (w', Exit c) => Some (w', Exit c)
      end
  end.

Definition main (fuel depth : nat) (w : World)
  : option (World * outcome unit) :=
  main_loop fuel depth
    (add_stdout "Type 'help' for a list of commands or 'exit' to quit."
       (add_stdout (Fore.CYAN +:+ "Welcome to the Toolbox Package Manager!"
                    +:+ Fore.RESET_ALL) w)).

End Commands.

(** ** A JSON codec

    An instance of the [json_load] / [json_dump] parameters, used to run the
    program on concrete worlds: the text format of [json.dump(v, f,
    indent=4)] and a reader for it, over the ASCII range, with the escapes
    for the quote and the backslash. *)

Module JsonText.

Definition quote : ascii := "034"%char.
Definition backslash : ascii := "092"%char.
Definition newline : ascii := "010"%char.

Definition is_ws (c : ascii) : bool :=
  let n := nat_of_ascii c in
  (Nat.eqb n 32 || Nat.eqb n 9 || Nat.eqb n 10 || Nat.eqb n 13)%bool.

Fixpoint skip_ws (s : string) : string :=
  match s with
  | String c s' => if is_ws c then skip_ws s' else s
  | EmptyString => s
  end.

Fixpoint escape (s : string) : string :=
  match s with
  | EmptyString => EmptyString
  | String c s' =>
      if (Ascii.eqb c quote || Ascii.eqb c backslash)%bool
      then String backslash (String c (escape s'))
      else String c (escape s')
  end.

Definition quoted (s : string) : string :=
  String quote (escape s +:+ String quote EmptyString).

Definition indent (level : nat) : string :=
  String newline (String.concat "" (repeat "    " level)).

Definition decimal (n : Z) : string :=
  DecimalString.NilZero.string_of_int (Z.to_int n).

Fixpoint dump (level : nat) (v : json) : string :=
  match v with
  | JNull => "null"
  | JBool true => "true"
  | JBool false => "false"
  | JNum n => decimal n
  | JStr s => quoted s
  | JArr [] => "[]"
  | JArr l =>
      "[" +:+ indent (S level)
      +:+ String.concat ("," +:+ indent (S level))
            (List.map (dump (S level)) l)
      +:+ indent level +:+ "]"
  | JObj [] => "{}"
  | JObj d =>
      "{" +:+ indent (S level)
      +:+ String.concat ("," +:+ indent (S level))
            (List.map (fun kv => quoted (fst kv) +:+ ": "
                                 +:+ dump (S level) (snd kv)) d)
      +:+ indent level +:+ "}"
  end.

Definition dumps (v : json) : string := dump 0 v.

(** The body of a string literal, after its opening quote. *)
Fixpoint string_body (s : string) : option (string * string) :=
  match s with
  | EmptyString => None
  | String c s' =>
      if Ascii.eqb c quote then Some (EmptyString, s')
      else if Ascii.eqb c backslash then
        match s' with
        | String e s'' =>
            if (Ascii.eqb e quote || Ascii.eqb e backslash)%bool
            then match string_body s'' with
                 | Some (body, rest) => Some (String e body, rest)
                 | None => None
                 end
            else None
        | EmptyString => None
        end
      else match string_body s' with
           | Some (body, rest) => Some (String c body, rest)
           | None => None
           end
  end.

Definition is_digit (c : ascii) : bool :=
  let n := nat_of_ascii c in (Nat.leb 48 n && Nat.leb n 57)%bool.

Fixpoint span_digits (s : string) : string * string :=
  match s with
  | String c s' =>
      if is_digit c
      then let (d, rest) := span_digits s' in (String c d, rest)
      else (EmptyString, s)
  | EmptyString => (EmptyString, EmptyString)
  end.

Definition number (s : string) : option (json * string) :=
  let (sign, s1) :=
    match s with
    | String "-" s' => ("-", s')
    | _ => ("", s)
    end in
  let (d, rest) := span_digits s1 in
  match d with
  | EmptyString => None
  | _ =>
      match DecimalString.NilZero.int_of_string (sign +:+ d) with
      | Some i => Some (JNum (Z.of_int i), rest)
      | None => None
      end
  end.

Definition literal (word : string) (v : json) (s : string)
  : option (json * string) :=
  if String.prefix word s
  then Some (v, String.substring (String.length word)
                  (String.length s - String.length word) s)
  else None.

Fixpoint value (fuel : nat) (s : string) : option (json * string) :=
  match fuel with
  | O => None
  | S fuel' =>
      match skip_ws s with
      | String "{" r =>
          match skip_ws r with
          | String "}" r' => Some (JObj [], r')
          | r' =>
              match members fuel' r' [] with
              | Some (d, rest) => Some (JObj d, rest)
              | None => None
              end
          end
      | String "[" r =>
          match skip_ws r with
          | String "]" r' => Some (JArr [], r')
          | r' =>
              match elements fuel' r' [] with
              | Some (l, rest) => Some (JArr l, rest)
              | None => None
              end
          end
      | String "t" _ as r => literal "true" (JBool true) r
      | String "f" _ as r => literal "false" (JBool false) r
      | String "n" _ as r => literal "null" JNull r
      | String c r' as r =>
          if Ascii.eqb c quote
          then match string_body r' with
               | Some (body, rest) => Some (JStr body, rest)
               | None => None
               end
          else number r
      | EmptyString => None
      end
  end
with elements (fuel : nat) (s : string) (acc : list json)
  : option (list json * string) :=
  match fuel with
  | O => None
  | S fuel' =>
      match value fuel' s with
      | Some (v, rest) =>
          match skip_ws rest with
          | String "," rest' => elements fuel' rest' (acc ++ [v])
          | String "]" rest' => Some (acc ++ [v], rest')
          | _ => None
          end
      | None => None
      end
  end
with members (fuel : nat) (s : string) (acc : list (string * json))
  : option (list (string * json) * string) :=
  match fuel with
  | O => None
  | S fuel' =>
      match skip_ws s with
      | String c r =>
          if Ascii.eqb c quote
          then
            match string_body r with
            | Some (k, rest) =>
                match skip_ws rest with
                | String ":" rest' =>
                    match value fuel' rest' with
                    | Some (v, rest'') =>
                        match skip_ws rest'' with
                        | String "," r'' =>
                            members fuel' r'' (Py.dict_set k v acc)
                        | String "}" r'' => Some (Py.dict_set k v acc, r'')
                        | _ => None
                        end
                    | None => None
                    end
                | _ => None
                end
            | None => None
            end
          else None
      | EmptyString => None
      end
  end.

Definition loads (s : string) : result json :=
  match value (2 * String.length s + 2) s with
  | Some (v, rest) =>
      match skip_ws rest with
      | EmptyString => Ok v
      | _ => Err JSONDecodeError
      end
  | None => Err JSONDecodeError
  end.

Definition load (f : list byte) : result json :=
  loads (string_of_list_byte f).

Definition dump_bytes (v : json) : list byte :=
  list_byte_of_string (dumps v).

End JsonText.

(** ** Vocabulary of the statements *)

(** A name that is one ordinary path component: [p / name] is [p] followed
    by [name]. *)
Definition plain_name (s : string) : bool :=
  negb (PyStr.has_char "/" s) && negb (String.eqb s "")
  && negb (String.eqb s ".") && negb (String.eqb s "..").

(** What [handle_error message] prints. *)
Definition error_text (message : string) : string :=
  Fore.RED +:+ "Error: " +:+ message +:+ Fore.RESET_ALL.

(** Answers that the confirmation prompts take as a yes. *)
Definition affirmative (answer : string) : bool :=
  String.eqb (PyStr.lower (PyStr.strip answer)) "y".

Definition install_prompt (name : string) : string :=
  "Are you sure you want to install '" +:+ name +:+ "'? (Y/N): ".

Definition uninstall_prompt (name : string) : string :=
  "Are you sure you want to uninstall '" +:+ name +:+ "'? (Y/N): ".

(** The world after a confirmation that lets the operation go on: none is
    asked for under [skip_confirmation], otherwise the prompt is printed and
    the next line of input, a yes, is consumed. *)
Definition confirmed (prompt : string) (skip_confirmation : bool) (w : World)
  : option World :=
  if skip_confirmation then Some w
  else match stdin w with
       | answer :: rest =>
           if affirmative answer
           then Some (set_stdin rest (add_stdout prompt w))
           else None
       | [] => None
       end.

(** The directory that holds the record file and the installations. *)
Definition vendor_dir (E : Env) : path :=
  PyPath.parent (get_record_file_path E).

(** What [read_record] yields, from the node at the path of the record
    file. *)
Definition record_of_node (E : Env) (n : option node) : outcome json :=
  match n with
  | None => Return (JObj [])
  | Some Dir => Raise (IsADirectoryError (get_record_file_path E))
  | Some (File f) =>
      match json_load E f with
      | Ok v => Return v
      | Err e =>
          if is_missing_or_malformed e then Return (JObj []) else Raise e
      end
  end.

(** The mapping that a store holds. *)
Definition record_in (E : Env) (m : gmap path node) : outcome json :=
  record_of_node E (m !! get_record_file_path E).

(** The entry that a successful installation stores. *)
Definition record_entry (version : json) (installed_on : string) : json :=
  JObj [("version", version); ("installed_on", JStr installed_on)].

(** Lines 226-231 of [install_package], for a given version and time. *)
Definition upsert_record (E : Env) (name : string) (version : json)
  (installed_on : string) : M unit :=
  record <- read_record E ;;
  record' <- lift (Py.setitem record name (record_entry version installed_on)) ;;
  write_record E record'.

(** Lines 187-217 of [install_package] for a name other than the wildcard:
    the package found and the artifact fetched, or [None] when the
    installation is cancelled at the prompt. *)
Definition download_phase (E : Env) (package_name : json)
  (skip_confirmation : bool) : M (option (json * artifact)) :=
  packages <- load_packages E ;;
  package <- resolve_package E packages package_name ;;
  platform_name <- check_platform E package_name package ;;
  proceed <- confirm_install E package_name skip_confirmation ;;
  if proceed : bool
  then a <- fetch_artifact E package_name package platform_name ;;
       ret (Some (package, a))
  else ret None.

(** Lines 218-231 of [install_package], after [download_phase]. *)
Definition complete_install (E : Env) (package_name : json)
  (r : option (json * artifact)) : M unit :=
  match r with
  | Some (package, a) => finish_install E package_name package a
  | None => ret tt
  end.

(** A path that installing [name] cannot write to: it is no ancestor of the
    installation directory or of the record file, nor any path at which the
    artifact can be saved. *)
Definition apart (E : Env) (q : path) (name : string) : Prop :=
  ~ q `prefix_of` get_installation_path E name
  /\ (forall ext, q <> get_installation_path E name /. (name +:+ "." +:+ ext))
  /\ ~ q `prefix_of` get_record_file_path E.

(** [url.split('.')[-1]] *)
Definition url_extension (url : string) : string :=
  PyStr.last_item (PyStr.split "." url).

(** A computation that leaves the node at [q] as it is, however it ends. *)
Definition keeps {A} (q : path) (m : M A) : Prop :=
  forall w w' r, m w = (w', r) -> fs w' !! q = fs w !! q.

(** The entry under [name] in the mapping that a store holds. *)
Definition entry_in (E : Env) (m : gmap path node) (name : string)
  : option json :=
  match record_in E m with
  | Return (JObj r) => Py.dict_get name r
  | _ => None
  end.

(** [package] is installed under [name]: the installation directory is
    there and the record has an entry for the name, with the version of
    the descriptor. *)
Definition installed_as (E : Env) (m : gmap path node) (name : string)
  (package : json) : Prop :=
  Os.node_at m (get_installation_path E name) = Some Dir
  /\ exists version installed_on,
       Py.getitem package "version" = Ok version
       /\ entry_in E m name = Some (record_entry version installed_on).

(** In [m], the installation directory of [name], with all that lies below
    it, and the record entry of [name] are what they are in [m0]. *)
Definition as_before (E : Env) (m0 m : gmap path node) (name : string)
  : Prop :=
  (forall q, get_installation_path E name `prefix_of` q -> m !! q = m0 !! q)
  /\ entry_in E m name = entry_in E m0 name.

(** A mapping as the installer writes it: no key twice, and under each key
    a version string and a time. *)
Definition record_like (r : list (string * json)) : Prop :=
  NoDup r.*1
  /\ Forall (fun kv => exists v t, kv.2 = record_entry (JStr v) t) r.

(** ** Vocabulary for the other commands *)

(** What [update_packages] prints. *)
Definition update_notice : string :=
  Fore.YELLOW +:+ "Package list is missing or invalid. "
  +:+ "Using default update URL: " +:+ catalog_url +:+ Fore.RESET_ALL.

Definition update_announcement (url : string) : string :=
  Fore.WHITE +:+ "Updating package list from: " +:+ url +:+ Fore.RESET_ALL.

Definition update_done : string :=
  Fore.GREEN +:+ "Package list updated successfully!" +:+ Fore.RESET_ALL.

(** The value that [update_packages] takes as the URL from a catalog that is
    a mapping. *)
Definition update_url_in (d : list (string * json)) : json :=
  match Py.dict_get "updateurl" d with
  | Some v => v
  | None => JStr catalog_url
  end.

(** The world after the texts [out] have been printed, in order. *)
Definition add_lines (out : list string) (w : World) : World :=
  {| fs := fs w; stdin := stdin w; stdout := stdout w ++ out;
     opened_urls := opened_urls w; ticks := ticks w;
     launchers := launchers w |}.

(** A computation that does nothing but print. *)
Definition only_prints {A} (m : M A) : Prop :=
  forall w w' r, m w = (w', r) -> exists out, w' = add_lines out w.

Definition listing_header : string :=
  Fore.WHITE +:+ "Available Packages:" +:+ String "010"%char Fore.RESET_ALL.

(** What [list_packages] prints for a descriptor with these entries. *)
Definition summary (E : Env) (name version description : json)
  (os : list string) (requirepath shortcut : json) : list string :=
  [Fore.CYAN +:+ "Name: " +:+ py_str E name +:+ Fore.RESET_ALL;
   "Version: " +:+ py_str E version;
   "Description: " +:+ py_str E description;
   "Available for: " +:+ String.concat ", " os;
   "Requires Path: " +:+ (if Py.truthy requirepath then "Yes" else "No");
   "Creates Shortcut: " +:+ (if Py.truthy shortcut then "Yes" else "No");
   Fore.MAGENTA +:+ "----------------------------------------"
   +:+ Fore.RESET_ALL].

(** A descriptor that has the six entries [list_packages] shows, the
    platforms being a list of strings, and the lines shown for it. *)
Definition described (E : Env) (package : json) (lines : list string) : Prop :=
  exists name version description os requirepath shortcut,
    Py.getitem package "name" = Ok name
    /\ Py.getitem package "version" = Ok version
    /\ Py.getitem package "description" = Ok description
    /\ Py.getitem package "os" = Ok (JArr (List.map JStr os))
    /\ Py.getitem package "requirepath" = Ok requirepath
    /\ Py.getitem package "shortcut" = Ok shortcut
    /\ lines = summary E name version description os requirepath shortcut.

(** What [uninstall_package] prints after the removal. *)
Definition uninstall_done (name : string) : string :=
  Fore.GREEN +:+ "'" +:+ name +:+ "' has been successfully uninstalled."
  +:+ Fore.RESET_ALL.

(** The store without [p] and all that lies below it. *)
Definition without (p : path) (m : gmap path node) : gmap path node :=
  filter (fun kv => ~ p `prefix_of` kv.1) m.

(** What the [except] clauses of [install_package] print for [e]. *)
Definition install_error (E : Env) (e : exn) : string :=
  error_text
    (if is_FileNotFoundError e
     then "Package list not found. Try updating the package "
          +:+ "list using the 'update' command."
     else "An error occurred during installation: " +:+ str_exn E e +:+ ".").

(** The catalog loads in [w], leaving [w1]; it offers [package] under [name]
    for the current platform; and the confirmation, if any is asked for,
    is given, leaving [w2]. *)
Definition offered (E : Env) (name : string) (skip_confirmation : bool)
  (w w1 w2 : World) (package : json) : Prop :=
  exists packages items os,
    load_packages E w = (w1, Return packages)
    /\ Py.iter packages = Ok items
    /\ find_package items (JStr name) = Ok (Some package)
    /\ Py.getitem package "os" = Ok os
    /\ Py.contains os (platform_system E) = Ok true
    /\ confirmed (install_prompt name) skip_confirmation w1 = Some w2.

(** A descriptor whose name is a string other than [name], letter case
    apart. *)
Definition named_otherwise (name : string) (item : json) : Prop :=
  exists n, Py.getitem item "name" = Ok (JStr n)
            /\ PyStr.lower n <> PyStr.lower name.

Definition installing_text (E : Env) (name : string) (version : json)
  : string :=
  Fore.WHITE +:+ "Installing " +:+ name +:+ " (v" +:+ py_str E version
  +:+ ") for " +:+ platform_system E +:+ "..." +:+ Fore.RESET_ALL.

(** What [ensure_packages_file] and [install_package] print. *)
Definition catalog_missing_text (E : Env) : string :=
  Fore.YELLOW +:+ "Package list not found at "
  +:+ PyPath.str (get_package_file_path E) +:+ ". Downloading..."
  +:+ Fore.RESET_ALL.

Definition catalog_fetched_text (E : Env) : string :=
  Fore.GREEN +:+ "Package list downloaded successfully to "
  +:+ PyPath.str (get_package_file_path E) +:+ "." +:+ Fore.RESET_ALL.

Definition installed_text (name : string) : string :=
  Fore.GREEN +:+ name +:+ " installed successfully!" +:+ Fore.RESET_ALL.

(** [w'] comes after [w]: input has been consumed from the front only, and
    what was printed, opened, read off the clock and put on the desktop is
    still there. *)
Definition advances (w w' : World) : Prop :=
  stdin w' `suffix_of` stdin w
  /\ stdout w `prefix_of` stdout w'
  /\ opened_urls w `prefix_of` opened_urls w'
  /\ ticks w <= ticks w'
  /\ launchers w `prefix_of` launchers w'.

(** A computation under which the world advances and which, when it exits,
    exits with status 1. *)
Definition orderly {A} (m : M A) : Prop :=
  forall w w' r,
    m w = (w', r) -> advances w w' /\ forall c, r = Exit c -> c = 1%Z.

(** The prompt of [main]. *)
Definition prompt : string := Fore.WHITE +:+ "toolbox> " +:+ Fore.RESET_ALL.

(** The lines that end the session when read at the prompt. *)
Definition exit_line (line : string) : bool :=
  String.eqb (PyStr.lower (PyStr.strip line)) "exit".

(** The first word of a line, in lower case: what [main] takes as the
    command. *)
Definition command_of (line : string) : string :=
  PyStr.lower (hd EmptyString (PyStr.split_ws (PyStr.strip line))).

Definition known_commands : list string :=
  ["list"; "install"; "uninstall"; "update"; "help"].

Definition unknown_command_text : string :=
  Fore.YELLOW +:+ "Warning: "
  +:+ "Unknown command. Type 'help' for a list of commands."
  +:+ Fore.RESET_ALL.

(** The world after a line has been read at the prompt. *)
Definition prompted (rest : list string) (w : World) : World :=
  set_stdin rest (add_stdout prompt w).

(** ** A concrete environment

    An environment and stores on which the program can be run: a user's home
    directory, a catalog of three packages and a server that delivers the
    catalog and two of the artifacts. *)

Module Demo.

Definition bytes (s : string) : list byte := list_byte_of_string s.

Definition foo_artifact : list byte := bytes "foo 1.2.0 for Linux".
Definition bar_artifact : list byte := bytes "bar 0.9 for Linux".

Definition foo_digest : string :=
  Eval vm_compute in Sha256.hexdigest foo_artifact.

Definition descriptor (name version : string) (os : list string)
  (url digest : string) (shortcut : bool) : json :=
  JObj [("name", JStr name);
        ("version", JStr version);
        ("description", JStr "a tool");
        ("os", JArr (List.map JStr os));
        ("requirepath", JBool false);
        ("shortcut", JBool shortcut);
        ("url", JObj (List.map (fun o => (o, JStr url)) os));
        ("sha256", JObj (List.map (fun o => (o, JStr digest)) os))].

Definition foo : json :=
  descriptor "foo" "1.2.0" ["Linux"; "Darwin"]
    "https://example.org/dl/foo.tar.gz" foo_digest true.

(** The catalog's digest for [bar] is not the digest of what the server
    sends. *)
Definition bar : json :=
  descriptor "bar" "0.9" ["Linux"]
    "https://example.org/dl/bar.zip" foo_digest false.

Definition win : json :=
  descriptor "win" "3.1" ["Windows"]
    "https://example.org/dl/win.exe" foo_digest false.

Definition catalog : json :=
  JObj [("updateurl", JStr "https://example.org/packages.json");
        ("packages", JArr [foo; bar; win])].

Definition served (url : string) : response :=
  if String.eqb url "https://raw.githubusercontent.com/ravendevteam/toolbox/main/packages.json"
  then Served (JsonText.dump_bytes catalog)
  else if String.eqb url "https://example.org/dl/foo.tar.gz"
  then Served foo_artifact
  else if String.eqb url "https://example.org/dl/bar.zip"
  then Served bar_artifact
  else Refused (OSError "HTTP Error 404: Not Found").

Definition exn_text (e : exn) : string :=
  match e with
  | FileNotFoundError p => "No such file or directory: " +:+ PyPath.str p
  | FileExistsError p => "File exists: " +:+ PyPath.str p
  | NotADirectoryError p => "Not a directory: " +:+ PyPath.str p
  | IsADirectoryError p => "Is a directory: " +:+ PyPath.str p
  | OSError d => d
  | KeyError k => "'" +:+ k +:+ "'"
  | TypeError d => d
  | AttributeError d => "object has no attribute '" +:+ d +:+ "'"
  | ValueError d => d
  | JSONDecodeError => "Expecting value"
  | EOFError => "EOF when reading a line"
  | RecursionError => "maximum recursion depth exceeded"
  end.

Definition env (platform : string)
  (fault : path -> option (exn * list path)) : Env :=
  {| platform_system := platform;
     appdata := ["Users"; "ada"; "AppData"; "Roaming"];
     home := ["Users"; "ada"];
     json_load := JsonText.load;
     json_dump := JsonText.dump_bytes;
     remote := served;
     rmtree_fault := fault;
     shortcut_fault := fun _ _ => None;
     isoformat_now := fun n => "2024-05-01T12:00:0" +:+ JsonText.decimal (Z.of_nat n);
     str_exn := exn_text;
     repr := JsonText.dumps |}.

Definition linux : Env := env "Linux" (fun _ => None).

Definition vendor : path :=
  ["Users"; "ada"; "Library"; "Application Support"; "ravendevteam"].

(** A home directory in which the tool has never run. *)
Definition fresh_store : gmap path node :=
  list_to_map [(["Users"], Dir); (["Users"; "ada"], Dir)].

(** The catalog is cached. *)
Definition cached_store : gmap path node :=
  list_to_map
    [(["Users"], Dir); (["Users"; "ada"], Dir);
     (["Users"; "ada"; "Library"], Dir);
     (["Users"; "ada"; "Library"; "Application Support"], Dir);
     (vendor, Dir);
     (vendor ++ ["toolbox"], Dir);
     (vendor ++ ["toolbox"; "packages.json"],
      File (JsonText.dump_bytes catalog))].

Definition world (m : gmap path node) (input : list string) : World :=
  {| fs := m; stdin := input; stdout := []; opened_urls := []; ticks := 0;
     launchers := [] |}.

(** The environment in which files of an installation are in use, so that
    removing it fails after the artifact has gone. *)
Definition busy : Env :=
  env "Linux"
    (fun p => Some (OSError "Device or resource busy", [p ++ ["foo.gz"]])).

(** [foo] is installed and recorded. *)
Definition installed_store : gmap path node :=
  fs (fst (install_package linux 2 (JStr "foo") true (world cached_store []))).

(** A directory for [foo] that the record does not know. *)
Definition unrecorded_store : gmap path node :=
  <[vendor ++ ["foo"] := Dir]> cached_store.

(** The record knows [bar]. *)
Definition recorded_store : gmap path node :=
  <[vendor ++ ["record.json"] :=
      File (JsonText.dump_bytes
              (JObj [("bar", record_entry (JStr "0.9") "2024-04-30T09:00:00")]))]>
    cached_store.

Definition bar_files : artifact :=
  {| install_path := vendor ++ ["bar"];
     download_path := vendor ++ ["bar"; "bar.zip"];
     sha256 := JStr foo_digest |}.

Definition foo_files (name : string) : artifact :=
  {| install_path := vendor ++ [name];
     download_path := vendor ++ [name; name +:+ ".gz"];
     sha256 := JStr foo_digest |}.

(** *** More packages, catalogs and stores *)

Definition baz_artifact : list byte := bytes "baz 2.0 for Linux".

Definition baz_digest : string :=
  Eval vm_compute in Sha256.hexdigest baz_artifact.

Definition baz : json :=
  descriptor "baz" "2.0" ["Linux"]
    "https://example.org/dl/baz.zip" baz_digest false.

(** The URL of [tool] has no dot after the name of its host. *)
Definition tool : json :=
  descriptor "tool" "0.1" ["Linux"]
    "https://example.org/dl/tool" foo_digest false.

(** A descriptor with a name and nothing else. *)
Definition half : json := JObj [("name", JStr "half")].

Definition star : json :=
  descriptor "*" "1.0" ["Linux"]
    "https://example.org/dl/all.zip" foo_digest false.

Definition depot_catalog : json :=
  JObj [("updateurl", JStr "https://example.org/packages.json");
        ("packages", JArr [baz; tool; half])].

Definition star_catalog : json := JObj [("packages", JArr [star; foo])].

Definition bare_catalog : json :=
  JObj [("updateurl", JStr "https://example.org/packages.json")].

Definition depot_served (url : string) : response :=
  if String.eqb url "https://example.org/packages.json"
  then Served (JsonText.dump_bytes depot_catalog)
  else if String.eqb url "https://example.org/dl/baz.zip"
  then Served baz_artifact
  else if String.eqb url "https://example.org/dl/tool"
  then Served (bytes "tool 0.1")
  else served url.

Definition with_remote (r : string -> response) (E : Env) : Env :=
  {| platform_system := platform_system E;
     appdata := appdata E;
     home := home E;
     json_load := json_load E;
     json_dump := json_dump E;
     remote := r;
     rmtree_fault := rmtree_fault E;
     shortcut_fault := shortcut_fault E;
     isoformat_now := isoformat_now E;
     str_exn := str_exn E;
     repr := repr E |}.

(** A server that also has the second catalog and its artifacts. *)
Definition depot : Env := with_remote depot_served linux.

Definition offline : Env :=
  with_remote (fun _ => Refused (OSError "Network is unreachable")) linux.

Definition windows : Env := env "Windows" (fun _ => None).

Definition catalog_path : path := vendor ++ ["toolbox"; "packages.json"].

Definition record_path : path := vendor ++ ["record.json"].

Definition with_catalog (f : list byte) (m : gmap path node)
  : gmap path node :=
  <[catalog_path := File f]> m.

Definition with_record (f : list byte) (m : gmap path node)
  : gmap path node :=
  <[record_path := File f]> m.

Definition depot_store : gmap path node :=
  with_catalog (JsonText.dump_bytes depot_catalog) cached_store.

Definition star_store : gmap path node :=
  with_catalog (JsonText.dump_bytes star_catalog) cached_store.

Definition bare_store : gmap path node :=
  with_catalog (JsonText.dump_bytes bare_catalog) cached_store.

(** The catalog file does not hold JSON. *)
Definition garbled_store : gmap path node :=
  with_catalog (bytes "{not json") cached_store.

(** The catalog file holds a JSON array. *)
Definition array_store : gmap path node :=
  with_catalog (bytes "[]") cached_store.

(** The directory of the catalog without the catalog. *)
Definition emptied_store : gmap path node := delete catalog_path cached_store.

Definition foo_entry : json := record_entry (JStr "1.2.0") "2024-05-01T12:00:00".

Definition bar_entry : json := record_entry (JStr "0.9") "2024-04-30T09:00:00".

(** [foo] is installed, and the record lists [foo] and [bar]. *)
Definition foo_store : gmap path node :=
  with_record
    (JsonText.dump_bytes (JObj [("foo", foo_entry); ("bar", bar_entry)]))
    (<[vendor ++ ["foo"; "foo.gz"] := File foo_artifact]>
       (<[vendor ++ ["foo"] := Dir]> cached_store)).

(** A directory of the user's own. *)
Definition documents_store : gmap path node :=
  <[["Users"; "ada"; "Documents"; "thesis.txt"] := File (bytes "chapter 1")]>
    (<[["Users"; "ada"; "Documents"] := Dir]> cached_store).

(** The lines that [list_packages] shows for a [descriptor]. *)
Definition summary_of (name version : string) (os : list string)
  (shortcut : bool) : list string :=
  summary linux (JStr name) (JStr version) (JStr "a tool") os (JBool false)
    (JBool shortcut).

(** *** Names that are not one path component

    A descriptor whose name is the path of the record file less its
    extension, and whose URL ends in [.json]. *)
Definition usurper_name : string :=
  "/Users/ada/Library/Application Support/ravendevteam/record".

Definition ghost_entry : json := record_entry (JStr "6.6") "2001-01-01T00:00:00".

Definition usurper_body : list byte :=
  JsonText.dump_bytes (JObj [("ghost", ghost_entry)]).

Definition usurper : json :=
  descriptor usurper_name "1.0" ["Linux"]
    "https://example.org/dl/payload.json" foo_digest false.

(** A descriptor whose name is an absolute path. *)
Definition beside : json :=
  descriptor "/opt/x" "1.0" ["Linux"]
    "https://example.org/dl/foo.tar.gz" foo_digest false.

(** A descriptor whose name has two components, the first of which is the
    name of the descriptor that follows it in the catalog. *)
Definition nested : json :=
  descriptor "x/y" "1.0" ["Linux"]
    "https://example.org/dl/y.zip" foo_digest false.

Definition x_tool : json :=
  descriptor "x" "1.0" ["Linux"]
    "https://example.org/dl/foo.tar.gz" foo_digest false.

(** A descriptor named as the record file is, with the digest of another
    artifact. *)
Definition registry : json :=
  descriptor "record.json" "1.0" ["Linux"]
    "https://example.org/dl/bar.zip" foo_digest false.

Definition odd_catalog : json :=
  JObj [("packages", JArr [nested; x_tool; usurper; beside; registry])].

Definition odd_served (url : string) : response :=
  if String.eqb url "https://example.org/dl/payload.json"
  then Served usurper_body
  else if String.eqb url "https://example.org/dl/win.exe"
  then Served foo_artifact
  else served url.

Definition odd : Env := with_remote odd_served linux.

Definition odd_store : gmap path node :=
  with_catalog (JsonText.dump_bytes odd_catalog) recorded_store.

(** The same catalog, and no record file. *)
Definition odd_unrecorded_store : gmap path node :=
  with_catalog (JsonText.dump_bytes odd_catalog) cached_store.

(** The environment in which the removal of a directory fails after the
    file [record.json] in it has gone. *)
Definition brittle : Env :=
  env "Linux"
    (fun p => Some (OSError "Permission denied", [p ++ ["record.json"]])).

(** Windows, with a server that has the artifact of [win]. *)
Definition windows_served : Env := with_remote odd_served windows.

End Demo.

(** * Properties *)

Section MonadSteps.
Context {A B : Type}.

Lemma bind_return (m : M A) (k : A -> M B) w w' a :
  m w = (w', Return a) -> bind m k w = k a w'.
Proof. intros H. unfold bind. rewrite H. reflexivity. Qed.

Lemma bind_raise (m : M A) (k : A -> M B) w w' e :
  m w = (w', Raise e) -> bind m k w = (w', Raise e).
Proof. intros H. unfold bind. rewrite H. reflexivity. Qed.

Lemma bind_exit (m : M A) (k : A -> M B) w w' c :
  m w = (w', Exit c) -> bind m k w = (w', Exit c).
Proof. intros H. unfold bind. rewrite H. reflexivity. Qed.

Lemma try_return (m : M A) (h : exn -> M A) w w' a :
  m w = (w', Return a) -> try_except m h w = (w', Return a).
Proof. intros H. unfold try_except. rewrite H. reflexivity. Qed.

Lemma try_raise (m : M A) (h : exn -> M A) w w' e :
  m w = (w', Raise e) -> try_except m h w = h e w'.
Proof. intros H. unfold try_except. rewrite H. reflexivity. Qed.

Lemma try_exit (m : M A) (h : exn -> M A) w w' c :
  m w = (w', Exit c) -> try_except m h w = (w', Exit c).
Proof. intros H. unfold try_except. rewrite H. reflexivity. Qed.

(** A run is the world it leaves together with its outcome. *)
Lemma run_eq (r : World * outcome A) o : snd r = o -> r = (fst r, o).
Proof. destruct r; simpl; congruence. Qed.
End MonadSteps.

(** Paths *)

Lemma split_no_sep sep s :
  PyStr.has_char sep s = false -> PyStr.split sep s = [s].
Proof.
  induction s as [|c s IH]; [reflexivity|]. simpl.
  intros H. apply orb_false_iff in H as [Hc Hs].
  rewrite Hc, (IH Hs). reflexivity.
Qed.

Lemma plain_name_inv s :
  plain_name s = true ->
  PyStr.has_char "/" s = false /\ s <> "" /\ s <> "." /\ s <> "..".
Proof.
  unfold plain_name. rewrite !andb_true_iff, !negb_true_iff.
  intros [[[H1 H2] H3] H4].
  apply String.eqb_neq in H2, H3, H4. auto.
Qed.

Lemma div_plain (p : path) s : plain_name s = true -> p /. s = p ++ [s].
Proof.
  intros H. apply plain_name_inv in H as (Hc & Hne & Hdot & _).
  unfold PyPath.div, PyPath.parts. rewrite (split_no_sep _ _ Hc).
  assert (Ha : PyPath.is_absolute s = false).
  { destruct s as [|c s]; [reflexivity|]. simpl in *.
    apply orb_false_iff in Hc as [Hc _]. exact Hc. }
  rewrite Ha. simpl.
  apply String.eqb_neq in Hne, Hdot. rewrite Hne, Hdot. reflexivity.
Qed.

Lemma read_blocks_all (h : Sha256.hash_object) (rest : list byte) :
  read_blocks h rest = h ++ rest.
Proof.
  funelim (read_blocks h rest).
  - clear H Heqcall. apply (f_equal length) in e. rewrite length_take in e.
    destruct rest; [by rewrite app_nil_r | simpl in e; lia].
  - rewrite H. unfold Sha256.update.
    rewrite <- e, <- app_assoc, take_drop. reflexivity.
Qed.

Lemma lower_ascii_hex_digit z :
  (0 <= z < 16)%Z -> PyStr.lower_ascii (Sha256.hex_digit z) = Sha256.hex_digit z.
Proof.
  intros Hz.
  assert (Hc : In z (List.map Z.of_nat (seq 0 16))).
  { apply in_map_iff. exists (Z.to_nat z). split; [lia|]. apply in_seq. lia. }
  simpl in Hc.
  repeat (destruct Hc as [<-|Hc]; [reflexivity|]). destruct Hc.
Qed.

Lemma byte_val_range b : (0 <= Sha256.byte_val b < 256)%Z.
Proof.
  unfold Sha256.byte_val. pose proof (Byte.to_N_bounded b). lia.
Qed.

(** The digest function on the test vectors of FIPS 180-4: the empty
    message, one block, and a message whose padding takes a second block. *)
Example sha256_vectors :
  Sha256.hexdigest []
  = "e3b0c44298fc1c149afbf4c8996fb92427ae41e4649b934ca495991b7852b855"
  /\ Sha256.hexdigest (list_byte_of_string "abc")
     = "ba7816bf8f01cfea414140de5dae2223b00361a396177a9cb410ff61f20015ad"
  /\ Sha256.hexdigest
       (list_byte_of_string
          "abcdbcdecdefdefgefghfghighijhijkijkljklmklmnlmnomnopnopq")
     = "248d6a61d20638b8e5c026930c3e6039a33ce45964ff2167f6ecedd419db06c1".
Proof. repeat split; vm_compute; reflexivity. Qed.

Lemma hex_lower bs : PyStr.lower (Sha256.hex bs) = Sha256.hex bs.
Proof.
  induction bs as [|b bs IH]; [reflexivity|].
  pose proof (byte_val_range b).
  cbn [Sha256.hex PyStr.lower]. rewrite IH.
  rewrite !lower_ascii_hex_digit; [reflexivity| |].
  - apply Z.mod_pos_bound. lia.
  - split; [apply Z.div_pos; lia | apply Z.div_lt_upper_bound; lia].
Qed.

Section Stores.

Variable E : Env.

Lemma record_file_path_eq :
  get_record_file_path E = vendor_dir E ++ ["record.json"].
Proof.
  unfold vendor_dir, get_record_file_path, PyPath.parent.
  destruct (is_windows E); rewrite !div_plain by reflexivity;
    rewrite removelast_last; reflexivity.
Qed.

Lemma installation_path_plain name :
  plain_name name = true ->
  get_installation_path E name = vendor_dir E ++ [name].
Proof.
  intros H.
  unfold vendor_dir, get_installation_path, get_record_file_path,
    PyPath.parent.
  destruct (is_windows E); rewrite !div_plain by (reflexivity || exact H);
    rewrite removelast_last; reflexivity.
Qed.

Lemma package_file_path_eq :
  get_package_file_path E = vendor_dir E ++ ["toolbox"; "packages.json"].
Proof.
  unfold vendor_dir, get_package_file_path, get_record_file_path,
    PyPath.parent.
  destruct (is_windows E); rewrite !div_plain by reflexivity;
    rewrite removelast_last, <- !app_assoc; reflexivity.
Qed.

Lemma record_file_path_not_root : get_record_file_path E <> [].
Proof. rewrite record_file_path_eq. by destruct (vendor_dir E). Qed.

(** The record file is not strictly inside the directory of a plain
    name. *)
Lemma record_not_below name :
  plain_name name = true ->
  ~ Os.below (get_installation_path E name) (get_record_file_path E).
Proof.
  intros H [Hpre Hne].
  rewrite installation_path_plain, record_file_path_eq in * by exact H.
  apply prefix_app_inv in Hpre.
  destruct Hpre as [k Hk]. simpl in Hk. injection Hk as Hn Hk'. subst.
  by apply Hne.
Qed.

(** [handle_error] prints and exits with status 1. *)
Lemma handle_error_exit {A} message w :
  handle_error (A := A) message w
  = (add_stdout (error_text message) w, Exit 1%Z).
Proof. reflexivity. Qed.

(** [read_record] leaves the world alone and looks at one node only. *)
Lemma read_record_eq w :
  read_record E w = (w, record_in E (fs w)).
Proof.
  unfold read_record, record_in, record_of_node. cbv zeta.
  pose proof record_file_path_not_root as Hne.
  destruct (get_record_file_path E) as [|c rp] eqn:Hrp; [done|].
  unfold bind, Os.path_exists, gets, try_except, Os.open_read, Os.node_at.
  cbv beta.
  destruct (fs w !! (c :: rp)) as [[f|]|] eqn:Hn; cbn; rewrite ?Hn; try reflexivity.
  cbn.
  destruct (json_load E f) as [v|e]; cbn; [reflexivity|].
  destruct (is_missing_or_malformed e); reflexivity.
Qed.

Lemma record_in_eq m :
  record_in E m = record_of_node E (m !! get_record_file_path E).
Proof. reflexivity. Qed.

Lemma read_record_record_in w :
  read_record E w = (w, record_in E (fs w)).
Proof. apply read_record_eq. Qed.

(** ** Uninstall *)

Lemma uninstall_absent name skip w :
  Os.node_at (fs w) (get_installation_path E name) = None ->
  uninstall_package E name skip w
  = (add_stdout
       (error_text ("Package '" +:+ name +:+ "' is not installed.")) w,
     Exit 1%Z).
Proof.
  intros H. unfold uninstall_package.
  erewrite try_exit; [reflexivity|].
  erewrite bind_return; [|reflexivity].
  rewrite H. reflexivity.
Qed.

Lemma uninstall_proceeds name skip w w0 n :
  Os.node_at (fs w) (get_installation_path E name) = Some n ->
  confirmed (uninstall_prompt name) skip w = Some w0 ->
  uninstall_package E name skip w
  = try_except (remove_installed E name) (uninstall_failed E name) w0
  /\ fs w0 = fs w.
Proof.
  intros Hn Hc. unfold uninstall_package, try_except. cbv zeta.
  unfold bind at 1. unfold Os.path_exists, gets. rewrite Hn.
  unfold confirmed in Hc. destruct skip.
  - injection Hc as <-. split; reflexivity.
  - destruct (stdin w) as [|answer rest] eqn:Hin; [discriminate|].
    unfold affirmative in Hc.
    destruct (String.eqb (PyStr.lower (PyStr.strip answer)) "y") eqn:Hy;
      [|discriminate].
    injection Hc as <-. split; [|reflexivity].
    cbn -[remove_installed]. unfold bind at 1, Os.input.
    cbn -[remove_installed]. rewrite Hin.
    fold (uninstall_prompt name). rewrite Hy. reflexivity.
Qed.

Lemma filter_lookup_keep (P : path * node -> Prop)
  `{!forall x, Decision (P x)} (m : gmap path node) q :
  (forall x, P (q, x)) -> filter P m !! q = m !! q.
Proof.
  intros HP. destruct (m !! q) as [x|] eqn:Hq.
  - apply map_lookup_filter_Some_2; [exact Hq | apply HP].
  - apply map_lookup_filter_None_2. by left.
Qed.

Lemma filter_lookup_drop (P : path * node -> Prop)
  `{!forall x, Decision (P x)} (m : gmap path node) q :
  (forall x, ~ P (q, x)) -> filter P m !! q = None.
Proof.
  intros HP. apply map_lookup_filter_None_2. right. intros x _. apply HP.
Qed.

(** A removal that raises leaves alone whatever is not strictly below the
    directory. *)
Lemma rmtree_raise_keeps p q w w' e :
  Os.rmtree E p w = (w', Raise e) ->
  ~ Os.below p q ->
  fs w' !! q = fs w !! q.
Proof.
  unfold Os.rmtree. intros H Hq.
  destruct (Os.node_at (fs w) p) as [[f|]|]; try (injection H as <- _; reflexivity).
  destruct (rmtree_fault E p) as [[e' gone]|]; [|discriminate].
  injection H as <- _. cbn.
  apply filter_lookup_keep. intros x [Hb _]. by apply Hq.
Qed.

Lemma rmtree_return p w w' :
  Os.rmtree E p w = (w', Return tt) ->
  w' = set_fs (filter (fun kv => ~ p `prefix_of` kv.1)) w
  /\ rmtree_fault E p = None.
Proof.
  unfold Os.rmtree. intros H.
  destruct (Os.node_at (fs w) p) as [[f|]|]; try discriminate.
  destruct (rmtree_fault E p) as [[e' gone]|]; [discriminate|].
  injection H as <-. done.
Qed.

(** Claim C4, as amended.  Under POSIX paths and for a name that is one
    ordinary path component: when the recursive removal of the installation
    directory raises, [uninstall_package] prints the "An error occurred
    while uninstalling" message and exits with status 1, and the record
    file, and so the mapping it holds, is as it was before the call. *)
Theorem uninstall_removal_error name skip w w0 w1 n e :
  is_windows E = false ->
  plain_name name = true ->
  Os.node_at (fs w) (get_installation_path E name) = Some n ->
  confirmed (uninstall_prompt name) skip w = Some w0 ->
  Os.rmtree E (get_installation_path E name) w0 = (w1, Raise e) ->
  uninstall_package E name skip w
  = (add_stdout
       (error_text ("An error occurred while uninstalling '" +:+ name
                    +:+ "': " +:+ str_exn E e +:+ ". Please try again."))
       w1,
     Exit 1%Z)
  /\ fs w1 !! get_record_file_path E = fs w !! get_record_file_path E
  /\ record_in E (fs w1) = record_in E (fs w).
Proof.
  intros _ Hplain Hn Hc Hrm.
  destruct (uninstall_proceeds _ _ _ _ _ Hn Hc) as [-> Hfs].
  assert (Hrec : fs w1 !! get_record_file_path E
                 = fs w !! get_record_file_path E).
  { rewrite <- Hfs. eapply rmtree_raise_keeps; [exact Hrm|].
    by apply record_not_below. }
  split; [|split; [exact Hrec|]].
  - erewrite try_raise; [reflexivity|].
    unfold remove_installed. cbv zeta. by apply bind_raise.
  - by rewrite !record_in_eq, Hrec.
Qed.

(** Claim C5.  When the installation directory does not exist, whatever
    the record file holds, [uninstall_package] reports that the package is
    not installed and exits with status 1, and does so again when called
    again.  When the directory exists and its removal succeeds, a record
    that has no entry for the name is not an error: the call returns
    normally without writing the record, and a further call reports that
    the package is not installed. *)
Theorem uninstall_not_installed name :
  (forall skip skip' w,
      Os.node_at (fs w) (get_installation_path E name) = None ->
      let not_installed :=
        error_text ("Package '" +:+ name +:+ "' is not installed.") in
      uninstall_package E name skip w
      = (add_stdout not_installed w, Exit 1%Z)
      /\ uninstall_package E name skip' (add_stdout not_installed w)
         = (add_stdout not_installed (add_stdout not_installed w), Exit 1%Z))
  /\ (forall skip w w0 n record,
        Os.node_at (fs w) (get_installation_path E name) = Some n ->
        confirmed (uninstall_prompt name) skip w = Some w0 ->
        let removed :=
          add_stdout
            (Fore.GREEN +:+ "'" +:+ name
             +:+ "' has been successfully uninstalled." +:+ Fore.RESET_ALL)
            (set_fs (filter (fun kv =>
                       ~ get_installation_path E name `prefix_of` kv.1)) w0) in
        Os.rmtree E (get_installation_path E name) w0
        = (set_fs (filter (fun kv =>
                     ~ get_installation_path E name `prefix_of` kv.1)) w0,
           Return tt) ->
        record_in E (fs removed) = Return record ->
        Py.contains record name = Ok false ->
        uninstall_package E name skip w = (removed, Return tt)
        /\ (get_installation_path E name <> [] ->
            forall skip',
              uninstall_package E name skip' removed
              = (add_stdout
                   (error_text ("Package '" +:+ name
                                +:+ "' is not installed."))
                   removed,
                 Exit 1%Z))).
Proof.
  split.
  - intros skip skip' w Habs not_installed.
    split; apply uninstall_absent; [exact Habs|]. exact Habs.
  - intros skip w w0 n record Hn Hc removed Hrm Hrec Hin.
    destruct (uninstall_proceeds _ _ _ _ _ Hn Hc) as [-> Hfs].
    split.
    + apply try_return.
      unfold remove_installed. cbv zeta.
      erewrite bind_return; [|exact Hrm].
      erewrite bind_return; [|reflexivity].
      fold removed.
      erewrite bind_return;
        [|rewrite read_record_record_in, Hrec; reflexivity].
      rewrite Hin. reflexivity.
    + intros Hroot skip'. apply uninstall_absent.
      unfold Os.node_at.
      destruct (get_installation_path E name) as [|c p] eqn:Hp; [done|].
      cbn. apply filter_lookup_drop. intros x Hx. by apply Hx.
Qed.

(** ** The record store *)

Lemma dict_get_set_eq k v d : Py.dict_get k (Py.dict_set k v d) = Some v.
Proof.
  induction d as [|[k' v'] d IH]; simpl.
  - by rewrite String.eqb_refl.
  - destruct (String.eqb k' k) eqn:Hk; simpl.
    + by rewrite String.eqb_refl.
    + by rewrite Hk.
Qed.

Lemma dict_get_set_ne k k' v d :
  k' <> k -> Py.dict_get k' (Py.dict_set k v d) = Py.dict_get k' d.
Proof.
  intros Hne. induction d as [|[k0 v0] d IH]; simpl.
  - apply String.eqb_neq in Hne. rewrite String.eqb_sym. by rewrite Hne.
  - destruct (String.eqb k0 k) eqn:Hk; simpl.
    + apply String.eqb_eq in Hk as ->.
      apply String.eqb_neq in Hne. rewrite String.eqb_sym. by rewrite Hne.
    + by rewrite IH.
Qed.

Lemma write_file_return p data w w' :
  Os.write_file p data w = (w', Return tt) ->
  w' = set_fs (insert p (File data)) w.
Proof.
  unfold Os.write_file. intros H.
  destruct (Os.node_at (fs w) p) as [[f|]|];
    destruct (Os.node_at (fs w) (PyPath.parent p)) as [[g|]|];
    congruence.
Qed.

Lemma write_record_return record w w' :
  write_record E record w = (w', Return tt) ->
  fs w' !! get_record_file_path E = Some (File (json_dump E record)).
Proof.
  unfold write_record. cbv zeta. unfold bind. intros H.
  destruct (Os.mkdir_parents _ w) as [w1 [[]|e|c]]; try discriminate.
  apply write_file_return in H as ->. cbn. apply lookup_insert_eq.
Qed.

(** Claim C7.  Inserting the entry for [name] into the mapping that the
    record store holds and writing it back, as lines 226-231 of
    [install_package] do, leaves a store from which [read_record] loads a
    mapping whose entry for [name] is exactly the version and the time
    given, every other entry being as before.  The hypothesis on
    [json_load] and [json_dump] is the round trip of the [json] library on
    the mapping written. *)
Theorem record_upsert_roundtrip name v t w w1 r0 :
  let entry := record_entry (JStr v) t in
  let r1 := Py.dict_set name entry r0 in
  record_in E (fs w) = Return (JObj r0) ->
  write_record E (JObj r1) w = (w1, Return tt) ->
  json_load E (json_dump E (JObj r1)) = Ok (JObj r1) ->
  upsert_record E name (JStr v) t w = (w1, Return tt)
  /\ read_record E w1 = (w1, Return (JObj r1))
  /\ Py.dict_get name r1 = Some entry
  /\ forall k, k <> name -> Py.dict_get k r1 = Py.dict_get k r0.
Proof.
  intros entry r1 Hrec Hwrite Hcodec.
  split; [|split; [|split]].
  - unfold upsert_record.
    erewrite bind_return; [|rewrite read_record_record_in, Hrec; reflexivity].
    exact Hwrite.
  - rewrite read_record_eq, record_in_eq, (write_record_return _ _ _ Hwrite).
    cbn. by rewrite Hcodec.
  - apply dict_get_set_eq.
  - intros k Hk. by apply dict_get_set_ne.
Qed.

(** ** The integrity check *)

Lemma validate_checksum_eq p data expected w :
  Os.node_at (fs w) p = Some (File data) ->
  validate_checksum p expected w
  = (w, Return (Py.eq_str expected (Sha256.hexdigest data))).
Proof.
  intros H. unfold validate_checksum, bind, Os.open_read. rewrite H.
  cbn. by rewrite read_blocks_all.
Qed.

(** Claim C6.  On a file, [validate_checksum] returns [True] exactly when
    the lowercase hexadecimal SHA-256 digest of the whole content, read in
    blocks of 4096 bytes, is the expected string; the digest is its own
    lowercase form, so an expected string that differs from it in letter
    case only gives [False]. *)
Theorem validate_checksum_spec file_path data expected w :
  Os.node_at (fs w) file_path = Some (File data) ->
  exists b : bool,
    validate_checksum file_path (JStr expected) w = (w, Return b)
    /\ (b = true <-> Sha256.hexdigest data = expected)
    /\ PyStr.lower (Sha256.hexdigest data) = Sha256.hexdigest data
    /\ (PyStr.lower expected = Sha256.hexdigest data ->
        expected <> Sha256.hexdigest data -> b = false).
Proof.
  intros H. eexists. split; [by apply validate_checksum_eq|].
  cbn. split; [|split].
  - rewrite String.eqb_eq. split; congruence.
  - apply hex_lower.
  - intros _ Hne. by apply String.eqb_neq.
Qed.
End Stores.

(** ** Computations that leave a node alone *)

Section Keeps.
Context {A B : Type}.
Variable q : path.

Lemma keeps_ret (a : A) : keeps q (ret a).
Proof. intros w w' r H. by injection H as <- _. Qed.

Lemma keeps_raise (e : exn) : keeps q (raise (A := A) e).
Proof. intros w w' r H. by injection H as <- _. Qed.

Lemma keeps_sys_exit c : keeps q (sys_exit (A := A) c).
Proof. intros w w' r H. by injection H as <- _. Qed.

Lemma keeps_lift (x : result A) : keeps q (lift x).
Proof. destruct x; [apply keeps_ret | apply keeps_raise]. Qed.

Lemma keeps_gets (f : World -> A) : keeps q (gets f).
Proof. intros w w' r H. by injection H as <- _. Qed.

Lemma keeps_bind (m : M A) (k : A -> M B) :
  keeps q m -> (forall a, keeps q (k a)) -> keeps q (bind m k).
Proof.
  intros Hm Hk w w' r H. unfold bind in H.
  destruct (m w) as [w1 [a|e|c]] eqn:Hmw.
  - rewrite (Hk _ _ _ _ H). eapply Hm, Hmw.
  - injection H as <- _. eapply Hm, Hmw.
  - injection H as <- _. eapply Hm, Hmw.
Qed.

Lemma keeps_bind_ret (a : A) (k : A -> M B) :
  keeps q (k a) -> keeps q (bind (ret a) k).
Proof. intros Hk w w' r H. exact (Hk w w' r H). Qed.

Lemma keeps_try (m : M A) (h : exn -> M A) :
  keeps q m -> (forall e, keeps q (h e)) -> keeps q (try_except m h).
Proof.
  intros Hm Hh w w' r H. unfold try_except in H.
  destruct (m w) as [w1 [a|e|c]] eqn:Hmw.
  - injection H as <- _. eapply Hm, Hmw.
  - rewrite (Hh _ _ _ _ H). eapply Hm, Hmw.
  - injection H as <- _. eapply Hm, Hmw.
Qed.
End Keeps.

Section KeepsOs.
Variable E : Env.
Variable q : path.

Lemma keeps_print s : keeps q (Os.print s).
Proof. intros w w' r H. by injection H as <- _. Qed.

Lemma keeps_input s : keeps q (Os.input s).
Proof.
  intros w w' r H. unfold Os.input in H. cbn in H.
  destruct (stdin w); by injection H as <- _.
Qed.

Lemma keeps_handle_error {A} s : keeps q (handle_error (A := A) s).
Proof. intros w w' r H. by injection H as <- _. Qed.

Lemma keeps_path_exists p : keeps q (Os.path_exists p).
Proof. apply keeps_gets. Qed.

Lemma keeps_glob_first p : keeps q (Os.glob_first p).
Proof. apply keeps_gets. Qed.

Lemma keeps_open_read p : keeps q (Os.open_read p).
Proof.
  intros w w' r H. unfold Os.open_read in H.
  destruct (Os.node_at (fs w) p) as [[f|]|]; by injection H as <- _.
Qed.

Lemma keeps_now : keeps q (Os.now_isoformat E).
Proof. intros w w' r H. by injection H as <- _. Qed.

Lemma keeps_add_launcher l : keeps q (modify (add_launcher l)).
Proof. intros w w' r H. by injection H as <- _. Qed.

Lemma keeps_add_opened_url u : keeps q (modify (add_opened_url u)).
Proof. intros w w' r H. by injection H as <- _. Qed.

(** [mkdir_from] only adds directories, at extensions of [done] that are
    prefixes of [done ++ todo]. *)
Lemma mkdir_from_lookup done todo m m' :
  Os.mkdir_from done todo m = Ok m' ->
  forall p, m' !! p = m !! p
            \/ (m !! p = None /\ m' !! p = Some Dir
                /\ p `prefix_of` done ++ todo /\ length done < length p).
Proof.
  revert done m. induction todo as [|c todo IH]; intros done m H p.
  - injection H as <-. by left.
  - assert (Hassoc : done ++ c :: todo = (done ++ [c]) ++ todo)
      by (by rewrite <- app_assoc).
    rewrite Hassoc. simpl in H.
    destruct (m !! (done ++ [c])) as [[f|]|] eqn:Hd; [discriminate| |].
    + destruct (IH _ _ H p) as [Hp|(Hn & Hs & Hpre & Hlen)]; [by left|].
      right. rewrite length_app in Hlen.
      simpl in *. repeat split; [done..|lia].
    + destruct (IH _ _ H p) as [Hp|(Hn & Hs & Hpre & Hlen)].
      * destruct (decide (p = done ++ [c])) as [->|Hne].
        -- right. rewrite Hp, lookup_insert_eq.
           repeat split; [done| |rewrite length_app; simpl; lia].
           by apply prefix_app_r.
        -- left. by rewrite Hp, lookup_insert_ne.
      * destruct (decide (p = done ++ [c])) as [->|Hne].
        -- by rewrite lookup_insert_eq in Hn.
        -- right. rewrite lookup_insert_ne in Hn by done.
           rewrite length_app in Hlen.
           simpl in *. repeat split; [done..|lia].
Qed.

Lemma keeps_mkdir_parents p :
  ~ q `prefix_of` p -> keeps q (Os.mkdir_parents p).
Proof.
  intros Hq w w' r H. unfold Os.mkdir_parents in H.
  destruct (Os.mkdir_from [] p (fs w)) as [m|e] eqn:Hm;
    injection H as <- _; [|done].
  cbn. destruct (mkdir_from_lookup _ _ _ _ Hm q) as [->|(_ & _ & Hpre & _)];
    [done|]. by destruct Hq.
Qed.


Lemma keeps_write_file p data : q <> p -> keeps q (Os.write_file p data).
Proof.
  intros Hq w w' r H. unfold Os.write_file in H.
  destruct (Os.node_at (fs w) p) as [[f|]|];
    destruct (Os.node_at (fs w) (PyPath.parent p)) as [[g|]|];
    injection H as <- _; cbn; try done; by rewrite lookup_insert_ne.
Qed.

Lemma keeps_urlretrieve url p : q <> p -> keeps q (Os.urlretrieve E url p).
Proof.
  intros Hq. unfold Os.urlretrieve.
  apply keeps_bind; [apply keeps_add_opened_url|intros _].
  destruct (remote E url).
  - by apply keeps_write_file.
  - apply keeps_raise.
  - apply keeps_bind; [by apply keeps_write_file|intros _; apply keeps_raise].
Qed.
End KeepsOs.

Ltac keeps_step :=
  match goal with
  | |- keeps _ (bind (ret _) _) => apply keeps_bind_ret
  | |- keeps _ (bind _ _) => apply keeps_bind; [|intros ?]
  | |- keeps _ (try_except _ _) => apply keeps_try; [|intros ?]
  | |- keeps _ (ret _) => apply keeps_ret
  | |- keeps _ (raise _) => apply keeps_raise
  | |- keeps _ (lift _) => apply keeps_lift
  | |- keeps _ (handle_error _) => apply keeps_handle_error
  | |- keeps _ (handle_warning _) => apply keeps_print
  | |- keeps _ (Os.print _) => apply keeps_print
  | |- keeps _ (Os.input _) => apply keeps_input
  | |- keeps _ (Os.path_exists _) => apply keeps_path_exists
  | |- keeps _ (Os.glob_first _) => apply keeps_glob_first
  | |- keeps _ (Os.open_read _) => apply keeps_open_read
  | |- keeps _ (Os.now_isoformat _) => apply keeps_now
  | |- keeps _ (modify (add_launcher _)) => apply keeps_add_launcher
  | |- keeps _ (if ?b then _ else _) => destruct b
  | |- keeps _ (match ?x with _ => _ end) => destruct x
  end.

Section KeepsProgram.
Variable E : Env.
Variable q : path.

Lemma keeps_read_record : keeps q (read_record E).
Proof. intros w w' r H. rewrite read_record_eq in H. by injection H as <- _. Qed.

Lemma prefix_parent (p : path) : PyPath.parent p `prefix_of` p.
Proof.
  unfold PyPath.parent. destruct (decide (p = [])) as [->|Hne]; [done|].
  rewrite (app_removelast_last "" Hne) at 2. by apply prefix_app_r.
Qed.

Lemma keeps_write_record record :
  ~ q `prefix_of` get_record_file_path E -> keeps q (write_record E record).
Proof.
  intros Hq. unfold write_record. cbv zeta.
  apply keeps_bind; [|intros _].
  - apply keeps_mkdir_parents. intros Hp. apply Hq.
    etrans; [exact Hp|apply prefix_parent].
  - apply keeps_write_file. intros ->. by apply Hq.
Qed.

Lemma keeps_ensure_packages_file :
  ~ q `prefix_of` get_package_file_path E -> keeps q (ensure_packages_file E).
Proof.
  intros Hq. unfold ensure_packages_file. cbv zeta.
  repeat keeps_step.
  - apply keeps_mkdir_parents. intros Hp. apply Hq.
    etrans; [exact Hp|apply prefix_parent].
  - apply keeps_urlretrieve. intros ->. by apply Hq.
Qed.

Lemma keeps_load_packages :
  ~ q `prefix_of` get_package_file_path E -> keeps q (load_packages E).
Proof.
  intros Hq. unfold load_packages.
  apply keeps_bind; [by apply keeps_ensure_packages_file|intros _].
  repeat keeps_step.
Qed.

Lemma keeps_resolve_package packages pn :
  keeps q (resolve_package E packages pn).
Proof. unfold resolve_package. cbv zeta. repeat keeps_step. Qed.

Lemma keeps_check_platform pn package :
  keeps q (check_platform E pn package).
Proof. unfold check_platform. cbv zeta. repeat keeps_step. Qed.

Lemma keeps_confirm_install pn skip : keeps q (confirm_install E pn skip).
Proof. unfold confirm_install. cbv zeta. repeat keeps_step. Qed.

Lemma keeps_validate_checksum p expected :
  keeps q (validate_checksum p expected).
Proof. unfold validate_checksum. cbv zeta. repeat keeps_step. Qed.

Lemma keeps_create_shortcut target name :
  keeps q (create_shortcut E target name).
Proof. unfold create_shortcut. repeat keeps_step. Qed.

Lemma keeps_finish_install pn package a :
  ~ q `prefix_of` get_record_file_path E ->
  keeps q (finish_install E pn package a).
Proof.
  intros Hq. unfold finish_install.
  repeat first
    [ apply keeps_validate_checksum | apply keeps_create_shortcut
    | apply keeps_read_record | by apply keeps_write_record | keeps_step ].
Qed.

Lemma keeps_fetch_artifact name package platform_name :
  ~ q `prefix_of` get_installation_path E name ->
  (forall ext, q <> get_installation_path E name /. (name +:+ "." +:+ ext)) ->
  keeps q (fetch_artifact E (JStr name) package platform_name).
Proof.
  intros Hq Hd. unfold fetch_artifact. cbn [Py.as_str lift py_str].
  repeat first
    [ by apply keeps_mkdir_parents | by apply keeps_urlretrieve
    | keeps_step ].
Qed.
End KeepsProgram.

(** ** The shape of download paths *)

Lemma split_nonempty sep s : PyStr.split sep s <> [].
Proof.
  destruct s as [|c s]; [done|]. simpl.
  destruct (Ascii.eqb c sep); [done|]. by destruct (PyStr.split sep s).
Qed.

Lemma split_app_no_sep sep n s h t :
  PyStr.has_char sep n = false ->
  PyStr.split sep s = h :: t ->
  PyStr.split sep (n +:+ s) = (n +:+ h) :: t.
Proof.
  intros Hn Hs. induction n as [|c n IH]; [exact Hs|].
  simpl in *. apply orb_false_iff in Hn as [Hc Hn].
  rewrite Hc, (IH Hn). reflexivity.
Qed.

Lemma string_app_assoc (a b c : string) : (a +:+ b) +:+ c = a +:+ b +:+ c.
Proof.
  induction a as [|x a IH]; [reflexivity|].
  change (String x ((a +:+ b) +:+ c) = String x (a +:+ b +:+ c)).
  by rewrite IH.
Qed.

Lemma prefix_app_self n s : String.prefix n (n +:+ s) = true.
Proof.
  induction n as [|c n IH]; [by destruct s|].
  simpl. by destruct (ascii_dec c c).
Qed.

(** For a plain name, [dir / (name + "." + ext)] is [dir], then a component
    that starts with [name + "."], then possibly more. *)
Lemma download_path_shape (dir : path) name ext :
  plain_name name = true ->
  exists c more,
    dir /. (name +:+ "." +:+ ext) = dir ++ c :: more
    /\ String.prefix (name +:+ ".") c = true.
Proof.
  intros H. apply plain_name_inv in H as (Hc & Hne & _).
  destruct (PyStr.split "/" ("." +:+ ext)) as [|h t] eqn:Hs;
    [by apply split_nonempty in Hs|].
  assert (Hh : exists h', h = String "." h').
  { change ("." +:+ ext) with (String "." ext) in Hs.
    cbn [PyStr.split] in Hs.
    change (Ascii.eqb "." "/") with false in Hs. cbv iota in Hs.
    destruct (PyStr.split "/" ext) as [|h0 t0]; injection Hs as <- _; eauto. }
  destruct Hh as [h' ->].
  exists (name +:+ String "." h'), (List.filter (fun c => negb (String.eqb c "" || String.eqb c ".")) t).
  split.
  - unfold PyPath.div, PyPath.parts.
    rewrite (split_app_no_sep _ _ _ _ _ Hc Hs).
    assert (Ha : PyPath.is_absolute (name +:+ "." +:+ ext) = false).
    { destruct name as [|a name]; [done|]. simpl in *.
      by apply orb_false_iff in Hc as [Hc _]. }
    rewrite Ha. simpl.
    destruct name as [|a [|b name]]; [done| |]; simpl.
    + by destruct a as [[] [] [] [] [] [] [] []].
    + destruct (Ascii.eqb a "."); reflexivity.
  - change (String "." h') with ("." +:+ h').
    replace (name +:+ "." +:+ h') with ((name +:+ ".") +:+ h').
    + apply prefix_app_self.
    + apply string_app_assoc.
Qed.

Section PathsApart.
Variable E : Env.

Lemma record_not_prefix_of_catalog :
  ~ get_record_file_path E `prefix_of` get_package_file_path E.
Proof.
  rewrite record_file_path_eq, package_file_path_eq.
  intros H. apply prefix_app_inv in H as [k Hk]. discriminate.
Qed.

Lemma catalog_not_prefix_of_record :
  ~ get_package_file_path E `prefix_of` get_record_file_path E.
Proof.
  rewrite record_file_path_eq, package_file_path_eq.
  intros H. apply prefix_app_inv in H as [k Hk]. discriminate.
Qed.

Lemma record_not_prefix_of_installation name :
  plain_name name = true -> name <> "record.json" ->
  ~ get_record_file_path E `prefix_of` get_installation_path E name.
Proof.
  intros Hp Hne. rewrite record_file_path_eq, installation_path_plain by done.
  intros H. apply prefix_app_inv in H as [k Hk]. simpl in Hk. congruence.
Qed.

Lemma catalog_not_prefix_of_installation name :
  plain_name name = true ->
  ~ get_package_file_path E `prefix_of` get_installation_path E name.
Proof.
  intros Hp. rewrite package_file_path_eq, installation_path_plain by done.
  intros H. apply prefix_app_inv in H as [k Hk]. discriminate.
Qed.

Lemma record_not_download name ext :
  plain_name name = true ->
  get_record_file_path E
  <> get_installation_path E name /. (name +:+ "." +:+ ext).
Proof.
  intros Hp.
  destruct (download_path_shape (get_installation_path E name) name ext Hp)
    as (c & more & -> & _).
  rewrite record_file_path_eq, installation_path_plain by done.
  rewrite <- app_assoc. intros H. apply app_inv_head in H. discriminate.
Qed.

Lemma catalog_not_download name ext :
  plain_name name = true ->
  get_package_file_path E
  <> get_installation_path E name /. (name +:+ "." +:+ ext).
Proof.
  intros Hp.
  destruct (download_path_shape (get_installation_path E name) name ext Hp)
    as (c & more & -> & Hc).
  rewrite package_file_path_eq, installation_path_plain by done.
  rewrite <- app_assoc. intros H. apply app_inv_head in H.
  simpl in H. injection H as <- <- _. discriminate.
Qed.
End PathsApart.

(** ** Installation *)

Section Inversion.
Context {A B : Type}.

Lemma bind_return_inv (m : M A) (k : A -> M B) w w' b :
  bind m k w = (w', Return b) ->
  exists w1 a, m w = (w1, Return a) /\ k a w1 = (w', Return b).
Proof.
  unfold bind. destruct (m w) as [w1 [a|e|c]]; [eauto|discriminate..].
Qed.

Lemma try_return_inv (m : M A) (h : exn -> M A) w w' a :
  try_except m h w = (w', Return a) ->
  m w = (w', Return a)
  \/ exists w1 e, m w = (w1, Raise e) /\ h e w1 = (w', Return a).
Proof.
  unfold try_except. destruct (m w) as [w1 [a'|e|c]]; [by left|eauto|discriminate].
Qed.

Lemma lift_return (x : result A) w w' a :
  lift x w = (w', Return a) -> w' = w /\ x = Ok a.
Proof. destruct x; [by intros [= <- <-]|discriminate]. Qed.

Lemma handle_error_no_return message w w' (a : A) :
  handle_error message w = (w', Return a) -> False.
Proof. discriminate. Qed.
End Inversion.

Lemma mkdir_parents_return p w w' :
  Os.mkdir_parents p w = (w', Return tt) ->
  exists m', Os.mkdir_from [] p (fs w) = Ok m' /\ w' = set_fs (fun _ => m') w.
Proof.
  unfold Os.mkdir_parents.
  destruct (Os.mkdir_from [] p (fs w)) as [m'|e]; [|discriminate].
  intros [= <-]. eauto.
Qed.

Lemma open_read_return p w w' data :
  Os.open_read p w = (w', Return data) ->
  w' = w /\ Os.node_at (fs w) p = Some (File data).
Proof.
  unfold Os.open_read.
  destruct (Os.node_at (fs w) p) as [[f|]|]; [|discriminate..].
  by intros [= <- <-].
Qed.

Lemma urlretrieve_return E url p w w' :
  Os.urlretrieve E url p w = (w', Return tt) ->
  exists body,
    remote E url = Served body
    /\ w' = set_fs (insert p (File body)) (add_opened_url url w).
Proof.
  unfold Os.urlretrieve. intros H.
  apply bind_return_inv in H as (w1 & [] & Hm & H). injection Hm as <-.
  destruct (remote E url) as [body|e|body e].
  - apply write_file_return in H. eauto.
  - discriminate.
  - apply bind_return_inv in H as (w2 & [] & _ & H). discriminate.
Qed.

Lemma write_file_return_path p data w w' :
  Os.write_file p data w = (w', Return tt) -> p <> [].
Proof. intros H ->. discriminate. Qed.

Lemma urlretrieve_return_path E url p w w' :
  Os.urlretrieve E url p w = (w', Return tt) -> p <> [].
Proof.
  unfold Os.urlretrieve. intros H.
  apply bind_return_inv in H as (w1 & [] & Hm & H).
  destruct (remote E url) as [body|e|body e].
  - by eapply write_file_return_path.
  - discriminate.
  - apply bind_return_inv in H as (w2 & [] & _ & H). discriminate.
Qed.

Lemma mkdir_from_dir pre todo m m' :
  Os.mkdir_from pre todo m = Ok m' ->
  todo <> [] -> m' !! (pre ++ todo) = Some Dir.
Proof.
  revert pre m. induction todo as [|c todo IH]; intros pre m H Hne; [done|].
  assert (Hassoc : pre ++ c :: todo = (pre ++ [c]) ++ todo)
    by (by rewrite <- app_assoc).
  rewrite Hassoc. simpl in H.
  destruct todo as [|c' todo].
  - rewrite app_nil_r.
    destruct (m !! (pre ++ [c])) as [[f|]|] eqn:Hd; [discriminate| |];
      simpl in H; injection H as H; subst m'; [done|apply lookup_insert_eq].
  - destruct (m !! (pre ++ [c])) as [[f|]|] eqn:Hd; [discriminate| |];
      by eapply IH.
Qed.

(** ** The extension taken from a URL *)

Lemma split_app sep a b :
  PyStr.split sep (a +:+ String sep b) = PyStr.split sep a ++ PyStr.split sep b.
Proof.
  induction a as [|c a IH].
  - change ("" +:+ String sep b) with (String sep b).
    cbn [PyStr.split]. by rewrite Ascii.eqb_refl.
  - change (String c a +:+ String sep b) with (String c (a +:+ String sep b)).
    cbn [PyStr.split]. rewrite IH.
    destruct (Ascii.eqb c sep); [reflexivity|].
    pose proof (split_nonempty sep a) as Hne.
    by destruct (PyStr.split sep a).
Qed.

Lemma last_item_app l l' :
  l' <> [] -> PyStr.last_item (l ++ l') = PyStr.last_item l'.
Proof.
  intros Hne. unfold PyStr.last_item.
  induction l as [|x l IH]; [reflexivity|].
  simpl. rewrite IH. by destruct (l ++ l') eqn:Hl; [destruct l, l'|].
Qed.

Lemma url_extension_no_dot url :
  PyStr.has_char "." url = false -> url_extension url = url.
Proof. intros H. unfold url_extension. by rewrite split_no_sep. Qed.

Lemma url_extension_after_last_dot pre ext :
  PyStr.has_char "." ext = false ->
  url_extension (pre +:+ "." +:+ ext) = ext.
Proof.
  intros H. unfold url_extension.
  change ("." +:+ ext) with (String "." ext).
  rewrite split_app, last_item_app by apply split_nonempty.
  by rewrite split_no_sep.
Qed.

Lemma has_char_app c a b :
  PyStr.has_char c (a +:+ b) = (PyStr.has_char c a || PyStr.has_char c b)%bool.
Proof.
  induction a as [|x a IH]; [reflexivity|].
  change (String x a +:+ b) with (String x (a +:+ b)).
  cbn [PyStr.has_char]. by rewrite IH, orb_assoc.
Qed.

Lemma plain_name_dot_extension name ext :
  plain_name name = true -> PyStr.has_char "/" ext = false ->
  plain_name (name +:+ "." +:+ ext) = true.
Proof.
  intros Hp He. apply plain_name_inv in Hp as (Hc & Hne & Hd & Hdd).
  unfold plain_name. rewrite !has_char_app, Hc, He.
  destruct name as [|a name]; [done|].
  change (String a name +:+ "." +:+ ext)
    with (String a (name +:+ String "." ext)).
  repeat (apply andb_true_intro; split); [reflexivity|reflexivity| |];
    apply negb_true_iff, String.eqb_neq; intros Heq; injection Heq as Ha Heq.
  - by destruct name.
  - destruct name as [|b name].
    + injection Heq as Heq. subst. done.
    + injection Heq as _ Heq. by destruct name.
Qed.

(** ** Names that differ in letter case *)

Lemma lower_ascii_slash a : PyStr.lower_ascii a = "/"%char -> a = "/"%char.
Proof. by destruct a as [[] [] [] [] [] [] [] []]. Qed.

Lemma lower_ascii_dot a : PyStr.lower_ascii a = "."%char -> a = "."%char.
Proof. by destruct a as [[] [] [] [] [] [] [] []]. Qed.

Lemma has_char_slash_lower s :
  PyStr.has_char "/" (PyStr.lower s) = PyStr.has_char "/" s.
Proof.
  induction s as [|a s IH]; [reflexivity|]. simpl. rewrite IH. f_equal.
  destruct (Ascii.eqb_spec a "/") as [->|Hne]; [reflexivity|].
  apply Ascii.eqb_neq. intros H. by apply lower_ascii_slash in H.
Qed.

Lemma lower_dots s t :
  PyStr.lower s = PyStr.lower t -> (t = "" \/ t = "." \/ t = "..") -> s = t.
Proof.
  intros H [-> | [-> | ->]].
  - by destruct s.
  - destruct s as [|a [|b s]]; try discriminate.
    injection H as H. by apply lower_ascii_dot in H as ->.
  - destruct s as [|a [|b [|c s]]]; try discriminate.
    injection H as Ha Hb.
    by apply lower_ascii_dot in Ha as ->; apply lower_ascii_dot in Hb as ->.
Qed.

Lemma plain_name_lower c n :
  PyStr.lower c = PyStr.lower n -> plain_name n = true -> plain_name c = true.
Proof.
  intros H Hp. apply plain_name_inv in Hp as (Hs & Hne & Hd & Hdd).
  unfold plain_name.
  rewrite <- has_char_slash_lower, H, has_char_slash_lower, Hs.
  repeat (apply andb_true_intro; split); try reflexivity;
    apply negb_true_iff, String.eqb_neq; intros ->;
    symmetry in H; apply lower_dots in H; auto.
Qed.

Section Install.
Variable E : Env.

Lemma not_wildcard name : name <> "*" -> Py.eq_str (JStr name) "*" = false.
Proof. intros H. by apply String.eqb_neq. Qed.

Lemma install_package_named d pn skip w :
  Py.eq_str pn "*" = false ->
  install_package E (S d) pn skip w
  = try_except
      (packages <- load_packages E ;;
       package <- resolve_package E packages pn ;;
       install_resolved E pn package skip)
      (install_failed E) w.
Proof. intros H. cbn [install_package]. rewrite H. reflexivity. Qed.

Lemma install_package_phases d pn skip w :
  Py.eq_str pn "*" = false ->
  install_package E (S d) pn skip w
  = try_except
      (r <- download_phase E pn skip ;; complete_install E pn r)
      (install_failed E) w.
Proof.
  intros H. rewrite install_package_named by exact H.
  unfold try_except. f_equal.
  unfold download_phase, install_resolved, bind.
  destruct (load_packages E w) as [w1 [packages|e|c]]; [|reflexivity..].
  destruct (resolve_package E packages pn w1) as [w2 [package|e|c]];
    [|reflexivity..].
  destruct (check_platform E pn package w2) as [w3 [platform_name|e|c]];
    [|reflexivity..].
  destruct (confirm_install E pn skip w3) as [w4 [[]|e|c]];
    [|reflexivity..].
  destruct (fetch_artifact E pn package platform_name w4)
    as [w5 [a|e|c]]; reflexivity.
Qed.

Lemma install_after_download d pn skip w w1 package a :
  Py.eq_str pn "*" = false ->
  download_phase E pn skip w = (w1, Return (Some (package, a))) ->
  install_package E (S d) pn skip w
  = try_except (finish_install E pn package a) (install_failed E) w1.
Proof.
  intros H Hd. rewrite install_package_phases by exact H.
  unfold try_except, bind. rewrite Hd. reflexivity.
Qed.

Lemma finish_install_mismatch pn package a data w :
  Os.node_at (fs w) (download_path a) = Some (File data) ->
  Py.eq_str (sha256 a) (Sha256.hexdigest data) = false ->
  finish_install E pn package a w
  = (add_stdout
       (error_text ("Checksum mismatch for " +:+ py_str E pn
                    +:+ ". Installation aborted.")) w,
     Exit 1%Z).
Proof.
  intros Hn Hd. unfold finish_install.
  erewrite bind_return; [|by apply validate_checksum_eq].
  rewrite Hd. reflexivity.
Qed.

Lemma keeps_download_phase q name skip :
  ~ q `prefix_of` get_package_file_path E ->
  ~ q `prefix_of` get_installation_path E name ->
  (forall ext, q <> get_installation_path E name /. (name +:+ "." +:+ ext)) ->
  keeps q (download_phase E (JStr name) skip).
Proof.
  intros Hc Hi Hd. unfold download_phase.
  repeat first
    [ by apply keeps_load_packages | apply keeps_resolve_package
    | apply keeps_check_platform | apply keeps_confirm_install
    | by apply keeps_fetch_artifact | keeps_step ].
Qed.

Lemma keeps_record_download_phase name skip :
  plain_name name = true -> name <> "record.json" ->
  keeps (get_record_file_path E) (download_phase E (JStr name) skip).
Proof.
  intros Hp Hne. apply keeps_download_phase.
  - apply record_not_prefix_of_catalog.
  - by apply record_not_prefix_of_installation.
  - intros ext. by apply record_not_download.
Qed.

(** Claim C1, as amended.  Under POSIX paths, and for a name that is one
    ordinary path component and not, in any letter case, the name of the
    record file: when the artifact has been downloaded and the digest of the
    file at the download path is not the expected one, [install_package]
    prints the "Checksum mismatch" message and exits with status 1; the
    record file, and so the mapping it holds, is as it was before the call,
    and the downloaded file is still at the download path. *)
Theorem install_integrity_failure d name skip w w1 package a data :
  is_windows E = false ->
  name <> "*" ->
  plain_name name = true ->
  PyStr.lower name <> "record.json" ->
  download_phase E (JStr name) skip w = (w1, Return (Some (package, a))) ->
  Os.node_at (fs w1) (download_path a) = Some (File data) ->
  Py.eq_str (sha256 a) (Sha256.hexdigest data) = false ->
  exists w',
    install_package E (S d) (JStr name) skip w = (w', Exit 1%Z)
    /\ w' = add_stdout
              (error_text ("Checksum mismatch for " +:+ name
                           +:+ ". Installation aborted.")) w1
    /\ fs w' !! get_record_file_path E = fs w !! get_record_file_path E
    /\ record_in E (fs w') = record_in E (fs w)
    /\ Os.node_at (fs w') (download_path a) = Some (File data).
Proof.
  intros _ Hstar Hplain Hlow Hdl Hfile Hdigest.
  assert (Hrec : name <> "record.json") by (by intros ->).
  eexists. split; [|split; [reflexivity|]].
  - erewrite install_after_download; [|by apply not_wildcard|exact Hdl].
    apply try_exit. by eapply finish_install_mismatch.
  - assert (Hk : fs w1 !! get_record_file_path E
                 = fs w !! get_record_file_path E)
      by (eapply keeps_record_download_phase; eauto).
    cbn. split; [exact Hk|split; [|exact Hfile]].
    rewrite !record_in_eq. cbn. by rewrite Hk.
Qed.

(** ** The catalog step *)

Lemma ensure_packages_file_present w n :
  Os.node_at (fs w) (get_package_file_path E) = Some n ->
  ensure_packages_file E w = (w, Return tt).
Proof.
  intros H. unfold ensure_packages_file. cbv zeta.
  erewrite bind_return; [|reflexivity]. by rewrite H.
Qed.

Lemma load_packages_present w w1 r n :
  Os.node_at (fs w) (get_package_file_path E) = Some n ->
  load_packages E w = (w1, r) -> w1 = w.
Proof.
  intros H. unfold load_packages.
  erewrite bind_return; [|by eapply ensure_packages_file_present].
  unfold bind, Os.open_read.
  destruct (Os.node_at (fs w) (get_package_file_path E)) as [[f|]|];
    try (intros [= <- _]; reflexivity).
  cbn. destruct (json_load E f) as [data|e]; cbn;
    [|intros [= <- _]; reflexivity].
  destruct (Py.get data "packages" (JArr [])); cbn;
    intros [= <- _]; reflexivity.
Qed.

(** Loading the catalog reads no input, and opens a URL, the catalog's,
    only when no catalog file is there. *)
Lemma ensure_packages_file_absent w w1 :
  Os.node_at (fs w) (get_package_file_path E) = None ->
  ensure_packages_file E w = (w1, Return tt) ->
  opened_urls w1 = opened_urls w ++ [catalog_url] /\ stdin w1 = stdin w.
Proof.
  intros H. unfold ensure_packages_file. cbv zeta. intros Hr.
  apply bind_return_inv in Hr as (w2 & present & Hp & Hr).
  injection Hp as <- <-. rewrite H in Hr. cbn [negb] in Hr.
  apply bind_return_inv in Hr as (w3 & [] & Hp & Hr).
  injection Hp as <-.
  apply try_return_inv in Hr as [Hr|(w4 & e & _ & Hr)];
    [|by apply handle_error_no_return in Hr].
  apply bind_return_inv in Hr as (w4 & [] & Hmk & Hr).
  apply bind_return_inv in Hr as (w5 & [] & Hurl & Hr).
  injection Hr as <-.
  apply mkdir_parents_return in Hmk as (m' & _ & ->).
  apply urlretrieve_return in Hurl as (body & _ & ->).
  split; reflexivity.
Qed.

Lemma load_packages_absent w w1 packages :
  Os.node_at (fs w) (get_package_file_path E) = None ->
  load_packages E w = (w1, Return packages) ->
  opened_urls w1 = opened_urls w ++ [catalog_url] /\ stdin w1 = stdin w.
Proof.
  intros H. unfold load_packages. intros Hr.
  apply bind_return_inv in Hr as (w2 & [] & He & Hr).
  apply bind_return_inv in Hr as (w3 & f & Ho & Hr).
  apply bind_return_inv in Hr as (w4 & data & Hl & Hr).
  apply open_read_return in Ho as [-> _].
  apply lift_return in Hl as [-> _]. apply lift_return in Hr as [-> _].
  by apply ensure_packages_file_absent.
Qed.

(** ** Resolution, platform check and confirmation *)

Lemma find_package_found items pn package :
  find_package items pn = Ok (Some package) ->
  exists n, Py.getitem package "name" = Ok (JStr n)
            /\ Py.lower pn = Ok (PyStr.lower n)
            /\ Py.truthy package = true.
Proof.
  induction items as [|pkg items IH]; [discriminate|]. simpl.
  destruct (Py.getitem pkg "name") as [n|e] eqn:Hn; [|discriminate].
  destruct (Py.lower n) as [a|e] eqn:Ha; [|discriminate].
  destruct (Py.lower pn) as [b|e] eqn:Hb; [|discriminate].
  destruct (String.eqb a b) eqn:Hab; [|exact IH].
  intros [= <-]. apply String.eqb_eq in Hab as <-.
  destruct n; try discriminate. injection Ha as <-.
  exists s. split; [done|split; [done|]].
  destruct pkg; try discriminate. by destruct members.
Qed.

Lemma resolve_package_found packages items pn package w :
  Py.iter packages = Ok items ->
  find_package items pn = Ok (Some package) ->
  resolve_package E packages pn w = (w, Return package).
Proof.
  intros Hi Hf. unfold resolve_package. cbv zeta.
  erewrite bind_return; [|rewrite Hi; reflexivity].
  erewrite bind_return; [|rewrite Hf; reflexivity].
  apply find_package_found in Hf as (_ & _ & _ & ->). reflexivity.
Qed.

Lemma check_platform_unsupported pn package os w :
  Py.getitem package "os" = Ok os ->
  Py.contains os (platform_system E) = Ok false ->
  check_platform E pn package w
  = (add_stdout
       (error_text ("'" +:+ py_str E pn
                    +:+ "' is not available for your platform ("
                    +:+ platform_system E +:+ ").")) w,
     Exit 1%Z).
Proof.
  intros Hos Hin. unfold check_platform. cbv zeta.
  erewrite bind_return; [|rewrite Hos; reflexivity].
  erewrite bind_return; [|rewrite Hin; reflexivity].
  reflexivity.
Qed.

Lemma check_platform_supported pn package os w :
  Py.getitem package "os" = Ok os ->
  Py.contains os (platform_system E) = Ok true ->
  check_platform E pn package w = (w, Return (platform_system E)).
Proof.
  intros Hos Hin. unfold check_platform. cbv zeta.
  erewrite bind_return; [|rewrite Hos; reflexivity].
  erewrite bind_return; [|rewrite Hin; reflexivity].
  reflexivity.
Qed.

Lemma confirm_install_cancel name answer rest w :
  stdin w = answer :: rest ->
  affirmative answer = false ->
  confirm_install E (JStr name) false w
  = (add_stdout
       (Fore.WHITE +:+ "Installation of '" +:+ name +:+ "' cancelled."
        +:+ Fore.RESET_ALL)
       (set_stdin rest (add_stdout (install_prompt name) w)),
     Return false).
Proof.
  intros Hin Hans. unfold confirm_install. cbn [negb py_str].
  unfold bind, Os.input. cbn [stdin add_stdout]. rewrite Hin.
  unfold affirmative in Hans. rewrite Hans. reflexivity.
Qed.

Lemma confirm_install_confirmed name skip w w0 :
  confirmed (install_prompt name) skip w = Some w0 ->
  confirm_install E (JStr name) skip w = (w0, Return true).
Proof.
  unfold confirmed, confirm_install. destruct skip; cbn [negb py_str].
  - by intros [= <-].
  - unfold bind, Os.input. cbn [stdin add_stdout].
    destruct (stdin w) as [|answer rest]; [discriminate|].
    unfold affirmative.
    destruct (String.eqb (PyStr.lower (PyStr.strip answer)) "y");
      [|discriminate].
    by intros [= <-].
Qed.

(** Claim C2, as amended.  When the platform is not among those the
    descriptor found for the name supports, [install_package] prints the
    "is not available for your platform" message and exits with status 1,
    having done nothing but load the catalog: with a catalog file in place
    the world is untouched, and without one the only URL opened is the
    catalog's. *)
Theorem install_unsupported_platform d name skip w w1 packages items
  package os :
  name <> "*" ->
  load_packages E w = (w1, Return packages) ->
  Py.iter packages = Ok items ->
  find_package items (JStr name) = Ok (Some package) ->
  Py.getitem package "os" = Ok os ->
  Py.contains os (platform_system E) = Ok false ->
  install_package E (S d) (JStr name) skip w
  = (add_stdout
       (error_text ("'" +:+ name +:+ "' is not available for your platform ("
                    +:+ platform_system E +:+ ").")) w1,
     Exit 1%Z)
  /\ (Os.node_at (fs w) (get_package_file_path E) <> None -> w1 = w)
  /\ (Os.node_at (fs w) (get_package_file_path E) = None ->
      opened_urls w1 = opened_urls w ++ [catalog_url]).
Proof.
  intros Hstar Hload Hiter Hfind Hos Hin.
  split; [|split].
  - rewrite install_package_named by (by apply not_wildcard).
    apply try_exit.
    erewrite bind_return; [|exact Hload].
    erewrite bind_return; [|by eapply resolve_package_found].
    unfold install_resolved.
    erewrite bind_exit; [reflexivity|].
    by eapply check_platform_unsupported.
  - intros Hn.
    destruct (Os.node_at (fs w) (get_package_file_path E)) as [n|] eqn:Hc;
      [|done].
    by eapply load_packages_present.
  - intros Hn. by eapply load_packages_absent.
Qed.

(** Claim C3, as amended.  Without [skip_confirmation], an answer that is
    not [y] once stripped of surrounding white space and put in lower case
    makes [install_package] print the cancellation message and return
    normally.  Apart from the prompt, the message and the answer consumed,
    the world is the one left by loading the catalog: untouched when a
    catalog file is in place, and otherwise changed by the fetch of the
    catalog only; the record file is as before in both cases. *)
Theorem install_cancelled d name w w1 packages items package os answer rest :
  name <> "*" ->
  load_packages E w = (w1, Return packages) ->
  Py.iter packages = Ok items ->
  find_package items (JStr name) = Ok (Some package) ->
  Py.getitem package "os" = Ok os ->
  Py.contains os (platform_system E) = Ok true ->
  stdin w = answer :: rest ->
  affirmative answer = false ->
  install_package E (S d) (JStr name) false w
  = (add_stdout
       (Fore.WHITE +:+ "Installation of '" +:+ name +:+ "' cancelled."
        +:+ Fore.RESET_ALL)
       (set_stdin rest (add_stdout (install_prompt name) w1)),
     Return tt)
  /\ (Os.node_at (fs w) (get_package_file_path E) <> None -> w1 = w)
  /\ (Os.node_at (fs w) (get_package_file_path E) = None ->
      opened_urls w1 = opened_urls w ++ [catalog_url])
  /\ fs w1 !! get_record_file_path E = fs w !! get_record_file_path E.
Proof.
  intros Hstar Hload Hiter Hfind Hos Hin Hstdin Hans.
  assert (Hpresent : Os.node_at (fs w) (get_package_file_path E) <> None
                     -> w1 = w).
  { intros Hn.
    destruct (Os.node_at (fs w) (get_package_file_path E)) as [n|] eqn:Hc;
      [|done].
    by eapply load_packages_present. }
  assert (Hstdin1 : stdin w1 = answer :: rest).
  { destruct (Os.node_at (fs w) (get_package_file_path E)) as [n|] eqn:Hc.
    - by rewrite Hpresent.
    - destruct (load_packages_absent _ _ _ Hc Hload) as [_ ->]. done. }
  split; [|split; [exact Hpresent|split]].
  - rewrite install_package_named by (by apply not_wildcard).
    apply try_return.
    erewrite bind_return; [|exact Hload].
    erewrite bind_return; [|by eapply resolve_package_found].
    unfold install_resolved.
    erewrite bind_return; [|by eapply check_platform_supported].
    erewrite bind_return; [|by eapply confirm_install_cancel].
    reflexivity.
  - intros Hn. by eapply load_packages_absent.
  - eapply keeps_load_packages; [|exact Hload].
    apply record_not_prefix_of_catalog.
Qed.

(** ** Fetching the artifact *)

Lemma fetch_artifact_return name package platform_name w w1 a :
  fetch_artifact E (JStr name) package platform_name w = (w1, Return a) ->
  exists urls url digests version m' body,
    Py.getitem package "url" = Ok urls
    /\ Py.getitem urls platform_name = Ok (JStr url)
    /\ Py.getitem package "sha256" = Ok digests
    /\ Py.getitem digests platform_name = Ok (sha256 a)
    /\ Py.getitem package "version" = Ok version
    /\ install_path a = get_installation_path E name
    /\ download_path a
       = get_installation_path E name
         /. (name +:+ "." +:+ url_extension url)
    /\ Os.mkdir_from [] (install_path a) (fs w) = Ok m'
    /\ remote E url = Served body
    /\ download_path a <> []
    /\ fs w1 = <[download_path a := File body]> m'
    /\ opened_urls w1 = opened_urls w ++ [url]
    /\ stdin w1 = stdin w /\ ticks w1 = ticks w.
Proof.
  unfold fetch_artifact. intros H.
  apply bind_return_inv in H as (w2 & urls & H1 & H).
  apply lift_return in H1 as [-> Hurls].
  apply bind_return_inv in H as (w2 & url & H1 & H).
  apply lift_return in H1 as [-> Hurl].
  apply bind_return_inv in H as (w2 & digests & H1 & H).
  apply lift_return in H1 as [-> Hdigests].
  apply bind_return_inv in H as (w2 & digest & H1 & H).
  apply lift_return in H1 as [-> Hdigest].
  apply bind_return_inv in H as (w2 & version & H1 & H).
  apply lift_return in H1 as [-> Hversion].
  apply bind_return_inv in H as (w2 & [] & H1 & H). injection H1 as <-.
  apply bind_return_inv in H as (w2 & name' & H1 & H).
  injection H1 as <- <-.
  apply bind_return_inv in H as (w3 & [] & Hmk & H).
  apply mkdir_parents_return in Hmk as (m' & Hmk & ->).
  apply bind_return_inv in H as (w4 & pieces & H1 & H).
  apply lift_return in H1 as [-> Hpieces].
  destruct url as [| | |url| |]; try discriminate. injection Hpieces as <-.
  apply bind_return_inv in H as (w5 & [] & Hget & H).
  pose proof (urlretrieve_return_path _ _ _ _ _ Hget) as Hroot.
  apply urlretrieve_return in Hget as (body & Hbody & ->).
  apply bind_return_inv in H as (w6 & [] & H1 & H). injection H1 as <-.
  injection H as <- <-. cbn.
  exists urls, url, digests, version, m', body. by repeat split.
Qed.

(** Claim C10, as amended.  Under POSIX paths: when the artifact is fetched,
    it is saved at the path obtained by joining the installation directory
    with the package name, a dot and what follows the last dot of the URL;
    for a name that is one ordinary path component that path lies inside the
    installation directory, and is a file directly in it when the extension
    has no slash.  A URL without a dot is its own extension, and a URL that
    ends in a dot has the empty extension. *)
Theorem artifact_file_name name package platform_name w w1 a :
  is_windows E = false ->
  fetch_artifact E (JStr name) package platform_name w = (w1, Return a) ->
  exists urls url body,
    Py.getitem package "url" = Ok urls
    /\ Py.getitem urls platform_name = Ok (JStr url)
    /\ remote E url = Served body
    /\ install_path a = get_installation_path E name
    /\ download_path a
       = get_installation_path E name
         /. (name +:+ "." +:+ url_extension url)
    /\ Os.node_at (fs w1) (download_path a) = Some (File body)
    /\ (plain_name name = true ->
        get_installation_path E name `prefix_of` download_path a)
    /\ (plain_name name = true ->
        PyStr.has_char "/" (url_extension url) = false ->
        download_path a
        = get_installation_path E name
          ++ [name +:+ "." +:+ url_extension url])
    /\ (PyStr.has_char "." url = false -> url_extension url = url)
    /\ (forall pre, url = pre +:+ "." -> url_extension url = "")
    /\ (forall pre ext,
          url = pre +:+ "." +:+ ext -> PyStr.has_char "." ext = false ->
          url_extension url = ext).
Proof.
  intros _ H.
  apply fetch_artifact_return in H
    as (urls & url & digests & version & m' & body & Hurls & Hurl & _ & _
        & _ & Hip & Hdp & _ & Hbody & Hroot & Hfs & _).
  exists urls, url, body. repeat split; try done.
  - unfold Os.node_at. destruct (download_path a) eqn:Hd; [done|].
    rewrite Hfs. apply lookup_insert_eq.
  - intros Hp. rewrite Hdp.
    destruct (download_path_shape (get_installation_path E name) name
                (url_extension url) Hp) as (c & more & -> & _).
    by apply prefix_app_r.
  - intros Hp Hs. rewrite Hdp. apply div_plain.
    by apply plain_name_dot_extension.
  - apply url_extension_no_dot.
  - intros pre ->. by apply (url_extension_after_last_dot pre "").
  - intros pre ext -> Hd. by apply url_extension_after_last_dot.
Qed.

(** ** A completed installation *)







End Install.

(** ** Names that differ in letter case only denote different paths *)





Section Supplied.
Variable E : Env.


(** ** What the last steps of an installation do to the store *)




Lemma node_at_dir (m : gmap path node) q :
  m !! q = Some Dir -> Os.node_at m q = Some Dir.
Proof. by destruct q. Qed.








End Supplied.

(** ** Loops *)

Section Loops.
Context {A : Type}.

Lemma for_each_app (l l' : list A) (f : A -> M unit) w w1 :
  for_each l f w = (w1, Return tt) ->
  for_each (l ++ l') f w = for_each l' f w1.
Proof.
  revert w. induction l as [|x l IH]; intros w H.
  - by injection H as <-.
  - simpl in *. unfold bind in *.
    destruct (f x w) as [w2 [[]|e|c]]; [by apply IH|discriminate..].
Qed.


End Loops.

Section Wildcard.
Variable E : Env.



Lemma install_package_wildcard d skip w :
  install_package E (S d) (JStr "*") skip w
  = try_except
      (packages <- load_packages E ;;
       items <- lift (Py.iter packages) ;;
       for_each items (fun package =>
         name <- lift (Py.getitem package "name") ;;
         install_package E d name skip))
      (install_failed E) w.
Proof. reflexivity. Qed.


End Wildcard.

Section Run.
Variable E : Env.

Lemma keeps_install_failed q e : keeps q (install_failed E e).
Proof.
  unfold install_failed.
  destruct (is_FileNotFoundError e); apply keeps_handle_error.
Qed.

Lemma keeps_install_resolved q name package skip :
  apart E q name ->
  keeps q (install_resolved E (JStr name) package skip).
Proof.
  intros (Hi & Hd & Hr). unfold install_resolved.
  repeat first
    [ apply keeps_check_platform | apply keeps_confirm_install
    | by apply keeps_fetch_artifact | by apply keeps_finish_install
    | keeps_step ].
Qed.

Lemma package_file_path_not_root : get_package_file_path E <> [].
Proof. rewrite package_file_path_eq. by destruct (vendor_dir E). Qed.

Lemma node_at_lookup (m : gmap path node) p :
  p <> [] -> Os.node_at m p = m !! p.
Proof. by destruct p. Qed.

(** With the catalog cached, installing a named package changes nothing
    that is apart from it. *)
Lemma install_named_keeps d q name skip w w' r :
  name <> "*" ->
  is_Some (fs w !! get_package_file_path E) ->
  apart E q name ->
  install_package E (S d) (JStr name) skip w = (w', r) ->
  fs w' !! q = fs w !! q.
Proof.
  intros Hstar [n Hn] Hq. rewrite install_package_named by (by apply not_wildcard).
  rewrite <- node_at_lookup in Hn by apply package_file_path_not_root.
  unfold try_except, bind at 1.
  destruct (load_packages E w) as [w1 [packages|e|c]] eqn:Hload;
    pose proof (load_packages_present _ _ _ _ _ Hn Hload) as ->.
  - intros H.
    assert (Hk : keeps q
              (try_except
                 (package <- resolve_package E packages (JStr name) ;;
                  install_resolved E (JStr name) package skip)
                 (install_failed E))).
    { apply keeps_try; [|intros e; apply keeps_install_failed].
      apply keeps_bind; [apply keeps_resolve_package|intros package].
      by apply keeps_install_resolved. }
    by apply (Hk w w' r).
  - apply keeps_install_failed.
  - by intros [= <- _].
Qed.

Lemma apart_catalog name :
  plain_name name = true -> apart E (get_package_file_path E) name.
Proof.
  intros Hp. split; [|split].
  - by apply catalog_not_prefix_of_installation.
  - intros ext. by apply catalog_not_download.
  - apply catalog_not_prefix_of_record.
Qed.

Lemma apart_other_installation name m q :
  plain_name name = true -> plain_name m = true ->
  m <> name -> m <> "record.json" ->
  get_installation_path E m `prefix_of` q ->
  apart E q name.
Proof.
  intros Hn Hm Hne Hrec [rest ->].
  rewrite (installation_path_plain _ m) by done.
  split; [|split].
  - rewrite installation_path_plain by done. rewrite <- app_assoc.
    intros H. apply prefix_app_inv in H as [k Hk]. simpl in Hk. congruence.
  - intros ext.
    destruct (download_path_shape (get_installation_path E name) name ext
                Hn) as (c & more & -> & _).
    rewrite installation_path_plain by done. rewrite <- !app_assoc.
    intros H. apply app_inv_head in H. simpl in H. congruence.
  - rewrite record_file_path_eq, <- app_assoc.
    intros H. apply prefix_app_inv in H as [k Hk]. simpl in Hk. congruence.
Qed.


(** ** Each name of the catalog resolves to its own descriptor *)




End Run.

(** ** What a run of installations leaves behind *)




Section Effects.
Variable E : Env.







End Effects.


Section WildcardRun.
Variable E : Env.
Variables (d : nat) (skip : bool) (packages : json) (items : list json).
Variables (names : list string) (r0 : list (string * json)) (w0 : World).


Hypothesis Hload : load_packages E w0 = (w0, Return packages).
Hypothesis Hiter : Py.iter packages = Ok items.
Hypothesis Hnames :
  Forall2 (fun item n => Py.getitem item "name" = Ok (JStr n)) items names.
Hypothesis Hok :
  Forall (fun n => plain_name n = true /\ n <> "*"
                   /\ PyStr.lower n <> "record.json") names.
Hypothesis Hnd : NoDup (List.map PyStr.lower names).
Hypothesis Hrec : record_in E (fs w0) = Return (JObj r0).
Hypothesis Hlike : record_like r0.
Hypothesis Hver :
  Forall (fun item => exists v, Py.getitem item "version" = Ok (JStr v)) items.
Hypothesis Hcodec :
  forall r, record_like r -> json_load E (json_dump E (JObj r)) = Ok (JObj r).







End WildcardRun.

Section WildcardStatement.
Variable E : Env.

End WildcardStatement.

(** ** The codec of the concrete environment on records *)

Section Codec.
Import JsonText.



















End Codec.

(** ** Fetching *)

Section Fetch.
Variable E : Env.

Lemma urlretrieve_served url p body w :
  remote E url = Served body ->
  Os.node_at (fs w) p <> Some Dir ->
  Os.node_at (fs w) (PyPath.parent p) = Some Dir ->
  Os.urlretrieve E url p w
  = (set_fs (insert p (File body)) (add_opened_url url w), Return tt).
Proof.
  intros Hr Hp Hd. unfold Os.urlretrieve, bind, modify. rewrite Hr.
  unfold Os.write_file. cbn [fs add_opened_url]. rewrite Hd.
  by destruct (Os.node_at (fs w) p) as [[?|]|].
Qed.

Lemma urlretrieve_refused url p e w :
  remote E url = Refused e ->
  Os.urlretrieve E url p w = (add_opened_url url w, Raise e).
Proof. intros Hr. unfold Os.urlretrieve, bind, modify. by rewrite Hr. Qed.

Lemma write_file_no_parent p data w :
  Os.node_at (fs w) p = None ->
  Os.node_at (fs w) (PyPath.parent p) = None ->
  Os.write_file p data w = (w, Raise (FileNotFoundError p)).
Proof. intros Hp Hd. unfold Os.write_file. by rewrite Hp, Hd. Qed.

Lemma urlretrieve_no_parent url p w :
  Os.node_at (fs w) p = None ->
  Os.node_at (fs w) (PyPath.parent p) = None ->
  exists e,
    Os.urlretrieve E url p w = (add_opened_url url w, Raise e)
    /\ (forall e', remote E url = Refused e' -> e = e')
    /\ ((forall e', remote E url <> Refused e') -> e = FileNotFoundError p).
Proof.
  intros Hp Hd. unfold Os.urlretrieve, bind, modify.
  destruct (remote E url) as [body|e|partial e] eqn:Hr.
  - exists (FileNotFoundError p).
    rewrite write_file_no_parent by done. by repeat split.
  - exists e. repeat split; [congruence|]. intros H. by destruct (H e).
  - exists (FileNotFoundError p).
    rewrite write_file_no_parent by done. by repeat split.
Qed.
End Fetch.

(** ** [update_packages] *)

Section Update.
Variable E : Env.

Let fail (e : exn) : M unit :=
  handle_error ("Failed to update package list: " +:+ str_exn E e).

Lemma update_packages_object w f d :
  Os.node_at (fs w) (get_package_file_path E) = Some (File f) ->
  json_load E f = Ok (JObj d) ->
  update_packages E w
  = (Os.print (Fore.WHITE +:+ "Updating package list from: "
               +:+ py_str E (update_url_in d) +:+ Fore.RESET_ALL) ;;
     try_except
       (urlretrieve_value E (update_url_in d) (get_package_file_path E) ;;
        Os.print update_done)
       fail) w.
Proof.
  intros Hf Hd. unfold update_packages. cbv zeta.
  unfold bind at 1. unfold try_except at 1. unfold bind at 1.
  unfold Os.open_read. rewrite Hf. unfold bind at 1. rewrite Hd.
  cbn [lift ret Py.get]. unfold update_url_in.
  by destruct (Py.dict_get "updateurl" d) as [v|].
Qed.

Lemma update_packages_default w :
  (Os.node_at (fs w) (get_package_file_path E) = None
   \/ exists f, Os.node_at (fs w) (get_package_file_path E) = Some (File f)
                /\ json_load E f = Err JSONDecodeError) ->
  update_packages E w
  = try_except
      (Os.urlretrieve E catalog_url (get_package_file_path E) ;;
       Os.print update_done)
      fail
      (add_stdout (update_announcement catalog_url) (add_stdout update_notice w)).
Proof.
  intros H. unfold update_packages. cbv zeta.
  unfold bind at 1. unfold try_except at 1. unfold bind at 1.
  unfold Os.open_read.
  destruct H as [Hn|(f & Hf & Hd)].
  - by rewrite Hn.
  - rewrite Hf. unfold bind at 1. by rewrite Hd.
Qed.

(** Property X1.  When the catalog file holds a mapping, [update_packages]
    fetches from the string under its [updateurl] key, or from the default
    URL when the mapping has no such key.  When the server delivers a body
    and the directory of the catalog exists, the call returns: the catalog
    file holds that body, this one URL has been opened, and the announcement
    and the success message have been printed. *)
Theorem update_from_catalog_url w f d u body :
  let p := get_package_file_path E in
  Os.node_at (fs w) p = Some (File f) ->
  json_load E f = Ok (JObj d) ->
  update_url_in d = JStr u ->
  remote E u = Served body ->
  Os.node_at (fs w) (PyPath.parent p) = Some Dir ->
  update_packages E w
  = (add_stdout update_done
       (set_fs (insert p (File body))
          (add_opened_url u (add_stdout (update_announcement u) w))),
     Return tt)
  /\ (Py.dict_get "updateurl" d = None -> u = catalog_url)
  /\ (forall v, Py.dict_get "updateurl" d = Some v -> v = JStr u).
Proof.
  intros p Hf Hd Hu Hr Hdir.
  rewrite (update_packages_object _ _ _ Hf Hd), Hu.
  split; [|split].
  - unfold bind at 1, Os.print at 1, modify. unfold try_except.
    cbn [urlretrieve_value]. unfold bind at 1.
    rewrite (urlretrieve_served E u p body) by (cbn; congruence || done).
    reflexivity.
  - unfold update_url_in in Hu. intros Hn. rewrite Hn in Hu. congruence.
  - unfold update_url_in in Hu. intros v Hv. by rewrite Hv in Hu.
Qed.

(** Property X2.  When the catalog file is absent or does not hold JSON,
    [update_packages] says so and fetches from the default URL.  A body that
    the server delivers becomes the catalog file; a refused request ends
    with the "Failed to update package list" error and exit status 1, the
    store being as before. *)
Theorem update_default_url w :
  let p := get_package_file_path E in
  let w0 := add_opened_url catalog_url
              (add_stdout (update_announcement catalog_url)
                 (add_stdout update_notice w)) in
  (Os.node_at (fs w) p = None
   \/ exists f, Os.node_at (fs w) p = Some (File f)
                /\ json_load E f = Err JSONDecodeError) ->
  (forall body,
      remote E catalog_url = Served body ->
      Os.node_at (fs w) (PyPath.parent p) = Some Dir ->
      update_packages E w
      = (add_stdout update_done (set_fs (insert p (File body)) w0),
         Return tt))
  /\ (forall e,
        remote E catalog_url = Refused e ->
        update_packages E w
        = (add_stdout
             (error_text ("Failed to update package list: " +:+ str_exn E e))
             w0,
           Exit 1%Z)).
Proof.
  intros p w0 H. rewrite (update_packages_default _ H).
  split.
  - intros body Hr Hd. unfold try_except, bind at 1.
    rewrite (urlretrieve_served E _ p body); [reflexivity|done| |done].
    cbn. destruct H as [->|(f & -> & _)]; done.
  - intros e Hr. unfold try_except, bind at 1.
    by rewrite (urlretrieve_refused E _ p e).
Qed.

(** Property X3.  [update_packages] makes no directory.  When neither the
    catalog file nor its directory exists, it opens the default URL and then
    exits with status 1, the store being as before; the error shown is the
    refusal of the server when it refuses, and otherwise the
    [FileNotFoundError] of the catalog path. *)
Theorem update_without_directory w :
  let p := get_package_file_path E in
  Os.node_at (fs w) p = None ->
  Os.node_at (fs w) (PyPath.parent p) = None ->
  exists e w',
    update_packages E w = (w', Exit 1%Z)
    /\ w' = add_stdout
              (error_text ("Failed to update package list: " +:+ str_exn E e))
              (add_opened_url catalog_url
                 (add_stdout (update_announcement catalog_url)
                    (add_stdout update_notice w)))
    /\ fs w' = fs w
    /\ (forall e', remote E catalog_url = Refused e' -> e = e')
    /\ ((forall e', remote E catalog_url <> Refused e') ->
        e = FileNotFoundError p).
Proof.
  intros p Hp Hd. rewrite update_packages_default by (by left).
  fold p. set (w0 := add_stdout _ (add_stdout _ _)).
  destruct (urlretrieve_no_parent E catalog_url p w0 Hp Hd)
    as (e & Hrun & Hrefused & Hother).
  exists e. eexists. split; [|split; [reflexivity|split; [|done]]].
  - unfold try_except, bind at 1. by rewrite Hrun.
  - reflexivity.
Qed.

(** Property X4.  When the catalog file holds JSON that is not a mapping,
    [update_packages] raises the [AttributeError] of [data.get], which its
    [except] clause for a missing or malformed file does not catch: nothing
    is printed and no URL is opened. *)
Theorem update_catalog_not_a_mapping w f v :
  Os.node_at (fs w) (get_package_file_path E) = Some (File f) ->
  json_load E f = Ok v ->
  (forall d, v <> JObj d) ->
  update_packages E w = (w, Raise (AttributeError "get")).
Proof.
  intros Hf Hv Hobj. unfold update_packages. cbv zeta.
  unfold bind at 1. unfold try_except at 1. unfold bind at 1.
  unfold Os.open_read. rewrite Hf. unfold bind at 1. rewrite Hv.
  destruct v; try reflexivity. by destruct (Hobj members).
Qed.
End Update.

(** ** Computations that only print *)

Lemma add_lines_nil w : add_lines [] w = w.
Proof. destruct w. unfold add_lines. cbn. by rewrite app_nil_r. Qed.

Lemma add_lines_app out out' w :
  add_lines out' (add_lines out w) = add_lines (out ++ out') w.
Proof. unfold add_lines. cbn. by rewrite app_assoc. Qed.

Lemma add_stdout_lines s w : add_stdout s w = add_lines [s] w.
Proof. reflexivity. Qed.

Section OnlyPrints.
Context {A B : Type}.

Lemma only_prints_ret (a : A) : only_prints (ret a).
Proof. intros w w' r [= <- _]. exists []. by rewrite add_lines_nil. Qed.

Lemma only_prints_raise (e : exn) : only_prints (raise (A := A) e).
Proof. intros w w' r [= <- _]. exists []. by rewrite add_lines_nil. Qed.

Lemma only_prints_lift (x : result A) : only_prints (lift x).
Proof. destruct x; [apply only_prints_ret | apply only_prints_raise]. Qed.

Lemma only_prints_bind (m : M A) (k : A -> M B) :
  only_prints m -> (forall a, only_prints (k a)) -> only_prints (bind m k).
Proof.
  intros Hm Hk w w' r H. unfold bind in H.
  destruct (m w) as [w1 [a|e|c]] eqn:Hmw;
    destruct (Hm _ _ _ Hmw) as [out ->].
  - destruct (Hk _ _ _ _ H) as [out' ->]. eexists. apply add_lines_app.
  - injection H as <- _. by eexists.
  - injection H as <- _. by eexists.
Qed.

Lemma only_prints_try (m : M A) (h : exn -> M A) :
  only_prints m -> (forall e, only_prints (h e)) -> only_prints (try_except m h).
Proof.
  intros Hm Hh w w' r H. unfold try_except in H.
  destruct (m w) as [w1 [a|e|c]] eqn:Hmw;
    destruct (Hm _ _ _ Hmw) as [out ->].
  - injection H as <- _. by eexists.
  - destruct (Hh _ _ _ _ H) as [out' ->]. eexists. apply add_lines_app.
  - injection H as <- _. by eexists.
Qed.

End OnlyPrints.

Lemma only_prints_for_each {A} (l : list A) (f : A -> M unit) :
  (forall x, only_prints (f x)) -> only_prints (for_each l f).
Proof.
  intros Hf. induction l as [|x l IH]; [apply only_prints_ret|].
  cbn [for_each]. apply only_prints_bind; [apply Hf|by intros _].
Qed.

Lemma only_prints_print s : only_prints (Os.print s).
Proof. intros w w' r [= <- _]. by exists [s]. Qed.

Lemma only_prints_handle_error {A} s : only_prints (handle_error (A := A) s).
Proof. intros w w' r [= <- _]. by exists [error_text s]. Qed.

Lemma only_prints_open_read p : only_prints (Os.open_read p).
Proof.
  intros w w' r H. unfold Os.open_read in H. exists [].
  rewrite add_lines_nil.
  destruct (Os.node_at (fs w) p) as [[f|]|]; by injection H as <- _.
Qed.

Ltac only_prints_step :=
  match goal with
  | |- only_prints (bind _ _) => apply only_prints_bind; [|intros ?]
  | |- only_prints (try_except _ _) => apply only_prints_try; [|intros ?]
  | |- only_prints (ret _) => apply only_prints_ret
  | |- only_prints (raise _) => apply only_prints_raise
  | |- only_prints (lift _) => apply only_prints_lift
  | |- only_prints (handle_error _) => apply only_prints_handle_error
  | |- only_prints (Os.print _) => apply only_prints_print
  | |- only_prints (Os.open_read _) => apply only_prints_open_read
  | |- only_prints (if ?b then _ else _) => destruct b
  end.

(** ** [list_packages] *)

Section Listing.
Variable E : Env.

Lemma only_prints_describe_package package :
  only_prints (describe_package E package).
Proof. unfold describe_package. repeat only_prints_step. Qed.

Lemma join_items_strings sep (l : list string) :
  Py.join_items sep (List.map JStr l) = Ok (String.concat sep l).
Proof.
  induction l as [|s l IH]; [reflexivity|].
  cbn [List.map Py.join_items Py.as_str]. destruct l as [|s' l]; [reflexivity|].
  cbn [List.map] in *. by rewrite IH.
Qed.

Lemma forty_dashes :
  PyStr.times "-" 40 = "----------------------------------------".
Proof. reflexivity. Qed.

Lemma describe_package_described package lines w :
  described E package lines ->
  describe_package E package w = (add_lines lines w, Return tt).
Proof.
  intros (name & version & description & os & requirepath & shortcut
          & Hn & Hv & Hd & Ho & Hr & Hs & ->).
  unfold describe_package, bind, Os.print, modify. rewrite forty_dashes.
  rewrite Hn. cbn [lift ret]. rewrite Hv. cbn [lift ret].
  rewrite Hd. cbn [lift ret]. rewrite Ho. cbn [lift ret].
  unfold Py.join. cbn [Py.iter]. rewrite join_items_strings. cbn [lift ret].
  rewrite Hr. cbn [lift ret]. rewrite Hs. cbn [lift ret].
  rewrite !add_stdout_lines, !add_lines_app. reflexivity.
Qed.

Lemma for_each_described items liness w :
  Forall2 (described E) items liness ->
  for_each items (describe_package E) w
  = (add_lines (List.concat liness) w, Return tt).
Proof.
  intros H. revert w. induction H as [|item lines items liness Hd _ IH];
    intros w.
  - cbn. by rewrite add_lines_nil.
  - cbn [for_each List.concat]. unfold bind.
    rewrite (describe_package_described _ _ _ Hd), IH.
    by rewrite add_lines_app.
Qed.

(** The part of [list_packages] that follows [ensure_packages_file]. *)
Lemma list_packages_present w n :
  Os.node_at (fs w) (get_package_file_path E) = Some n ->
  list_packages E w
  = try_except
      (f <- Os.open_read (get_package_file_path E) ;;
       data <- lift (json_load E f) ;;
       Os.print listing_header ;;
       packages <- lift (Py.get data "packages" (JArr [])) ;;
       items <- lift (Py.iter packages) ;;
       for_each items (describe_package E))
      (fun e =>
         if is_FileNotFoundError e
         then handle_error ("Package list not found. Try running the 'update' "
                            +:+ "command to fetch the package list.")
         else if is_JSONDecodeError e
         then handle_error
                "Failed to read package list (corrupted or invalid JSON)."
         else raise e) w.
Proof.
  intros Hn. unfold list_packages, try_except. unfold bind at 1.
  by rewrite (ensure_packages_file_present E w n Hn).
Qed.

(** Property X5.  With a catalog file in place, [list_packages] does nothing
    but print: however it ends, the store, the input still to be read, the
    URLs opened, the clock and the desktop are as before. *)
Theorem list_packages_read_only w w' r n :
  Os.node_at (fs w) (get_package_file_path E) = Some n ->
  list_packages E w = (w', r) ->
  fs w' = fs w /\ stdin w' = stdin w /\ opened_urls w' = opened_urls w
  /\ ticks w' = ticks w /\ launchers w' = launchers w
  /\ stdout w `prefix_of` stdout w'.
Proof.
  intros Hn H. rewrite (list_packages_present _ _ Hn) in H.
  assert (Hp : exists out, w' = add_lines out w).
  { revert H. generalize w w' r.
    match goal with
    | |- forall w w' r, ?m w = (w', r) -> _ =>
        change (only_prints m)
    end.
    repeat first [apply only_prints_for_each; intros ?;
                  apply only_prints_describe_package | only_prints_step]. }
  destruct Hp as [out ->]. cbn. repeat split. by apply prefix_app_r.
Qed.

Lemma list_packages_described w f data packages items liness :
  Os.node_at (fs w) (get_package_file_path E) = Some (File f) ->
  json_load E f = Ok data ->
  Py.get data "packages" (JArr []) = Ok packages ->
  Py.iter packages = Ok items ->
  Forall2 (described E) items liness ->
  list_packages E w
  = (add_lines (listing_header :: List.concat liness) w, Return tt).
Proof.
  intros Hf Hdata Hp Hi Hd.
  rewrite (list_packages_present _ _ Hf). unfold try_except, bind at 1.
  unfold Os.open_read. rewrite Hf. unfold bind at 1. rewrite Hdata.
  cbn [lift ret]. unfold bind at 1, Os.print at 1, modify.
  unfold bind at 1. rewrite Hp. cbn [lift ret]. unfold bind at 1.
  rewrite Hi. cbn [lift ret]. rewrite (for_each_described _ _ _ Hd).
  by rewrite add_stdout_lines, add_lines_app.
Qed.

(** Property X6.  For a catalog whose descriptors have the six entries that
    are shown, the platforms being a list of strings, [list_packages]
    returns after printing the header and then, for each descriptor in
    catalog order, its seven lines: 1 + 7n texts for n descriptors. *)
Theorem list_packages_output w f data packages items liness :
  Os.node_at (fs w) (get_package_file_path E) = Some (File f) ->
  json_load E f = Ok data ->
  Py.get data "packages" (JArr []) = Ok packages ->
  Py.iter packages = Ok items ->
  Forall2 (described E) items liness ->
  list_packages E w
  = (add_lines (listing_header :: List.concat liness) w, Return tt)
  /\ length (listing_header :: List.concat liness) = 1 + 7 * length items.
Proof.
  intros Hf Hdata Hp Hi Hd. split.
  - by eapply list_packages_described.
  - assert (Hlen : length (List.concat liness) = 7 * length items).
    { clear Hi. induction Hd as [|item lines items' liness' H _ IH];
        [reflexivity|].
      destruct H as (? & ? & ? & ? & ? & ? & _ & _ & _ & _ & _ & _ & ->).
      cbn [List.concat]. rewrite length_app, IH. cbn [length summary]. lia. }
    cbn [length]. lia.
Qed.

(** Property X7.  When the catalog file does not hold JSON, [list_packages]
    prints the "Failed to read package list" error and exits with status 1,
    having printed nothing else. *)
Theorem list_packages_corrupt_catalog w f :
  Os.node_at (fs w) (get_package_file_path E) = Some (File f) ->
  json_load E f = Err JSONDecodeError ->
  list_packages E w
  = (add_stdout
       (error_text "Failed to read package list (corrupted or invalid JSON).")
       w,
     Exit 1%Z).
Proof.
  intros Hf Hdata. rewrite (list_packages_present _ _ Hf).
  unfold try_except, bind at 1. unfold Os.open_read. rewrite Hf.
  unfold bind at 1. by rewrite Hdata.
Qed.

(** Property X8.  A descriptor without a usable [version] entry makes
    [list_packages] raise the error of the lookup, a [KeyError] or a
    [TypeError], which none of its [except] clauses catches, after it has
    printed the descriptors before it and the name of this one; what comes
    after it in the catalog is not listed. *)
Theorem list_packages_incomplete_descriptor w f data packages pre bad post
  liness name e :
  Os.node_at (fs w) (get_package_file_path E) = Some (File f) ->
  json_load E f = Ok data ->
  Py.get data "packages" (JArr []) = Ok packages ->
  Py.iter packages = Ok (pre ++ bad :: post) ->
  Forall2 (described E) pre liness ->
  Py.getitem bad "name" = Ok name ->
  Py.getitem bad "version" = Err e ->
  list_packages E w
  = (add_lines
       (listing_header :: List.concat liness
        ++ [Fore.CYAN +:+ "Name: " +:+ py_str E name +:+ Fore.RESET_ALL]) w,
     Raise e)
  /\ (exists detail, e = KeyError detail \/ e = TypeError detail).
Proof.
  intros Hf Hdata Hp Hi Hd Hname Hversion.
  assert (He : exists detail, e = KeyError detail \/ e = TypeError detail).
  { unfold Py.getitem in Hversion.
    destruct bad; try (injection Hversion as <-; eexists; by right).
    destruct (Py.dict_get "version" members); [discriminate|].
    injection Hversion as <-. eexists. by left. }
  split; [|exact He].
  rewrite (list_packages_present _ _ Hf). unfold try_except, bind at 1.
  unfold Os.open_read. rewrite Hf. unfold bind at 1. rewrite Hdata.
  cbn [lift ret]. unfold bind at 1, Os.print at 1, modify.
  unfold bind at 1. rewrite Hp. cbn [lift ret]. unfold bind at 1.
  rewrite Hi. cbn [lift ret].
  rewrite (for_each_app _ _ _ _ _ (for_each_described _ _ _ Hd)).
  cbn [for_each]. unfold bind at 1. unfold describe_package.
  rewrite Hname, Hversion. cbn [lift ret raise]. unfold bind at 1.
  cbn [ret]. unfold bind at 1, Os.print at 1, modify. unfold bind at 1.
  cbn [raise].
  rewrite !add_stdout_lines, !add_lines_app. cbn [app].
  destruct He as [detail [-> | ->]]; reflexivity.
Qed.
End Listing.

(** ** [uninstall_package] *)

Section Uninstall.
Variable E : Env.

Lemma without_below p m q : p `prefix_of` q -> without p m !! q = None.
Proof. intros H. apply filter_lookup_drop. intros x Hx. by apply Hx. Qed.

Lemma without_apart p m q : ~ p `prefix_of` q -> without p m !! q = m !! q.
Proof. intros H. by apply filter_lookup_keep. Qed.

Lemma rmtree_removes p w :
  Os.node_at (fs w) p = Some Dir ->
  rmtree_fault E p = None ->
  Os.rmtree E p w = (set_fs (without p) w, Return tt).
Proof. intros Hn Hf. unfold Os.rmtree. by rewrite Hn, Hf. Qed.

(** After the removal, [remove_installed] goes on from the record that is
    left. *)
Lemma remove_installed_removed name w :
  let p := get_installation_path E name in
  let w2 := add_stdout (uninstall_done name) (set_fs (without p) w) in
  Os.node_at (fs w) p = Some Dir ->
  rmtree_fault E p = None ->
  remove_installed E name w
  = match record_in E (fs w2) with
    | Return record =>
        (listed <- lift (Py.contains record name) ;;
         if listed : bool
         then record' <- lift (Py.delitem record name) ;;
              write_record E record'
         else ret tt) w2
    | Raise e => (w2, Raise e)
    | Exit c => (w2, Exit c)
    end.
Proof.
  intros p w2 Hn Hf. unfold remove_installed. cbv zeta. fold p.
  unfold bind at 1. rewrite (rmtree_removes _ _ Hn Hf).
  unfold bind at 1, Os.print at 1, modify. unfold bind at 1.
  rewrite read_record_eq. reflexivity.
Qed.

Lemma dict_get_del_eq k d : Py.dict_get k (Py.dict_del k d) = None.
Proof.
  induction d as [|[k' v'] d IH]; [reflexivity|].
  unfold Py.dict_del in *. cbn [List.filter fst].
  destruct (String.eqb k' k) eqn:Hk; cbn [negb]; [exact IH|].
  cbn [Py.dict_get]. by rewrite Hk.
Qed.

Lemma dict_get_del_ne k k' d :
  k' <> k -> Py.dict_get k' (Py.dict_del k d) = Py.dict_get k' d.
Proof.
  intros Hne. induction d as [|[k0 v0] d IH]; [reflexivity|].
  unfold Py.dict_del in *. cbn [List.filter fst Py.dict_get].
  destruct (String.eqb k0 k) eqn:Hk; cbn [negb].
  - apply String.eqb_eq in Hk as ->.
    destruct (String.eqb k k') eqn:Hk'; [|exact IH].
    apply String.eqb_eq in Hk'. by destruct Hne.
  - cbn [Py.dict_get]. by rewrite IH.
Qed.

Lemma record_in_present m r :
  record_in E m = Return (JObj r) -> r <> [] ->
  exists f, m !! get_record_file_path E = Some (File f).
Proof.
  rewrite record_in_eq. unfold record_of_node.
  destruct (m !! get_record_file_path E) as [[f|]|]; [by eexists|done|].
  by intros [= <-].
Qed.

Lemma mkdir_parents_lookup p w w' :
  Os.mkdir_parents p w = (w', Return tt) ->
  forall q, fs w' !! q = fs w !! q
            \/ (fs w !! q = None /\ fs w' !! q = Some Dir /\ q `prefix_of` p).
Proof.
  intros H q. apply mkdir_parents_return in H as (m' & Hm & ->).
  destruct (mkdir_from_lookup _ _ _ _ Hm q) as [Hq|(Hn & Hs & Hp & _)];
    [by left|by right].
Qed.

Lemma write_record_lookup record w w' :
  write_record E record w = (w', Return tt) ->
  forall q, ~ q `prefix_of` get_record_file_path E ->
            fs w' !! q = fs w !! q.
Proof.
  intros H q Hq. symmetry.
  by rewrite <- (keeps_write_record E q record Hq _ _ _ H).
Qed.

(** Property X9.  An uninstallation that goes through removes the
    installation directory and all that lies below it; every other path that
    is no ancestor of the record file is as before; and the record loaded
    afterwards has no entry for the name, every other entry being as it was.
    The hypothesis on [json_load] and [json_dump] is the round trip of the
    [json] library on the mapping written. *)
Theorem uninstall_removes_tree_and_entry name skip w w0 w3 r :
  let p := get_installation_path E name in
  let w2 := add_stdout (uninstall_done name) (set_fs (without p) w0) in
  let r' := Py.dict_del name r in
  Os.node_at (fs w) p = Some Dir ->
  confirmed (uninstall_prompt name) skip w = Some w0 ->
  rmtree_fault E p = None ->
  record_in E (fs w2) = Return (JObj r) ->
  Py.dict_has name r = true ->
  write_record E (JObj r') w2 = (w3, Return tt) ->
  json_load E (json_dump E (JObj r')) = Ok (JObj r') ->
  uninstall_package E name skip w = (w3, Return tt)
  /\ (forall q, p `prefix_of` q -> fs w3 !! q = None)
  /\ (forall q, ~ p `prefix_of` q ->
                ~ q `prefix_of` get_record_file_path E ->
                fs w3 !! q = fs w !! q)
  /\ record_in E (fs w3) = Return (JObj r')
  /\ Py.dict_get name r' = None
  /\ (forall k, k <> name -> Py.dict_get k r' = Py.dict_get k r).
Proof.
  intros p w2 r' Hn Hc Hf Hrec Hhas Hwrite Hcodec.
  destruct (uninstall_proceeds E _ _ _ _ _ Hn Hc) as [Hrun Hfs].
  assert (Hn0 : Os.node_at (fs w0) p = Some Dir) by (by rewrite Hfs).
  assert (Hrp : ~ p `prefix_of` get_record_file_path E).
  { intros Hp. destruct (record_in_present _ _ Hrec) as [f Hfile].
    - intros ->. discriminate.
    - cbn in Hfile. fold (without p (fs w0)) in Hfile.
      by rewrite (without_below _ _ _ Hp) in Hfile. }
  split; [|split; [|split; [|split; [|split]]]].
  - rewrite Hrun. unfold try_except.
    rewrite (remove_installed_removed _ _ Hn0 Hf). fold p w2. rewrite Hrec.
    unfold bind at 1. cbn [Py.contains lift ret]. rewrite Hhas.
    unfold bind at 1. unfold Py.delitem. rewrite Hhas. cbn [lift ret].
    fold r'. by rewrite Hwrite.
  - intros q Hq.
    rewrite (write_record_lookup _ _ _ Hwrite).
    + cbn. by apply without_below.
    + intros Hqr. apply Hrp. by etrans.
  - intros q Hq Hqr. rewrite (write_record_lookup _ _ _ Hwrite) by done.
    cbn. rewrite <- Hfs. by apply without_apart.
  - rewrite record_in_eq, (write_record_return _ _ _ _ Hwrite). cbn.
    by rewrite Hcodec.
  - apply dict_get_del_eq.
  - intros k Hk. by apply dict_get_del_ne.
Qed.

Lemma uninstall_asks name w n :
  Os.node_at (fs w) (get_installation_path E name) = Some n ->
  uninstall_package E name false w
  = try_except
      (answer <- Os.input (uninstall_prompt name) ;;
       if negb (affirmative answer)
       then Os.print (Fore.WHITE +:+ "Uninstallation of '" +:+ name
                      +:+ "' cancelled." +:+ Fore.RESET_ALL)
       else remove_installed E name)
      (uninstall_failed E name) w.
Proof.
  intros Hn. unfold uninstall_package. cbv zeta. unfold try_except.
  unfold bind at 1, Os.path_exists, gets. rewrite Hn. cbn [negb].
  unfold bind at 1, ret. reflexivity.
Qed.

(** Property X10.  At the prompt of [uninstall_package], an answer that is
    not a yes is a cancellation: the message is printed and the call
    returns, the store being untouched.  When no input is left, the
    [EOFError] of [input] is reported as an uninstall error, with exit
    status 1. *)
Theorem uninstall_cancelled name w n :
  Os.node_at (fs w) (get_installation_path E name) = Some n ->
  (forall answer rest,
      stdin w = answer :: rest ->
      affirmative answer = false ->
      uninstall_package E name false w
      = (add_stdout
           (Fore.WHITE +:+ "Uninstallation of '" +:+ name +:+ "' cancelled."
            +:+ Fore.RESET_ALL)
           (set_stdin rest (add_stdout (uninstall_prompt name) w)),
         Return tt))
  /\ (stdin w = [] ->
      uninstall_package E name false w
      = (add_stdout
           (error_text ("An error occurred while uninstalling '" +:+ name
                        +:+ "': " +:+ str_exn E EOFError
                        +:+ ". Please try again."))
           (add_stdout (uninstall_prompt name) w),
         Exit 1%Z)).
Proof.
  intros Hn. split.
  - intros answer rest Hin Hno. rewrite (uninstall_asks _ _ _ Hn).
    unfold try_except, bind at 1, Os.input. cbn [stdin add_stdout].
    rewrite Hin, Hno. reflexivity.
  - intros Hin. rewrite (uninstall_asks _ _ _ Hn).
    unfold try_except, bind at 1, Os.input. cbn [stdin add_stdout].
    rewrite Hin. reflexivity.
Qed.

(** The removal when the record left behind does not list the name. *)
Lemma uninstall_unrecorded name w record :
  let p := get_installation_path E name in
  let w' := add_stdout (uninstall_done name) (set_fs (without p) w) in
  Os.node_at (fs w) p = Some Dir ->
  rmtree_fault E p = None ->
  record_in E (fs w') = Return record ->
  Py.contains record name = Ok false ->
  uninstall_package E name true w = (w', Return tt).
Proof.
  intros p w' Hn Hf Hrec Hno.
  destruct (uninstall_proceeds E name true w w Dir Hn eq_refl) as [-> _].
  unfold try_except. rewrite (remove_installed_removed _ _ Hn Hf).
  fold p w'. rewrite Hrec. unfold bind at 1. by rewrite Hno.
Qed.

Lemma installation_path_dot : get_installation_path E "." = vendor_dir E.
Proof.
  unfold get_installation_path, vendor_dir, get_record_file_path.
  destruct (is_windows E).
  - rewrite (div_plain _ "record.json") by done.
    unfold PyPath.parent. rewrite removelast_last.
    unfold PyPath.div at 1. cbn. by rewrite app_nil_r.
  - rewrite (div_plain _ "record.json") by done.
    unfold PyPath.parent. rewrite removelast_last.
    unfold PyPath.div at 1. cbn. by rewrite app_nil_r.
Qed.

(** Property X11.  The name "." denotes the vendor directory itself.  Under
    that name [uninstall_package], confirmation skipped, removes the vendor
    directory with the record file, the catalog and every installation in
    it, and returns normally. *)
Theorem uninstall_dot_removes_everything w :
  let w' := add_stdout (uninstall_done ".")
              (set_fs (without (vendor_dir E)) w) in
  Os.node_at (fs w) (vendor_dir E) = Some Dir ->
  rmtree_fault E (vendor_dir E) = None ->
  get_installation_path E "." = vendor_dir E
  /\ uninstall_package E "." true w = (w', Return tt)
  /\ (forall q, vendor_dir E `prefix_of` q -> fs w' !! q = None)
  /\ fs w' !! get_record_file_path E = None
  /\ fs w' !! get_package_file_path E = None
  /\ (forall name, plain_name name = true ->
                   fs w' !! get_installation_path E name = None).
Proof.
  intros w' Hn Hf.
  assert (Hbelow : forall q, vendor_dir E `prefix_of` q -> fs w' !! q = None).
  { intros q Hq. cbn. by apply without_below. }
  assert (Hrec : fs w' !! get_record_file_path E = None).
  { apply Hbelow. rewrite record_file_path_eq. by apply prefix_app_r. }
  split; [apply installation_path_dot|]. split; [|split; [done|split; [done|split]]].
  - pose proof (uninstall_unrecorded "." w (JObj [])) as H. cbv zeta in H.
    rewrite installation_path_dot in H. apply H; [done..| |done].
    rewrite record_in_eq. fold w'. by rewrite Hrec.
  - apply Hbelow. rewrite package_file_path_eq. by apply prefix_app_r.
  - intros name Hp. apply Hbelow. rewrite installation_path_plain by done.
    by apply prefix_app_r.
Qed.

Lemma installation_path_absolute name :
  PyPath.is_absolute name = true ->
  get_installation_path E name = PyPath.parts name.
Proof.
  intros H. unfold get_installation_path.
  destruct (is_windows E); unfold PyPath.div at 1; by rewrite H.
Qed.

(** Property X12.  A name that is an absolute path denotes that path, not a
    directory under the vendor directory.  Under such a name
    [uninstall_package], confirmation skipped, removes the directory that
    the name denotes, with all that lies below it. *)
Theorem uninstall_absolute_name name w record :
  let p := PyPath.parts name in
  let w' := add_stdout (uninstall_done name) (set_fs (without p) w) in
  PyPath.is_absolute name = true ->
  Os.node_at (fs w) p = Some Dir ->
  rmtree_fault E p = None ->
  record_in E (fs w') = Return record ->
  Py.contains record name = Ok false ->
  get_installation_path E name = p
  /\ uninstall_package E name true w = (w', Return tt)
  /\ (forall q, p `prefix_of` q -> fs w' !! q = None).
Proof.
  intros p w' Habs Hn Hf Hrec Hno.
  pose proof (installation_path_absolute _ Habs) as Hp. fold p in Hp.
  split; [done|]. split.
  - pose proof (uninstall_unrecorded name w record) as H. cbv zeta in H.
    rewrite Hp in H. by apply H.
  - intros q Hq. cbn. by apply without_below.
Qed.
End Uninstall.

(** ** More on [install_package] *)

Section InstallEdges.
Variable E : Env.

Lemma install_failed_eq e w :
  install_failed E e w = (add_stdout (install_error E e) w, Exit 1%Z).
Proof. unfold install_failed, install_error. by destruct (is_FileNotFoundError e). Qed.

Lemma find_package_none name items :
  Forall (named_otherwise name) items ->
  find_package items (JStr name) = Ok None.
Proof.
  induction 1 as [|item items (n & Hn & Hne) _ IH]; [reflexivity|].
  cbn [find_package]. rewrite Hn. cbn [Py.lower].
  destruct (String.eqb _ _) eqn:Heq; [|exact IH].
  by apply String.eqb_eq in Heq.
Qed.

(** Property X21.  Resolution takes the first descriptor whose name is the
    wanted one up to letter case: the descriptors after it are not looked
    at, whatever they are. *)
Theorem find_package_first_match name pre package post n :
  Forall (named_otherwise name) pre ->
  Py.getitem package "name" = Ok (JStr n) ->
  PyStr.lower n = PyStr.lower name ->
  find_package (pre ++ package :: post) (JStr name) = Ok (Some package).
Proof.
  intros Hpre Hn Heq.
  induction Hpre as [|item items (m & Hm & Hne) _ IH].
  - cbn [app find_package]. rewrite Hn. cbn [Py.lower].
    by rewrite Heq, String.eqb_refl.
  - cbn [app find_package]. rewrite Hm. cbn [Py.lower].
    destruct (String.eqb _ _) eqn:Heq'; [|exact IH].
    by apply String.eqb_eq in Heq'.
Qed.

Lemma install_not_found d name skip w w1 packages items :
  name <> "*" ->
  load_packages E w = (w1, Return packages) ->
  Py.iter packages = Ok items ->
  find_package items (JStr name) = Ok None ->
  install_package E (S d) (JStr name) skip w
  = (add_stdout
       (error_text ("Package '" +:+ name
                    +:+ "' not found in the package list.")) w1,
     Exit 1%Z).
Proof.
  intros Hstar Hload Hiter Hfind.
  rewrite install_package_named by (by apply not_wildcard).
  unfold try_except. erewrite bind_return; [|exact Hload].
  unfold bind at 1, resolve_package. cbv zeta. unfold bind at 1.
  rewrite Hiter. cbn [lift ret]. unfold bind at 1.
  by rewrite Hfind.
Qed.

(** Property X13.  When every descriptor of the catalog has a name other
    than the wanted one, letter case apart, [install_package] prints the
    "not found in the package list" error and exits with status 1, in the
    world that loading the catalog left. *)
Theorem install_unknown_package d name skip w w1 packages items :
  name <> "*" ->
  load_packages E w = (w1, Return packages) ->
  Py.iter packages = Ok items ->
  Forall (named_otherwise name) items ->
  install_package E (S d) (JStr name) skip w
  = (add_stdout
       (error_text ("Package '" +:+ name
                    +:+ "' not found in the package list.")) w1,
     Exit 1%Z).
Proof.
  intros Hstar Hload Hiter Hitems.
  apply install_not_found with packages items; try done.
  by apply find_package_none.
Qed.

Lemma install_offered d name skip w w1 w2 package :
  name <> "*" ->
  offered E name skip w w1 w2 package ->
  install_package E (S d) (JStr name) skip w
  = try_except
      (a <- fetch_artifact E (JStr name) package (platform_system E) ;;
       finish_install E (JStr name) package a)
      (install_failed E) w2.
Proof.
  intros Hstar (packages & items & os & Hload & Hiter & Hfind & Hos & Hin & Hc).
  rewrite install_package_named by (by apply not_wildcard).
  unfold try_except. erewrite bind_return; [|exact Hload].
  erewrite bind_return; [|by eapply resolve_package_found].
  unfold install_resolved.
  erewrite bind_return; [|by eapply check_platform_supported].
  erewrite bind_return; [|by apply confirm_install_confirmed].
  reflexivity.
Qed.

(** Property X14.  Under POSIX paths, and for a name that is one ordinary
    path component and not, in any letter case, the name of the record
    file: when lines 187-217 of [install_package] raise an exception (a
    descriptor lacks an entry, a directory cannot be made, the download is
    refused), the call prints the error for that exception and exits with
    status 1, and the record file, with the mapping it holds, is as
    before. *)
Theorem install_download_failure d name skip w w1 e :
  is_windows E = false ->
  name <> "*" ->
  plain_name name = true ->
  PyStr.lower name <> "record.json" ->
  download_phase E (JStr name) skip w = (w1, Raise e) ->
  install_package E (S d) (JStr name) skip w
  = (add_stdout (install_error E e) w1, Exit 1%Z)
  /\ fs w1 !! get_record_file_path E = fs w !! get_record_file_path E
  /\ record_in E (fs w1) = record_in E (fs w).
Proof.
  intros _ Hstar Hplain Hlow Hdl.
  assert (Hrec : name <> "record.json") by (by intros ->).
  assert (Hkeep : fs w1 !! get_record_file_path E
                  = fs w !! get_record_file_path E).
  { by eapply (keeps_record_download_phase E name skip). }
  split; [|split; [exact Hkeep|]].
  - rewrite install_package_phases by (by apply not_wildcard).
    unfold try_except. erewrite bind_raise; [|exact Hdl].
    apply install_failed_eq.
  - by rewrite !record_in_eq, Hkeep.
Qed.

(** Lines 206-217 up to the download, when the descriptor has what they
    look up. *)
Lemma fetch_artifact_reaches_download name package urls url digests digest
  version w w4 :
  let dir := get_installation_path E name in
  let target := dir /. (name +:+ "." +:+ url_extension url) in
  Py.getitem package "url" = Ok urls ->
  Py.getitem urls (platform_system E) = Ok (JStr url) ->
  Py.getitem package "sha256" = Ok digests ->
  Py.getitem digests (platform_system E) = Ok digest ->
  Py.getitem package "version" = Ok version ->
  Os.mkdir_parents dir (add_stdout (installing_text E name version) w)
  = (w4, Return tt) ->
  fetch_artifact E (JStr name) package (platform_system E) w
  = (Os.urlretrieve E url target ;;
     Os.print (Fore.WHITE +:+ "Downloaded " +:+ name +:+ " to "
               +:+ PyPath.str target +:+ Fore.RESET_ALL) ;;
     ret {| install_path := dir; download_path := target;
            sha256 := digest |}) w4.
Proof.
  intros dir target Hurls Hurl Hdigests Hdigest Hversion Hmk.
  unfold fetch_artifact. rewrite Hurls. cbn [lift]. unfold bind at 1, ret at 1.
  rewrite Hurl. unfold bind at 1. cbn [lift ret]. rewrite Hdigests.
  unfold bind at 1. cbn [lift ret]. rewrite Hdigest.
  unfold bind at 1. cbn [lift ret]. rewrite Hversion.
  unfold bind at 1. cbn [lift ret].
  unfold bind at 1, Os.print at 1, modify. cbn [py_str].
  unfold bind at 1. cbn [Py.as_str lift ret].
  unfold bind at 1. fold dir. unfold installing_text in Hmk. cbn [py_str] in Hmk.
  rewrite Hmk. unfold bind at 1. cbn [Py.split_dot lift ret].
  reflexivity.
Qed.

(** Property X15.  When what follows the last dot of the URL contains a
    slash, the download path lies in a directory below the installation
    directory.  When that directory does not exist, the [FileNotFoundError]
    of the download is reported by [install_package] as "Package list not
    found", with exit status 1, after the installation directory has been
    made and the URL opened. *)
Theorem install_nested_download_path d name skip w w1 w2 w4 package urls url
  digests digest version :
  let dir := get_installation_path E name in
  let target := dir /. (name +:+ "." +:+ url_extension url) in
  name <> "*" ->
  offered E name skip w w1 w2 package ->
  Py.getitem package "url" = Ok urls ->
  Py.getitem urls (platform_system E) = Ok (JStr url) ->
  Py.getitem package "sha256" = Ok digests ->
  Py.getitem digests (platform_system E) = Ok digest ->
  Py.getitem package "version" = Ok version ->
  Os.mkdir_parents dir (add_stdout (installing_text E name version) w2)
  = (w4, Return tt) ->
  Os.node_at (fs w4) target = None ->
  Os.node_at (fs w4) (PyPath.parent target) = None ->
  (forall e, remote E url <> Refused e) ->
  install_package E (S d) (JStr name) skip w
  = (add_stdout
       (error_text ("Package list not found. Try updating the package "
                    +:+ "list using the 'update' command."))
       (add_opened_url url w4),
     Exit 1%Z).
Proof.
  intros dir target Hstar Hoff Hurls Hurl Hdigests Hdigest Hversion Hmk
    Ht Hp Hr.
  rewrite (install_offered _ _ _ _ _ _ _ Hstar Hoff).
  unfold try_except, bind at 1.
  rewrite (fetch_artifact_reaches_download _ _ _ _ _ _ _ _ _
             Hurls Hurl Hdigests Hdigest Hversion Hmk).
  fold dir target. unfold bind at 1.
  destruct (urlretrieve_no_parent E url target w4 Ht Hp)
    as (e & -> & _ & He).
  rewrite (He Hr). reflexivity.
Qed.
End InstallEdges.

Section MoreInstall.
Variable E : Env.

(** Property X20.  Without a catalog file, [ensure_packages_file] makes the
    directory of the catalog and fetches the default URL.  A body that the
    server delivers is stored as the catalog file as it is; a refused
    request ends with the "Failed to download package list" error and exit
    status 1, the directory made and no catalog file in it. *)
Theorem ensure_packages_file_fetches w w1 :
  let p := get_package_file_path E in
  Os.node_at (fs w) p = None ->
  Os.mkdir_parents (PyPath.parent p) (add_stdout (catalog_missing_text E) w)
  = (w1, Return tt) ->
  (forall body,
      remote E catalog_url = Served body ->
      let w2 := add_stdout (catalog_fetched_text E)
                  (set_fs (insert p (File body))
                     (add_opened_url catalog_url w1)) in
      ensure_packages_file E w = (w2, Return tt)
      /\ Os.node_at (fs w2) p = Some (File body)
      /\ Os.node_at (fs w2) (PyPath.parent p) = Some Dir)
  /\ (forall e,
        remote E catalog_url = Refused e ->
        let w2 := add_stdout
                    (error_text ("Failed to download package list: "
                                 +:+ str_exn E e))
                    (add_opened_url catalog_url w1) in
        ensure_packages_file E w = (w2, Exit 1%Z)
        /\ Os.node_at (fs w2) p = None
        /\ Os.node_at (fs w2) (PyPath.parent p) = Some Dir).
Proof.
  intros p Hn Hmk.
  assert (Hp : p <> []) by apply package_file_path_not_root.
  assert (Hdir : Os.node_at (fs w1) (PyPath.parent p) = Some Dir).
  { destruct (PyPath.parent p) as [|c l] eqn:Hpar; [done|].
    apply mkdir_parents_return in Hmk as (m' & Hm & ->). cbn.
    by apply (mkdir_from_dir [] (c :: l) _ _ Hm). }
  assert (Hnone : Os.node_at (fs w1) p = None).
  { rewrite node_at_lookup in Hn |- * by done.
    destruct (mkdir_parents_lookup _ _ _ Hmk p) as [->|(_ & _ & Hpre)]; [done|].
    exfalso. apply prefix_length in Hpre. unfold PyPath.parent in Hpre.
    destruct (exists_last Hp) as (l & c & Hl). rewrite Hl in Hpre.
    rewrite removelast_last, length_app in Hpre. cbn in Hpre. lia. }
  assert (Hrun : ensure_packages_file E w
    = try_except
        (Os.urlretrieve E catalog_url p ;;
         Os.print (catalog_fetched_text E))
        (fun e =>
           handle_error ("Failed to download package list: "
                         +:+ str_exn E e)) w1).
  { unfold ensure_packages_file. cbv zeta. fold p.
    unfold bind at 1, Os.path_exists, gets. rewrite Hn. cbn [negb].
    unfold bind at 1, Os.print at 1, modify.
    unfold try_except. unfold bind at 1.
    unfold catalog_missing_text in Hmk. fold p in Hmk. rewrite Hmk.
    reflexivity. }
  split.
  - intros body Hr w2. split; [|split].
    + rewrite Hrun. unfold try_except, bind at 1.
      rewrite (urlretrieve_served E _ p body); [reflexivity|done| |done].
      by rewrite Hnone.
    + rewrite node_at_lookup by done. cbn. apply lookup_insert_eq.
    + destruct (PyPath.parent p) as [|c l] eqn:Hpar; [done|].
      cbn. rewrite lookup_insert_ne; [exact Hdir|].
      intros Heq. pose proof (f_equal length Heq) as Hlen.
      rewrite <- Hpar in Hlen. unfold PyPath.parent in Hlen.
      destruct (exists_last Hp) as (l' & c' & Hl). rewrite Hl in Hlen.
      rewrite removelast_last, length_app in Hlen. cbn in Hlen. lia.
  - intros e Hr w2. split; [|split].
    + rewrite Hrun. unfold try_except, bind at 1.
      by rewrite (urlretrieve_refused E _ p e).
    + exact Hnone.
    + exact Hdir.
Qed.

(** Property X18.  A record file that does not hold JSON is read as the
    empty mapping, so the upsert that ends an installation replaces it by a
    record that has the new entry only. *)
Theorem malformed_record_is_replaced name version t w w1 f :
  let entry := record_entry version t in
  fs w !! get_record_file_path E = Some (File f) ->
  json_load E f = Err JSONDecodeError ->
  write_record E (JObj [(name, entry)]) w = (w1, Return tt) ->
  read_record E w = (w, Return (JObj []))
  /\ upsert_record E name version t w = (w1, Return tt)
  /\ fs w1 !! get_record_file_path E
     = Some (File (json_dump E (JObj [(name, entry)]))).
Proof.
  intros entry Hf Hbad Hwrite.
  assert (Hread : read_record E w = (w, Return (JObj []))).
  { rewrite read_record_eq, record_in_eq, Hf. cbn. by rewrite Hbad. }
  split; [exact Hread|]. split.
  - unfold upsert_record. erewrite bind_return; [|exact Hread].
    cbn [Py.setitem lift Py.dict_set]. unfold bind at 1, ret at 1.
    exact Hwrite.
  - by apply write_record_return in Hwrite.
Qed.

(** Property X19.  When the record file holds JSON that is not a mapping, an
    installation whose artifact has passed the integrity check prints
    "installed successfully!" and then fails on the assignment to the
    record: the [TypeError] is reported as an installation error with exit
    status 1, and the store is as the download left it. *)
Theorem install_record_not_a_mapping d name skip w w1 package a data
  shortcut version record :
  name <> "*" ->
  download_phase E (JStr name) skip w = (w1, Return (Some (package, a))) ->
  Os.node_at (fs w1) (download_path a) = Some (File data) ->
  Py.eq_str (sha256 a) (Sha256.hexdigest data) = true ->
  Os.node_at (fs w1) (install_path a) <> None ->
  Py.getitem package "shortcut" = Ok shortcut ->
  Py.truthy shortcut = false ->
  Py.getitem package "version" = Ok version ->
  record_in E (fs w1) = Return record ->
  (forall r, record <> JObj r) ->
  exists e w',
    install_package E (S d) (JStr name) skip w = (w', Exit 1%Z)
    /\ w' = add_stdout (install_error E e)
              (add_tick (add_stdout (installed_text name) w1))
    /\ Py.setitem record name (record_entry version (isoformat_now E (ticks w1)))
       = Err e
    /\ fs w' = fs w1.
Proof.
  intros Hstar Hdl Hfile Hdigest Hdir Hshortcut Hno Hversion Hrec Hobj.
  assert (Hset : exists e,
    Py.setitem record name (record_entry version (isoformat_now E (ticks w1)))
    = Err e /\ is_FileNotFoundError e = false).
  { destruct record; try (eexists; split; reflexivity).
    by destruct (Hobj members). }
  destruct Hset as (e & Hset & Hclass).
  exists e. eexists. split; [|split; [reflexivity|split; [exact Hset|reflexivity]]].
  rewrite (install_after_download E _ _ _ _ _ _ _ (not_wildcard _ Hstar) Hdl).
  unfold try_except, finish_install.
  erewrite bind_return; [|by apply validate_checksum_eq].
  rewrite Hdigest. cbn [negb]. unfold bind at 1, ret at 1.
  unfold bind at 1, Os.path_exists, gets.
  destruct (Os.node_at (fs w1) (install_path a)) as [n|]; [|done].
  unfold bind at 1, Os.print at 1, modify. rewrite Hshortcut.
  unfold bind at 1. cbn [lift ret]. rewrite Hno.
  unfold bind at 1. cbn [ret]. unfold bind at 1.
  rewrite read_record_eq. cbn [fs add_stdout]. rewrite Hrec.
  rewrite Hversion. unfold bind at 1. cbn [lift ret].
  unfold bind at 1, Os.now_isoformat. cbn [ticks add_stdout].
  unfold bind at 1. cbn [Py.as_str lift ret]. unfold bind at 1.
  unfold record_entry in Hset. rewrite Hset. cbn [lift raise].
  rewrite install_failed_eq. reflexivity.
Qed.

(** Property X16.  When the first descriptor of the catalog is itself named
    "*", installing the wildcard recurses until the recursion limit is met:
    whatever that limit, the call prints the error for [RecursionError] and
    exits with status 1, nothing else having changed. *)
Theorem install_wildcard_entry_named_wildcard d skip w packages item rest :
  load_packages E w = (w, Return packages) ->
  Py.iter packages = Ok (item :: rest) ->
  Py.getitem item "name" = Ok (JStr "*") ->
  install_package E (S d) (JStr "*") skip w
  = (add_stdout (install_error E RecursionError) w, Exit 1%Z).
Proof.
  intros Hload Hiter Hname. induction d as [|d IH].
  - rewrite install_package_wildcard. unfold try_except.
    erewrite bind_return; [|exact Hload].
    rewrite Hiter. unfold bind at 1. cbn [lift ret for_each].
    unfold bind at 1. rewrite Hname. unfold bind at 1. cbn [lift ret].
    cbn [install_package raise]. apply install_failed_eq.
  - rewrite install_package_wildcard. unfold try_except.
    erewrite bind_return; [|exact Hload].
    rewrite Hiter. unfold bind at 1. cbn [lift ret for_each].
    unfold bind at 1. rewrite Hname. unfold bind at 1. cbn [lift ret].
    by rewrite IH.
Qed.

(** Property X17.  A catalog that is a mapping without a [packages] entry is
    an empty catalog: installing the wildcard returns without doing
    anything, installing any name fails as not found, and [list_packages]
    prints the header only. *)
Theorem catalog_without_packages d skip w f entries :
  Os.node_at (fs w) (get_package_file_path E) = Some (File f) ->
  json_load E f = Ok (JObj entries) ->
  Py.dict_get "packages" entries = None ->
  install_package E (S d) (JStr "*") skip w = (w, Return tt)
  /\ (forall name,
        name <> "*" ->
        install_package E (S d) (JStr name) skip w
        = (add_stdout
             (error_text ("Package '" +:+ name
                          +:+ "' not found in the package list.")) w,
           Exit 1%Z))
  /\ list_packages E w = (add_stdout listing_header w, Return tt).
Proof.
  intros Hf Hdata Hnone.
  assert (Hload : load_packages E w = (w, Return (JArr []))).
  { unfold load_packages.
    erewrite bind_return; [|by eapply ensure_packages_file_present].
    unfold bind at 1, Os.open_read. rewrite Hf. unfold bind at 1.
    rewrite Hdata. cbn [lift ret Py.get]. by rewrite Hnone. }
  split; [|split].
  - rewrite install_package_wildcard. unfold try_except.
    erewrite bind_return; [|exact Hload]. reflexivity.
  - intros name Hstar.
    by apply (install_not_found E d name skip w w (JArr []) []).
  - rewrite (list_packages_described E w f (JObj entries) (JArr []) [] []);
      try done.
    cbn [Py.get]. by rewrite Hnone.
Qed.

(** Property X22.  Under POSIX paths and with the catalog cached,
    installing a package leaves the installation directory of any other
    package, with all that lies below it, and the catalog file as they
    were, however the installation ends.  Both names are ordinary path
    components, they differ by more than letter case, and the other one
    is not, in any letter case, the name of the record file. *)
Theorem install_leaves_other_packages d name other skip w w' r :
  is_windows E = false ->
  name <> "*" ->
  plain_name name = true ->
  plain_name other = true ->
  PyStr.lower other <> PyStr.lower name ->
  PyStr.lower other <> "record.json" ->
  is_Some (fs w !! get_package_file_path E) ->
  install_package E (S d) (JStr name) skip w = (w', r) ->
  (forall q, get_installation_path E other `prefix_of` q ->
             fs w' !! q = fs w !! q)
  /\ fs w' !! get_package_file_path E = fs w !! get_package_file_path E.
Proof.
  intros _ Hstar Hname Hother Hlow Hlrec Hcat Hrun.
  assert (Hne : other <> name) by (by intros ->).
  assert (Hrec : other <> "record.json") by (by intros ->).
  split.
  - intros q Hq. eapply install_named_keeps; eauto.
    by eapply apart_other_installation.
  - eapply install_named_keeps; eauto. by apply apart_catalog.
Qed.
(** Property X23.  The installation directory of the name "toolbox" is the
    directory of the catalog file, so an uninstallation of "toolbox" that
    goes through removes the catalog file. *)
Theorem uninstall_toolbox_removes_catalog w w' :
  uninstall_package E "toolbox" true w = (w', Return tt) ->
  get_installation_path E "toolbox" = PyPath.parent (get_package_file_path E)
  /\ fs w' !! get_package_file_path E = None.
Proof.
  intros H.
  assert (Hp : get_installation_path E "toolbox"
               = PyPath.parent (get_package_file_path E)).
  { rewrite installation_path_plain by done. rewrite package_file_path_eq.
    unfold PyPath.parent.
    change (vendor_dir E ++ ["toolbox"; "packages.json"])
      with (vendor_dir E ++ ["toolbox"] ++ ["packages.json"]).
    by rewrite app_assoc, removelast_last. }
  split; [exact Hp|].
  assert (Hbelow : get_installation_path E "toolbox"
                   `prefix_of` get_package_file_path E).
  { rewrite Hp. apply prefix_parent. }
  unfold uninstall_package in H. cbv zeta in H. cbn [negb] in H.
  apply try_return_inv in H as [H|(w1 & e & _ & H)];
    [|by apply handle_error_no_return in H].
  apply bind_return_inv in H as (w1 & present & Hex & H).
  injection Hex as <- <-.
  apply bind_return_inv in H as (w1 & [] & Hpresent & H).
  assert (w1 = w) as ->.
  { destruct (Os.node_at (fs w) _); [by injection Hpresent|].
    by apply handle_error_no_return in Hpresent. }
  unfold remove_installed in H. cbv zeta in H.
  apply bind_return_inv in H as (w1 & [] & Hrm & H).
  apply rmtree_return in Hrm as [-> _].
  apply bind_return_inv in H as (w2 & [] & Hprint & H).
  injection Hprint as <-.
  apply bind_return_inv in H as (w3 & record & Hread & H).
  rewrite read_record_eq in Hread.
  assert (w3 = add_stdout (uninstall_done "toolbox")
                 (set_fs (without (get_installation_path E "toolbox")) w))
    as -> by (by injection Hread).
  apply bind_return_inv in H as (w4 & listed & Hin & H).
  apply lift_return in Hin as [-> _].
  assert (Hgone : forall w5,
            fs w5 !! get_package_file_path E
            = fs (set_fs (without (get_installation_path E "toolbox")) w)
                !! get_package_file_path E ->
            fs w5 !! get_package_file_path E = None).
  { intros w5 ->. cbn. by apply without_below. }
  destruct listed.
  - apply bind_return_inv in H as (w5 & record' & Hdel & H).
    apply lift_return in Hdel as [-> _].
    apply Hgone.
    by rewrite (write_record_lookup E _ _ _ H)
      by apply catalog_not_prefix_of_record.
  - injection H as <-. by apply Hgone.
Qed.
End MoreInstall.

(** ** What no command does *)

Lemma advances_refl w : advances w w.
Proof. by repeat split. Qed.

Lemma advances_trans w1 w2 w3 :
  advances w1 w2 -> advances w2 w3 -> advances w1 w3.
Proof.
  intros (Hi & Ho & Hu & Ht & Hl) (Hi' & Ho' & Hu' & Ht' & Hl').
  repeat split; try (by etrans); lia.
Qed.

Lemma advances_add_stdout s w : advances w (add_stdout s w).
Proof. repeat split; try done. by apply prefix_app_r. Qed.

Lemma advances_set_fs f w : advances w (set_fs f w).
Proof. by repeat split. Qed.

Section Orderly.
Context {A B : Type}.

Lemma orderly_ret (a : A) : orderly (ret a).
Proof. intros w w' r [= <- <-]. split; [apply advances_refl|done]. Qed.

Lemma orderly_raise (e : exn) : orderly (raise (A := A) e).
Proof. intros w w' r [= <- <-]. split; [apply advances_refl|done]. Qed.

Lemma orderly_lift (x : result A) : orderly (lift x).
Proof. destruct x; [apply orderly_ret | apply orderly_raise]. Qed.

Lemma orderly_gets (f : World -> A) : orderly (gets f).
Proof. intros w w' r [= <- <-]. split; [apply advances_refl|done]. Qed.

Lemma orderly_bind (m : M A) (k : A -> M B) :
  orderly m -> (forall a, orderly (k a)) -> orderly (bind m k).
Proof.
  intros Hm Hk w w' r H. unfold bind in H.
  destruct (m w) as [w1 [a|e|c]] eqn:Hmw;
    destruct (Hm _ _ _ Hmw) as [Hadv Hexit].
  - destruct (Hk _ _ _ _ H) as [Hadv' Hexit'].
    split; [by eapply advances_trans|done].
  - injection H as <- <-. by split.
  - injection H as <- <-. split; [done|]. intros c' [= <-]. by apply Hexit.
Qed.

Lemma orderly_try (m : M A) (h : exn -> M A) :
  orderly m -> (forall e, orderly (h e)) -> orderly (try_except m h).
Proof.
  intros Hm Hh w w' r H. unfold try_except in H.
  destruct (m w) as [w1 [a|e|c]] eqn:Hmw;
    destruct (Hm _ _ _ Hmw) as [Hadv Hexit].
  - injection H as <- <-. by split.
  - destruct (Hh _ _ _ _ H) as [Hadv' Hexit'].
    split; [by eapply advances_trans|done].
  - injection H as <- <-. split; [done|]. intros c' [= <-]. by apply Hexit.
Qed.
End Orderly.

Lemma orderly_for_each {A} (l : list A) (f : A -> M unit) :
  (forall x, orderly (f x)) -> orderly (for_each l f).
Proof.
  intros Hf. induction l as [|x l IH]; [apply orderly_ret|].
  cbn [for_each]. apply orderly_bind; [apply Hf|by intros _].
Qed.

Lemma orderly_modify (f : World -> World) :
  (forall w, advances w (f w)) -> orderly (modify f).
Proof. intros Hf w w' r [= <- <-]. by split. Qed.

Lemma orderly_print s : orderly (Os.print s).
Proof. apply orderly_modify. apply advances_add_stdout. Qed.

Lemma orderly_handle_error {A} s : orderly (handle_error (A := A) s).
Proof.
  intros w w' r [= <- <-]. split; [apply advances_add_stdout|].
  by intros c [= <-].
Qed.

Lemma orderly_input s : orderly (Os.input s).
Proof.
  intros w w' r H. unfold Os.input in H. cbn in H.
  destruct (stdin w) as [|line rest] eqn:Hin; injection H as <- <-;
    (split; [|done]); unfold advances; cbn; rewrite Hin;
    (split; [|split; [by apply prefix_app_r|done]]).
  - done.
  - by apply suffix_cons_r.
Qed.

Lemma orderly_path_exists p : orderly (Os.path_exists p).
Proof. apply orderly_gets. Qed.

Lemma orderly_glob_first p : orderly (Os.glob_first p).
Proof. apply orderly_gets. Qed.

Lemma orderly_open_read p : orderly (Os.open_read p).
Proof.
  intros w w' r H. unfold Os.open_read in H.
  destruct (Os.node_at (fs w) p) as [[f|]|]; injection H as <- <-;
    (split; [apply advances_refl|done]).
Qed.

Lemma orderly_mkdir_parents p : orderly (Os.mkdir_parents p).
Proof.
  intros w w' r H. unfold Os.mkdir_parents in H.
  destruct (Os.mkdir_from [] p (fs w)); injection H as <- <-;
    (split; [by repeat split|done]).
Qed.

Lemma orderly_write_file p data : orderly (Os.write_file p data).
Proof.
  intros w w' r H. unfold Os.write_file in H.
  destruct (Os.node_at (fs w) p) as [[f|]|];
    destruct (Os.node_at (fs w) (PyPath.parent p)) as [[g|]|];
    injection H as <- <-; (split; [by repeat split|done]).
Qed.

Lemma orderly_rmtree E p : orderly (Os.rmtree E p).
Proof.
  intros w w' r H. unfold Os.rmtree in H.
  destruct (Os.node_at (fs w) p) as [[f|]|];
    [| destruct (rmtree_fault E p) as [[e gone]|] |];
    injection H as <- <-; (split; [by repeat split|done]).
Qed.

Lemma orderly_urlretrieve E url p : orderly (Os.urlretrieve E url p).
Proof.
  unfold Os.urlretrieve. apply orderly_bind.
  - apply orderly_modify. intros w. repeat split; try done.
    by apply prefix_app_r.
  - intros _. destruct (remote E url).
    + apply orderly_write_file.
    + apply orderly_raise.
    + apply orderly_bind; [apply orderly_write_file|intros _; apply orderly_raise].
Qed.

Lemma orderly_now E : orderly (Os.now_isoformat E).
Proof.
  intros w w' r [= <- <-]. split; [|done]. repeat split; try done. cbn. lia.
Qed.

Lemma orderly_add_launcher l : orderly (modify (add_launcher l)).
Proof.
  apply orderly_modify. intros w. repeat split; try done.
  by apply prefix_app_r.
Qed.

Ltac orderly_step :=
  match goal with
  | |- orderly (bind _ _) => apply orderly_bind; [|intros ?]
  | |- orderly (try_except _ _) => apply orderly_try; [|intros ?]
  | |- orderly (for_each _ _) => apply orderly_for_each; intros ?
  | |- orderly (ret _) => apply orderly_ret
  | |- orderly (raise _) => apply orderly_raise
  | |- orderly (lift _) => apply orderly_lift
  | |- orderly (handle_error _) => apply orderly_handle_error
  | |- orderly (handle_warning _) => apply orderly_print
  | |- orderly (Os.print _) => apply orderly_print
  | |- orderly (Os.input _) => apply orderly_input
  | |- orderly (Os.path_exists _) => apply orderly_path_exists
  | |- orderly (Os.glob_first _) => apply orderly_glob_first
  | |- orderly (Os.open_read _) => apply orderly_open_read
  | |- orderly (Os.mkdir_parents _) => apply orderly_mkdir_parents
  | |- orderly (Os.write_file _ _) => apply orderly_write_file
  | |- orderly (Os.rmtree _ _) => apply orderly_rmtree
  | |- orderly (Os.urlretrieve _ _ _) => apply orderly_urlretrieve
  | |- orderly (Os.now_isoformat _) => apply orderly_now
  | |- orderly (modify (add_launcher _)) => apply orderly_add_launcher
  | |- orderly (if ?b then _ else _) => destruct b
  | |- orderly (match ?x with _ => _ end) => destruct x
  end.

Section OrderlyProgram.
Variable E : Env.

Lemma orderly_read_record : orderly (read_record E).
Proof. unfold read_record. cbv zeta. repeat orderly_step. Qed.

Lemma orderly_write_record record : orderly (write_record E record).
Proof. unfold write_record. cbv zeta. repeat orderly_step. Qed.

Lemma orderly_remove_installed name : orderly (remove_installed E name).
Proof.
  unfold remove_installed. cbv zeta.
  repeat first [apply orderly_read_record | apply orderly_write_record
               | orderly_step].
Qed.

Lemma orderly_uninstall_package name skip :
  orderly (uninstall_package E name skip).
Proof.
  unfold uninstall_package, uninstall_failed. cbv zeta.
  repeat first [apply orderly_remove_installed | orderly_step].
Qed.

Lemma orderly_ensure_packages_file : orderly (ensure_packages_file E).
Proof. unfold ensure_packages_file. cbv zeta. repeat orderly_step. Qed.

Lemma orderly_load_packages : orderly (load_packages E).
Proof.
  unfold load_packages.
  repeat first [apply orderly_ensure_packages_file | orderly_step].
Qed.

Lemma orderly_validate_checksum p expected :
  orderly (validate_checksum p expected).
Proof. unfold validate_checksum. cbv zeta. repeat orderly_step. Qed.

Lemma orderly_create_shortcut target name :
  orderly (create_shortcut E target name).
Proof. unfold create_shortcut. repeat orderly_step. Qed.

Lemma orderly_install_resolved pn package skip :
  orderly (install_resolved E pn package skip).
Proof.
  unfold install_resolved, check_platform, confirm_install, fetch_artifact,
    finish_install. cbv zeta.
  repeat first
    [ apply orderly_validate_checksum | apply orderly_create_shortcut
    | apply orderly_read_record | apply orderly_write_record
    | orderly_step ].
Qed.

Lemma orderly_install_failed e : orderly (install_failed E e).
Proof. unfold install_failed. repeat orderly_step. Qed.

Lemma orderly_install_package d pn skip :
  orderly (install_package E d pn skip).
Proof.
  revert pn. induction d as [|d IH]; intros pn; cbn [install_package].
  - apply orderly_raise.
  - unfold resolve_package. cbv zeta.
    repeat first
      [ apply IH | apply orderly_load_packages
      | apply orderly_install_resolved | apply orderly_install_failed
      | orderly_step ].
Qed.

Lemma orderly_update_packages : orderly (update_packages E).
Proof.
  unfold update_packages, urlretrieve_value. cbv zeta.
  repeat orderly_step.
Qed.

Lemma orderly_list_packages : orderly (list_packages E).
Proof.
  unfold list_packages, describe_package.
  repeat first [apply orderly_ensure_packages_file | orderly_step].
Qed.

(** Property X24.  Under each of the four commands the world only advances:
    input is consumed from the front, and what was printed, opened, read off
    the clock or put on the desktop stays.  And when a command exits, the
    status is 1. *)
Theorem commands_orderly d name skip :
  orderly (install_package E d name skip)
  /\ (forall n, orderly (uninstall_package E n skip))
  /\ orderly (update_packages E)
  /\ orderly (list_packages E).
Proof.
  split; [apply orderly_install_package|].
  split; [intros n; apply orderly_uninstall_package|].
  split; [apply orderly_update_packages|apply orderly_list_packages].
Qed.

Lemma orderly_run_line depth user_input : orderly (run_line E depth user_input).
Proof.
  unfold run_line. cbv zeta.
  repeat first
    [ apply orderly_install_package | apply orderly_uninstall_package
    | apply orderly_update_packages | apply orderly_list_packages
    | orderly_step ].
Qed.
End OrderlyProgram.

(** ** The command loop *)

Section Strings.

Lemma lstrip_head s c r : PyStr.lstrip s = String c r -> PyStr.is_space c = false.
Proof.
  induction s as [|a s IH]; [discriminate|]. cbn [PyStr.lstrip].
  destruct (PyStr.is_space a) eqn:Ha; [exact IH|]. by intros [= <- _].
Qed.

Lemma rstrip_head s c r :
  PyStr.rstrip s = String c r -> exists s', s = String c s'.
Proof.
  destruct s as [|a s]; [discriminate|]. cbn [PyStr.rstrip].
  destruct (PyStr.rstrip s); [destruct (PyStr.is_space a)|];
    intros [= <- _]; by eexists.
Qed.

Lemma strip_head s c r : PyStr.strip s = String c r -> PyStr.is_space c = false.
Proof.
  unfold PyStr.strip. intros H. apply rstrip_head in H as [s' H].
  by apply lstrip_head in H.
Qed.

Lemma split_ws_head c s : PyStr.is_space c = false -> PyStr.split_ws (String c s) <> [].
Proof.
  intros Hc. cbn [PyStr.split_ws]. rewrite Hc.
  destruct s as [|c' s']; [done|].
  destruct (PyStr.is_space c'); [done|]. by destruct (PyStr.split_ws _).
Qed.

(** [args[0]] is there: a stripped line that is not empty has a word. *)
Lemma split_ws_strip line :
  PyStr.strip line <> "" -> PyStr.split_ws (PyStr.strip line) <> [].
Proof.
  destruct (PyStr.strip line) as [|c r] eqn:Hs; [done|]. intros _.
  apply split_ws_head. by eapply strip_head.
Qed.

Lemma lower_ascii_space c : PyStr.is_space c = true -> PyStr.lower_ascii c = c.
Proof.
  destruct c as [[] [] [] [] [] [] [] []]; try discriminate; reflexivity.
Qed.

Lemma split_ws_word s :
  (forall c, PyStr.has_char c s = true -> PyStr.is_space c = false) ->
  s <> "" -> PyStr.split_ws s = [s].
Proof.
  induction s as [|a s IH]; [done|]. intros Hs _.
  assert (Ha : PyStr.is_space a = false).
  { apply Hs. cbn. by rewrite Ascii.eqb_refl. }
  cbn [PyStr.split_ws]. rewrite Ha. destruct s as [|b s]; [done|].
  assert (Hb : PyStr.is_space b = false).
  { apply Hs. cbn. rewrite Ascii.eqb_refl. by rewrite orb_true_r. }
  rewrite Hb. rewrite IH; [done| |done].
  intros c Hc. apply Hs. change (PyStr.has_char c (String a (String b s)))
    with (Ascii.eqb a c || PyStr.has_char c (String b s))%bool.
  rewrite Hc. apply orb_true_r.
Qed.

Lemma lower_exit_word s : PyStr.lower s = "exit" -> PyStr.split_ws s = [s].
Proof.
  intros H. apply split_ws_word; [|by intros ->].
  intros c Hc. destruct (PyStr.is_space c) eqn:Hsp; [|done]. exfalso.
  assert (Hin : PyStr.has_char c (PyStr.lower s) = true).
  { clear H. induction s as [|a s IH]; [done|]. cbn in Hc |- *.
    apply orb_true_iff in Hc as [Hc|Hc].
    - apply Ascii.eqb_eq in Hc as ->.
      by rewrite (lower_ascii_space _ Hsp), Ascii.eqb_refl.
    - rewrite (IH Hc). apply orb_true_r. }
  rewrite H in Hin. cbn [PyStr.has_char] in Hin.
  repeat (apply orb_true_iff in Hin as [Hin|Hin];
          [apply Ascii.eqb_eq in Hin as <-; by vm_compute in Hsp|]).
  discriminate.
Qed.
End Strings.

Section Main.
Variable E : Env.

Let unexpected (e : exn) : M flow :=
  handle_error ("An unexpected error occurred: " +:+ str_exn E e).

Lemma iteration_line depth w line rest :
  stdin w = line :: rest ->
  iteration E depth w
  = try_except (run_line E depth (PyStr.strip line)) unexpected
      (prompted rest w).
Proof.
  intros Hin. unfold iteration, try_except. unfold bind at 1, Os.input.
  cbn [stdin add_stdout]. by rewrite Hin.
Qed.

Lemma iteration_eof depth w :
  stdin w = [] ->
  iteration E depth w
  = (add_stdout
       (error_text ("An unexpected error occurred: " +:+ str_exn E EOFError))
       (add_stdout prompt w),
     Exit 1%Z).
Proof.
  intros Hin. unfold iteration, try_except. unfold bind at 1, Os.input.
  cbn [stdin add_stdout]. by rewrite Hin.
Qed.

Lemma orderly_iteration depth : orderly (iteration E depth).
Proof.
  unfold iteration.
  repeat first [apply orderly_run_line | orderly_step].
Qed.

Lemma iteration_no_raise depth w w' e : iteration E depth w <> (w', Raise e).
Proof.
  unfold iteration, try_except.
  destruct (bind _ _ w) as [w1 [a|e1|c]]; try done.
Qed.

Lemma run_line_stop depth u w w' :
  run_line E depth u w = (w', Return Stop) ->
  String.eqb (PyStr.lower u) "exit" = true.
Proof.
  unfold run_line. destruct (String.eqb u ""); [by intros [= _ ?]|].
  destruct (String.eqb (PyStr.lower u) "exit"); [done|].
  cbv zeta. intros H. apply bind_return_inv in H as (w1 & [] & _ & H).
  by injection H.
Qed.

(** A turn that does not end the session has read a line. *)
Lemma iteration_return depth w w' f :
  iteration E depth w = (w', Return f) ->
  exists line rest,
    stdin w = line :: rest
    /\ stdin w' `suffix_of` rest
    /\ (f = Stop -> exit_line line = true).
Proof.
  intros H. destruct (stdin w) as [|line rest] eqn:Hin.
  - by rewrite iteration_eof in H.
  - exists line, rest. split; [done|].
    rewrite (iteration_line _ _ _ _ Hin) in H.
    apply try_return_inv in H as [H|(w1 & e & _ & H)]; [|done].
    split.
    + by destruct (orderly_run_line E depth _ _ _ _ H) as [(Hs & _) _].
    + intros ->. by apply run_line_stop in H.
Qed.

Lemma main_loop_ends fuel depth w :
  length (stdin w) < fuel ->
  exists w' r,
    main_loop E fuel depth w = Some (w', r)
    /\ advances w w'
    /\ (r = Return tt \/ r = Exit 1%Z)
    /\ (Forall (fun line => exit_line line = false) (stdin w) ->
        r = Exit 1%Z).
Proof.
  revert w. induction fuel as [|fuel IH]; intros w Hlen; [lia|].
  cbn [main_loop].
  destruct (iteration E depth w) as [w1 [f|e|c]] eqn:Hturn.
  - destruct (orderly_iteration depth _ _ _ Hturn) as [Hadv _].
    destruct (iteration_return _ _ _ _ Hturn)
      as (line & rest & Hin & Hsuffix & Hstop).
    destruct f.
    + destruct (IH w1) as (w' & r & Hrun & Hadv' & Hr & Hexit).
      { apply suffix_length in Hsuffix. rewrite Hin in Hlen. cbn in Hlen. lia. }
      exists w', r. split; [done|]. split; [by eapply advances_trans|].
      split; [done|]. intros Hall. apply Hexit.
      rewrite Hin in Hall. apply Forall_inv_tail in Hall.
      destruct Hsuffix as [pre ->]. by apply Forall_app in Hall as [_ Hall].
    + exists w1, (Return tt). split; [done|]. split; [done|].
      split; [by left|]. intros Hall. rewrite Hin in Hall.
      apply Forall_inv in Hall. by rewrite Hstop in Hall.
  - by destruct (iteration_no_raise depth w w1 e).
  - destruct (orderly_iteration depth _ _ _ Hturn) as [Hadv Hc].
    rewrite (Hc c eq_refl). exists w1, (Exit 1%Z).
    split; [done|]. split; [done|]. split; [by right|done].
Qed.

(** Property X25.  [main] ends on every finite input: given more turns than
    there are lines of input, it returns normally or exits with status 1,
    and no exception leaves it. *)
Theorem main_ends fuel depth w :
  length (stdin w) < fuel ->
  exists w' r,
    main E fuel depth w = Some (w', r)
    /\ (r = Return tt \/ r = Exit 1%Z)
    /\ advances w w'.
Proof.
  intros Hlen. unfold main.
  set (w0 := add_stdout _ (add_stdout _ w)).
  destruct (main_loop_ends fuel depth w0 Hlen) as (w' & r & Hrun & Hadv & Hr & _).
  exists w', r. split; [done|]. split; [done|].
  eapply advances_trans; [|exact Hadv].
  eapply advances_trans; apply advances_add_stdout.
Qed.

(** Property X26.  Unless some line of the input is an exit line, [main]
    ends with exit status 1, at the latest on the [EOFError] of its prompt.
    *)
Theorem main_without_exit_line fuel depth w :
  length (stdin w) < fuel ->
  Forall (fun line => exit_line line = false) (stdin w) ->
  exists w', main E fuel depth w = Some (w', Exit 1%Z).
Proof.
  intros Hlen Hall. unfold main.
  set (w0 := add_stdout _ (add_stdout _ w)).
  destruct (main_loop_ends fuel depth w0 Hlen) as (w' & r & Hrun & _ & _ & Hr).
  exists w'. by rewrite Hrun, (Hr Hall).
Qed.

Lemma run_line_unknown depth line w :
  PyStr.strip line <> "" ->
  exit_line line = false ->
  command_of line ∉ known_commands ->
  run_line E depth (PyStr.strip line) w
  = (add_stdout unknown_command_text w, Return Next).
Proof.
  intros Hne Hexit Hcmd. unfold run_line.
  apply String.eqb_neq in Hne. rewrite Hne.
  unfold exit_line in Hexit. rewrite Hexit. cbv zeta.
  fold (command_of line).
  unfold known_commands in Hcmd.
  repeat match goal with
  | |- context [String.eqb (command_of line) ?c] =>
      let Heq := fresh "Heq" in
      destruct (String.eqb (command_of line) c) eqn:Heq;
        [apply String.eqb_eq in Heq; exfalso; apply Hcmd; rewrite Heq;
         set_solver|]
  end.
  reflexivity.
Qed.

(** Property X27.  A blank line, and a line whose first word is none of the
    commands, which includes "exit" followed by more words, do not end the
    session: the loop goes on, after a warning in the second case. *)
Theorem main_loop_goes_on fuel depth w line rest :
  stdin w = line :: rest ->
  (PyStr.strip line = "" ->
   main_loop E (S fuel) depth w = main_loop E fuel depth (prompted rest w))
  /\ (PyStr.strip line <> "" ->
      exit_line line = false ->
      command_of line ∉ known_commands ->
      main_loop E (S fuel) depth w
      = main_loop E fuel depth
          (add_stdout unknown_command_text (prompted rest w))).
Proof.
  intros Hin. split.
  - intros Hblank. cbn [main_loop]. rewrite (iteration_line _ _ _ _ Hin).
    by rewrite Hblank.
  - intros Hne Hexit Hcmd. cbn [main_loop].
    rewrite (iteration_line _ _ _ _ Hin). unfold try_except.
    by rewrite run_line_unknown.
Qed.

(** Property X28.  A line that is "exit" up to letter case and surrounding
    white space ends the session normally with "Goodbye!", the lines after
    it unread.  The end of input at the prompt ends it with the "unexpected
    error" message and exit status 1. *)
Theorem main_loop_stops fuel depth w :
  (forall line rest,
      stdin w = line :: rest ->
      exit_line line = true ->
      main_loop E (S fuel) depth w
      = Some (add_stdout (Fore.GREEN +:+ "Goodbye!" +:+ Fore.RESET_ALL)
                (prompted rest w),
              Return tt))
  /\ (stdin w = [] ->
      main_loop E (S fuel) depth w
      = Some (add_stdout
                (error_text ("An unexpected error occurred: "
                             +:+ str_exn E EOFError))
                (add_stdout prompt w),
              Exit 1%Z)).
Proof.
  split.
  - intros line rest Hin Hexit. cbn [main_loop].
    rewrite (iteration_line _ _ _ _ Hin). unfold try_except, run_line.
    unfold exit_line in Hexit. rewrite Hexit.
    destruct (String.eqb (PyStr.strip line) "") eqn:Hblank; [|reflexivity].
    apply String.eqb_eq in Hblank. by rewrite Hblank in Hexit.
  - intros Hin. cbn [main_loop]. by rewrite iteration_eof.
Qed.

(** Property X29.  The word "install" or "uninstall" alone on a line, in any
    letter case, ends the session with the "You must specify the package
    name" error and exit status 1. *)
Theorem main_loop_missing_package_name fuel depth w line rest word :
  stdin w = line :: rest ->
  PyStr.split_ws (PyStr.strip line) = [word] ->
  (PyStr.lower word = "install" ->
   main_loop E (S fuel) depth w
   = Some (add_stdout
             (error_text "You must specify the package name to install.")
             (prompted rest w),
           Exit 1%Z))
  /\ (PyStr.lower word = "uninstall" ->
      main_loop E (S fuel) depth w
      = Some (add_stdout
                (error_text "You must specify the package name to uninstall.")
                (prompted rest w),
              Exit 1%Z)).
Proof.
  intros Hin Hargs.
  assert (Hne : String.eqb (PyStr.strip line) "" = false).
  { apply String.eqb_neq. intros Hs. by rewrite Hs in Hargs. }
  assert (Hexit : forall c, PyStr.lower word = c -> c <> "exit" ->
            String.eqb (PyStr.lower (PyStr.strip line)) "exit" = false).
  { intros c Hc Hce. apply String.eqb_neq. intros Hl.
    rewrite (lower_exit_word _ Hl) in Hargs. injection Hargs as Hw.
    congruence. }
  split; intros Hword; cbn [main_loop]; rewrite (iteration_line _ _ _ _ Hin);
    unfold try_except, run_line; rewrite Hne, (Hexit _ Hword) by done;
    cbv zeta; rewrite Hargs; cbn [hd]; rewrite Hword; reflexivity.
Qed.
End Main.

(** ** The theorems at work on the concrete environment *)

Import Demo.

(** Closes an equation between closed terms by evaluating both sides. *)
Ltac evaluate :=
  match goal with |- ?a = ?b => exact (@eq_refl _ b <: a = b) end.

(** Closes [r = (fst r, o)], for a closed run [r], by evaluating its
    outcome. *)
Ltac run :=
  match goal with
  | |- ?r = (_, ?o) => exact (run_eq r o (@eq_refl _ o <: snd r = o))
  end.



(** C6 *)
Lemma validate_checksum_spec_witness :
  let w := world installed_store [] in
  let data := foo_artifact in
  let expected := foo_digest in
  exists b : bool,
    validate_checksum (vendor ++ ["foo"; "foo.gz"]) (JStr expected) w
    = (w, Return b)
    /\ (b = true <-> Sha256.hexdigest data = expected)
    /\ PyStr.lower (Sha256.hexdigest data) = Sha256.hexdigest data
    /\ (PyStr.lower expected = Sha256.hexdigest data ->
        expected <> Sha256.hexdigest data -> b = false).
Proof.
  intros w data expected.
  apply (validate_checksum_spec (vendor ++ ["foo"; "foo.gz"]) data expected w).
  evaluate.
Defined.

(** C7 *)
Lemma record_upsert_roundtrip_witness :
  let w := world recorded_store [] in
  let r0 := [("bar", record_entry (JStr "0.9") "2024-04-30T09:00:00")] in
  let entry := record_entry (JStr "1.2.0") "2024-05-01T12:00:00" in
  let r1 := Py.dict_set "foo" entry r0 in
  let w1 := fst (write_record linux (JObj r1) w) in
  upsert_record linux "foo" (JStr "1.2.0") "2024-05-01T12:00:00" w
  = (w1, Return tt)
  /\ read_record linux w1 = (w1, Return (JObj r1))
  /\ Py.dict_get "foo" r1 = Some entry
  /\ forall k, k <> "foo" -> Py.dict_get k r1 = Py.dict_get k r0.
Proof.
  intros w r0 entry r1 w1.
  apply (record_upsert_roundtrip linux "foo" "1.2.0" "2024-05-01T12:00:00"
           w w1 r0); [evaluate|run|evaluate].
Defined.

(** C4: uninstalling the name [.] removes the directory that holds the
    record file, and a removal that fails part-way has removed the record
    file already. *)
Lemma removal_error_after_record_removed :
  let w := world recorded_store [] in
  let r := uninstall_package brittle "." true w in
  snd r = Exit 1%Z
  /\ List.last (stdout (fst r)) ""
     = error_text ("An error occurred while uninstalling '" +:+ "."
                   +:+ "': " +:+ "Permission denied" +:+ ". Please try again.")
  /\ fs w !! get_record_file_path brittle
     = Some (File (JsonText.dump_bytes (JObj [("bar", bar_entry)])))
  /\ fs (fst r) !! get_record_file_path brittle = None
  /\ record_in brittle (fs w) = Return (JObj [("bar", bar_entry)])
  /\ record_in brittle (fs (fst r)) = Return (JObj []).
Proof. intros w r. repeat split; evaluate. Qed.

(** C4 *)
Lemma uninstall_removal_error_witness :
  let w := world installed_store ["Y"] in
  let w0 := set_stdin [] (add_stdout (uninstall_prompt "foo") w) in
  let w1 := fst (Os.rmtree busy (get_installation_path busy "foo") w0) in
  uninstall_package busy "foo" false w
  = (add_stdout
       (error_text ("An error occurred while uninstalling '" +:+ "foo"
                    +:+ "': " +:+ str_exn busy (OSError "Device or resource busy")
                    +:+ ". Please try again."))
       w1,
     Exit 1%Z)
  /\ fs w1 !! get_record_file_path busy = fs w !! get_record_file_path busy
  /\ record_in busy (fs w1) = record_in busy (fs w).
Proof.
  intros w w0 w1.
  apply (uninstall_removal_error busy "foo" false w w0 w1 Dir
           (OSError "Device or resource busy")); [reflexivity|evaluate..|run].
Defined.

(** C5 *)
Lemma uninstall_not_installed_witness :
  let not_installed :=
    error_text ("Package '" +:+ "foo" +:+ "' is not installed.") in
  let w := world cached_store [] in
  let u := world unrecorded_store [] in
  let removed :=
    add_stdout
      (Fore.GREEN +:+ "'" +:+ "foo"
       +:+ "' has been successfully uninstalled." +:+ Fore.RESET_ALL)
      (set_fs (filter (fun kv =>
                 ~ get_installation_path linux "foo" `prefix_of` kv.1)) u) in
  (uninstall_package linux "foo" true w = (add_stdout not_installed w, Exit 1%Z)
   /\ uninstall_package linux "foo" false (add_stdout not_installed w)
      = (add_stdout not_installed (add_stdout not_installed w), Exit 1%Z))
  /\ uninstall_package linux "foo" true u = (removed, Return tt)
  /\ uninstall_package linux "foo" true removed
     = (add_stdout not_installed removed, Exit 1%Z).
Proof.
  intros not_installed w u removed.
  destruct (uninstall_not_installed linux "foo") as [Habsent Hpresent].
  split.
  - apply (Habsent true false w). evaluate.
  - destruct (Hpresent true u u Dir (JObj [])) as [Hrun Hagain];
      [evaluate..|].
    split; [exact Hrun|]. apply Hagain. discriminate.
Defined.

(** C1: a catalog name that is the path of the record file less its
    extension, with a URL that ends in [.json]: the download is written
    over the record file before its digest is found wrong.  And a package
    named as the record file is, when there is no record file: the
    installation directory is made in its place. *)
Lemma integrity_failure_after_record_overwritten :
  (let w := world odd_store [] in
   let r := install_package odd 2 (JStr usurper_name) true w in
   snd r = Exit 1%Z
   /\ List.last (stdout (fst r)) ""
      = error_text ("Checksum mismatch for " +:+ usurper_name
                    +:+ ". Installation aborted.")
   /\ record_in odd (fs w) = Return (JObj [("bar", bar_entry)])
   /\ record_in odd (fs (fst r)) = Return (JObj [("ghost", ghost_entry)]))
  /\ (let w := world odd_unrecorded_store [] in
      let r := install_package odd 2 (JStr "record.json") true w in
      snd r = Exit 1%Z
      /\ List.last (stdout (fst r)) ""
         = error_text ("Checksum mismatch for " +:+ "record.json"
                       +:+ ". Installation aborted.")
      /\ fs w !! get_record_file_path odd = None
      /\ fs (fst r) !! get_record_file_path odd = Some Dir
      /\ record_in odd (fs w) = Return (JObj [])
      /\ record_in odd (fs (fst r))
         = Raise (IsADirectoryError (get_record_file_path odd))).
Proof. split; intros w r; repeat split; evaluate. Qed.

(** C1 *)
Lemma install_integrity_failure_witness :
  let w := world cached_store [] in
  let w1 := fst (download_phase linux (JStr "bar") true w) in
  exists w',
    install_package linux 2 (JStr "bar") true w = (w', Exit 1%Z)
    /\ w' = add_stdout
              (error_text ("Checksum mismatch for " +:+ "bar"
                           +:+ ". Installation aborted.")) w1
    /\ fs w' !! get_record_file_path linux = fs w !! get_record_file_path linux
    /\ record_in linux (fs w') = record_in linux (fs w)
    /\ Os.node_at (fs w') (download_path bar_files) = Some (File bar_artifact).
Proof.
  intros w w1.
  apply (install_integrity_failure linux 1 "bar" true w w1 bar bar_files
           bar_artifact);
    [reflexivity|discriminate|evaluate|discriminate|run|evaluate..].
Defined.

(** C2: with no catalog file in place, the catalog is fetched before the
    platform is found unsupported. *)
Lemma unsupported_platform_after_catalog_fetch :
  let w := world fresh_store [] in
  let r := install_package linux 2 (JStr "win") true w in
  snd r = Exit 1%Z
  /\ List.last (stdout (fst r)) ""
     = error_text ("'" +:+ "win" +:+ "' is not available for your platform ("
                   +:+ "Linux" +:+ ").")
  /\ opened_urls w = []
  /\ opened_urls (fst r) = [catalog_url].
Proof. intros w r. repeat split; evaluate. Qed.

(** C2 *)
Lemma install_unsupported_platform_witness :
  let w := world cached_store [] in
  install_package linux 2 (JStr "win") true w
  = (add_stdout
       (error_text ("'" +:+ "win" +:+ "' is not available for your platform ("
                    +:+ platform_system linux +:+ ").")) w,
     Exit 1%Z)
  /\ (Os.node_at (fs w) (get_package_file_path linux) <> None -> w = w)
  /\ (Os.node_at (fs w) (get_package_file_path linux) = None ->
      opened_urls w = opened_urls w ++ [catalog_url]).
Proof.
  intros w.
  apply (install_unsupported_platform linux 1 "win" true w w
           (JArr [foo; bar; win]) [foo; bar; win] win (JArr [JStr "Windows"]));
    try evaluate; discriminate.
Defined.

(** C3: an answer that is neither [y] nor [Y], and yet a yes. *)
Lemma padded_yes_installs :
  let w := world cached_store [" y"] in
  let r := install_package linux 2 (JStr "foo") false w in
  " y" <> "y" /\ " y" <> "Y"
  /\ snd r = Return tt
  /\ fs w !! (vendor ++ ["foo"]) = None
  /\ fs (fst r) !! (vendor ++ ["foo"]) = Some Dir
  /\ fs (fst r) !! (vendor ++ ["foo"; "foo.gz"]) = Some (File foo_artifact)
  /\ record_in linux (fs w) = Return (JObj [])
  /\ record_in linux (fs (fst r))
     = Return (JObj [("foo", record_entry (JStr "1.2.0") "2024-05-01T12:00:00")]).
Proof.
  intros w r. split; [discriminate|]. split; [discriminate|].
  repeat split; evaluate.
Qed.

(** C3 *)
Lemma install_cancelled_witness :
  let w := world cached_store ["n"] in
  install_package linux 2 (JStr "foo") false w
  = (add_stdout
       (Fore.WHITE +:+ "Installation of '" +:+ "foo" +:+ "' cancelled."
        +:+ Fore.RESET_ALL)
       (set_stdin [] (add_stdout (install_prompt "foo") w)),
     Return tt)
  /\ (Os.node_at (fs w) (get_package_file_path linux) <> None -> w = w)
  /\ (Os.node_at (fs w) (get_package_file_path linux) = None ->
      opened_urls w = opened_urls w ++ [catalog_url])
  /\ fs w !! get_record_file_path linux = fs w !! get_record_file_path linux.
Proof.
  intros w.
  apply (install_cancelled linux 1 "foo" w w (JArr [foo; bar; win])
           [foo; bar; win] foo (JArr [JStr "Linux"; JStr "Darwin"]) "n" []);
    try evaluate; discriminate.
Defined.

(** C10: for a name that is an absolute path the artifact is saved beside
    the installation directory, not inside it; and for a URL with a slash
    after its last dot the path has further components, below directories
    that are not there, and nothing is saved. *)
Lemma artifact_beside_installation_directory :
  (let w := world odd_store [] in
   let r := install_package odd 2 (JStr "/opt/x") true w in
   snd r = Return tt
   /\ get_installation_path odd "/opt/x" = ["opt"; "x"]
   /\ fs (fst r) !! ["opt"; "x"] = Some Dir
   /\ fs (fst r) !! ["opt"; "x.gz"] = Some (File foo_artifact)
   /\ fs (fst r) !! ["opt"; "x"; "x.gz"] = None
   /\ fs (fst r) !! ["opt"; "x"; "/opt/x.gz"] = None)
  /\ (let w := world depot_store [] in
      let r := install_package depot 2 (JStr "tool") true w in
      let target :=
        get_installation_path depot "tool"
        /. ("tool" +:+ "." +:+ url_extension "https://example.org/dl/tool") in
      snd r = Exit 1%Z
      /\ target = vendor ++ ["tool"; "tool.org"; "dl"; "tool"]
      /\ fs (fst r) !! target = None
      /\ fs (fst r) !! (vendor ++ ["tool"; "tool.org/dl/tool"]) = None).
Proof. split; intros w r; repeat split; evaluate. Qed.

(** C10 *)
Lemma artifact_file_name_witness :
  let w := world cached_store [] in
  let w1 := fst (fetch_artifact linux (JStr "foo") foo "Linux" w) in
  let a := foo_files "foo" in
  exists urls url body,
    Py.getitem foo "url" = Ok urls
    /\ Py.getitem urls "Linux" = Ok (JStr url)
    /\ remote linux url = Served body
    /\ install_path a = get_installation_path linux "foo"
    /\ download_path a
       = get_installation_path linux "foo"
         /. ("foo" +:+ "." +:+ url_extension url)
    /\ Os.node_at (fs w1) (download_path a) = Some (File body)
    /\ (plain_name "foo" = true ->
        get_installation_path linux "foo" `prefix_of` download_path a)
    /\ (plain_name "foo" = true ->
        PyStr.has_char "/" (url_extension url) = false ->
        download_path a
        = get_installation_path linux "foo"
          ++ ["foo" +:+ "." +:+ url_extension url])
    /\ (PyStr.has_char "." url = false -> url_extension url = url)
    /\ (forall pre, url = pre +:+ "." -> url_extension url = "")
    /\ (forall pre ext,
          url = pre +:+ "." +:+ ext -> PyStr.has_char "." ext = false ->
          url_extension url = ext).
Proof.
  intros w w1 a.
  apply (artifact_file_name linux "foo" foo "Linux" w w1 a);
    [reflexivity|run].
Defined.





(** ** The other commands on the concrete environment *)

(** X1 *)
Lemma update_from_catalog_url_witness :
  let w := world depot_store [] in
  let u := "https://example.org/packages.json" in
  update_packages depot w
  = (add_stdout update_done
       (set_fs (insert (get_package_file_path depot)
                  (File (JsonText.dump_bytes depot_catalog)))
          (add_opened_url u (add_stdout (update_announcement u) w))),
     Return tt).
Proof.
  intros w u.
  apply (update_from_catalog_url depot w (JsonText.dump_bytes depot_catalog)
           [("updateurl", JStr u); ("packages", JArr [baz; tool; half])]
           u (JsonText.dump_bytes depot_catalog)); evaluate.
Defined.

(** X2 *)
Lemma update_default_url_witness :
  let w := world garbled_store [] in
  let p := get_package_file_path linux in
  let w0 := add_opened_url catalog_url
              (add_stdout (update_announcement catalog_url)
                 (add_stdout update_notice w)) in
  update_packages linux w
  = (add_stdout update_done
       (set_fs (insert p (File (JsonText.dump_bytes catalog))) w0),
     Return tt)
  /\ update_packages offline w
     = (add_stdout
          (error_text ("Failed to update package list: "
                       +:+ str_exn offline (OSError "Network is unreachable")))
          w0,
        Exit 1%Z).
Proof.
  intros w p w0.
  split.
  - destruct (update_default_url linux w) as [Hserved _].
    { right. exists (bytes "{not json"). split; evaluate. }
    apply (Hserved (JsonText.dump_bytes catalog)); evaluate.
  - destruct (update_default_url offline w) as [_ Hrefused].
    { right. exists (bytes "{not json"). split; evaluate. }
    apply (Hrefused (OSError "Network is unreachable")). evaluate.
Defined.

(** X3 *)
Lemma update_without_directory_witness :
  let w := world fresh_store [] in
  exists e w',
    update_packages linux w = (w', Exit 1%Z)
    /\ w' = add_stdout
              (error_text ("Failed to update package list: "
                           +:+ str_exn linux e))
              (add_opened_url catalog_url
                 (add_stdout (update_announcement catalog_url)
                    (add_stdout update_notice w)))
    /\ fs w' = fs w
    /\ (forall e', remote linux catalog_url = Refused e' -> e = e')
    /\ ((forall e', remote linux catalog_url <> Refused e') ->
        e = FileNotFoundError (get_package_file_path linux)).
Proof.
  intros w. apply (update_without_directory linux w); evaluate.
Defined.

(** X4 *)
Lemma update_catalog_not_a_mapping_witness :
  let w := world array_store [] in
  update_packages linux w = (w, Raise (AttributeError "get")).
Proof.
  intros w.
  apply (update_catalog_not_a_mapping linux w (bytes "[]") (JArr []));
    [evaluate..|discriminate].
Defined.

Lemma run_pair {A} (r : World * outcome A) : r = (fst r, snd r).
Proof. by destruct r. Qed.

(** Closes [r = (fst r, snd r)]. *)
Ltac paired := match goal with |- ?r = _ => exact (run_pair r) end.

Lemma described_descriptor name version os url digest shortcut :
  described linux (descriptor name version os url digest shortcut)
    (summary_of name version os shortcut).
Proof. by exists (JStr name), (JStr version), (JStr "a tool"), os,
         (JBool false), (JBool shortcut). Qed.

(** X5 *)
Lemma list_packages_read_only_witness :
  let w := world cached_store ["y"] in
  let w' := fst (list_packages linux w) in
  fs w' = fs w /\ stdin w' = stdin w /\ opened_urls w' = opened_urls w
  /\ ticks w' = ticks w /\ launchers w' = launchers w
  /\ stdout w `prefix_of` stdout w'.
Proof.
  intros w w'.
  apply (list_packages_read_only linux w w' (snd (list_packages linux w))
           (File (JsonText.dump_bytes catalog))); [evaluate|paired].
Defined.

(** X6 *)
Lemma list_packages_output_witness :
  let w := world cached_store [] in
  let liness := [summary_of "foo" "1.2.0" ["Linux"; "Darwin"] true;
                 summary_of "bar" "0.9" ["Linux"] false;
                 summary_of "win" "3.1" ["Windows"] false] in
  list_packages linux w
  = (add_lines (listing_header :: List.concat liness) w, Return tt)
  /\ length (listing_header :: List.concat liness)
     = 1 + 7 * length [foo; bar; win].
Proof.
  intros w liness.
  apply (list_packages_output linux w (JsonText.dump_bytes catalog) catalog
           (JArr [foo; bar; win]) [foo; bar; win] liness);
    [evaluate..|].
  repeat constructor; apply described_descriptor.
Defined.

(** X7 *)
Lemma list_packages_corrupt_catalog_witness :
  let w := world garbled_store [] in
  list_packages linux w
  = (add_stdout
       (error_text "Failed to read package list (corrupted or invalid JSON).")
       w,
     Exit 1%Z).
Proof.
  intros w.
  apply (list_packages_corrupt_catalog linux w (bytes "{not json")); evaluate.
Defined.

(** X8 *)
Lemma list_packages_incomplete_descriptor_witness :
  let w := world depot_store [] in
  let liness := [summary_of "baz" "2.0" ["Linux"] false;
                 summary_of "tool" "0.1" ["Linux"] false] in
  list_packages linux w
  = (add_lines
       (listing_header :: List.concat liness
        ++ [Fore.CYAN +:+ "Name: " +:+ py_str linux (JStr "half")
            +:+ Fore.RESET_ALL]) w,
     Raise (KeyError "version"))
  /\ (exists detail,
        KeyError "version" = KeyError detail
        \/ KeyError "version" = TypeError detail).
Proof.
  intros w liness.
  apply (list_packages_incomplete_descriptor linux w
           (JsonText.dump_bytes depot_catalog) depot_catalog
           (JArr [baz; tool; half]) [baz; tool] half []);
    [evaluate..| |evaluate|evaluate].
  repeat constructor; apply described_descriptor.
Defined.

(** X9 *)
Lemma uninstall_removes_tree_and_entry_witness :
  let w := world foo_store [] in
  let p := get_installation_path linux "foo" in
  let w2 := add_stdout (uninstall_done "foo") (set_fs (without p) w) in
  let r := [("foo", foo_entry); ("bar", bar_entry)] in
  let r' := Py.dict_del "foo" r in
  let w3 := fst (write_record linux (JObj r') w2) in
  uninstall_package linux "foo" true w = (w3, Return tt)
  /\ (forall q, p `prefix_of` q -> fs w3 !! q = None)
  /\ (forall q, ~ p `prefix_of` q ->
                ~ q `prefix_of` get_record_file_path linux ->
                fs w3 !! q = fs w !! q)
  /\ record_in linux (fs w3) = Return (JObj r')
  /\ Py.dict_get "foo" r' = None
  /\ (forall k, k <> "foo" -> Py.dict_get k r' = Py.dict_get k r).
Proof.
  intros w p w2 r r' w3.
  apply (uninstall_removes_tree_and_entry linux "foo" true w w w3 r);
    [evaluate|evaluate|evaluate|evaluate|evaluate|run|evaluate].
Defined.

(** X10 *)
Lemma uninstall_cancelled_witness :
  let w := world foo_store ["no"; "list"] in
  let v := world foo_store [] in
  uninstall_package linux "foo" false w
  = (add_stdout
       (Fore.WHITE +:+ "Uninstallation of '" +:+ "foo" +:+ "' cancelled."
        +:+ Fore.RESET_ALL)
       (set_stdin ["list"] (add_stdout (uninstall_prompt "foo") w)),
     Return tt)
  /\ uninstall_package linux "foo" false v
     = (add_stdout
          (error_text ("An error occurred while uninstalling '" +:+ "foo"
                       +:+ "': " +:+ str_exn linux EOFError
                       +:+ ". Please try again."))
          (add_stdout (uninstall_prompt "foo") v),
        Exit 1%Z).
Proof.
  intros w v. split.
  - destruct (uninstall_cancelled linux "foo" w Dir) as [Hcancel _];
      [evaluate|].
    apply (Hcancel "no" ["list"]); evaluate.
  - destruct (uninstall_cancelled linux "foo" v Dir) as [_ Heof]; [evaluate|].
    apply Heof. evaluate.
Defined.

(** X11 *)
Lemma uninstall_dot_removes_everything_witness :
  let w := world foo_store [] in
  let w' := add_stdout (uninstall_done ".")
              (set_fs (without (vendor_dir linux)) w) in
  get_installation_path linux "." = vendor_dir linux
  /\ uninstall_package linux "." true w = (w', Return tt)
  /\ (forall q, vendor_dir linux `prefix_of` q -> fs w' !! q = None)
  /\ fs w' !! get_record_file_path linux = None
  /\ fs w' !! get_package_file_path linux = None
  /\ (forall name, plain_name name = true ->
                   fs w' !! get_installation_path linux name = None).
Proof.
  intros w w'. apply (uninstall_dot_removes_everything linux w); evaluate.
Defined.

(** X12 *)
Lemma uninstall_absolute_name_witness :
  let name := "/Users/ada/Documents" in
  let w := world documents_store [] in
  let p := PyPath.parts name in
  let w' := add_stdout (uninstall_done name) (set_fs (without p) w) in
  get_installation_path linux name = p
  /\ uninstall_package linux name true w = (w', Return tt)
  /\ (forall q, p `prefix_of` q -> fs w' !! q = None).
Proof.
  intros name w p w'.
  apply (uninstall_absolute_name linux name w (JObj [])); evaluate.
Defined.

Lemma named_otherwise_descriptor name n version os url digest shortcut :
  PyStr.lower n <> PyStr.lower name ->
  named_otherwise name (descriptor n version os url digest shortcut).
Proof. intros H. by exists n. Qed.

(** X13 *)
Lemma install_unknown_package_witness :
  let w := world cached_store [] in
  install_package linux 2 (JStr "nope") false w
  = (add_stdout
       (error_text ("Package '" +:+ "nope"
                    +:+ "' not found in the package list.")) w,
     Exit 1%Z).
Proof.
  intros w.
  apply (install_unknown_package linux 1 "nope" false w w
           (JArr [foo; bar; win]) [foo; bar; win]);
    [discriminate|evaluate|evaluate|].
  repeat constructor; apply named_otherwise_descriptor; discriminate.
Defined.

(** X14 *)
Lemma install_download_failure_witness :
  let w := world depot_store [] in
  let w1 := fst (download_phase linux (JStr "baz") true w) in
  let e := OSError "HTTP Error 404: Not Found" in
  install_package linux 2 (JStr "baz") true w
  = (add_stdout (install_error linux e) w1, Exit 1%Z)
  /\ fs w1 !! get_record_file_path linux = fs w !! get_record_file_path linux
  /\ record_in linux (fs w1) = record_in linux (fs w).
Proof.
  intros w w1 e.
  apply (install_download_failure linux 1 "baz" true w w1 e);
    [reflexivity|discriminate|evaluate|discriminate|run].
Defined.

(** X15 *)
Lemma install_nested_download_path_witness :
  let w := world depot_store [] in
  let url := "https://example.org/dl/tool" in
  let dir := get_installation_path depot "tool" in
  let w4 := fst (Os.mkdir_parents dir
                   (add_stdout (installing_text depot "tool" (JStr "0.1")) w)) in
  dir /. ("tool" +:+ "." +:+ url_extension url)
  = dir ++ ["tool.org"; "dl"; "tool"]
  /\ install_package depot 2 (JStr "tool") true w
     = (add_stdout
          (error_text ("Package list not found. Try updating the package "
                       +:+ "list using the 'update' command."))
          (add_opened_url url w4),
        Exit 1%Z).
Proof.
  intros w url dir w4. split; [evaluate|].
  apply (install_nested_download_path depot 1 "tool" true w w w w4 tool
           (JObj [("Linux", JStr url)]) url
           (JObj [("Linux", JStr foo_digest)]) (JStr foo_digest) (JStr "0.1"));
    [discriminate| |evaluate|evaluate|evaluate|evaluate|evaluate|run
    |evaluate|evaluate|].
  - exists (JArr [baz; tool; half]), [baz; tool; half], (JArr [JStr "Linux"]).
    repeat split; evaluate.
  - intros e0 H. vm_compute in H. discriminate.
Defined.

(** X16 *)
Lemma install_wildcard_entry_named_wildcard_witness :
  let w := world star_store [] in
  install_package linux 1000 (JStr "*") true w
  = (add_stdout (install_error linux RecursionError) w, Exit 1%Z).
Proof.
  intros w.
  apply (install_wildcard_entry_named_wildcard linux 999 true w
           (JArr [star; foo]) star [foo]); evaluate.
Defined.

(** X17 *)
Lemma catalog_without_packages_witness :
  let w := world bare_store [] in
  install_package linux 2 (JStr "*") true w = (w, Return tt)
  /\ (forall name,
        name <> "*" ->
        install_package linux 2 (JStr name) true w
        = (add_stdout
             (error_text ("Package '" +:+ name
                          +:+ "' not found in the package list.")) w,
           Exit 1%Z))
  /\ list_packages linux w = (add_stdout listing_header w, Return tt).
Proof.
  intros w.
  apply (catalog_without_packages linux 1 true w
           (JsonText.dump_bytes bare_catalog)
           [("updateurl", JStr "https://example.org/packages.json")]);
    evaluate.
Defined.

(** X18 *)
Lemma malformed_record_is_replaced_witness :
  let w := world (with_record (bytes "{") foo_store) [] in
  let w1 := fst (write_record linux (JObj [("baz", bar_entry)]) w) in
  read_record linux w = (w, Return (JObj []))
  /\ upsert_record linux "baz" (JStr "0.9") "2024-04-30T09:00:00" w
     = (w1, Return tt)
  /\ fs w1 !! get_record_file_path linux
     = Some (File (json_dump linux (JObj [("baz", bar_entry)]))).
Proof.
  intros w w1.
  apply (malformed_record_is_replaced linux "baz" (JStr "0.9")
           "2024-04-30T09:00:00" w w1 (bytes "{")); [evaluate|evaluate|run].
Defined.

(** X19 *)
Lemma install_record_not_a_mapping_witness :
  let w := world (with_record (bytes "[]") depot_store) [] in
  let w1 := fst (download_phase depot (JStr "baz") true w) in
  exists e w',
    install_package depot 2 (JStr "baz") true w = (w', Exit 1%Z)
    /\ w' = add_stdout (install_error depot e)
              (add_tick (add_stdout (installed_text "baz") w1))
    /\ Py.setitem (JArr []) "baz"
         (record_entry (JStr "2.0") (isoformat_now depot (ticks w1)))
       = Err e
    /\ fs w' = fs w1.
Proof.
  intros w w1.
  apply (install_record_not_a_mapping depot 1 "baz" true w w1 baz
           {| install_path := vendor ++ ["baz"];
              download_path := vendor ++ ["baz"; "baz.zip"];
              sha256 := JStr baz_digest |}
           baz_artifact (JBool false) (JStr "2.0") (JArr []));
    [discriminate|run|evaluate|evaluate| |evaluate|evaluate|evaluate|evaluate
    |discriminate].
  intros H. vm_compute in H. discriminate.
Defined.

(** X20 *)
Lemma ensure_packages_file_fetches_witness :
  let w := world fresh_store [] in
  let p := get_package_file_path linux in
  let w1 := fst (Os.mkdir_parents (PyPath.parent p)
                   (add_stdout (catalog_missing_text linux) w)) in
  let w2 := add_stdout (catalog_fetched_text linux)
              (set_fs (insert p (File (JsonText.dump_bytes catalog)))
                 (add_opened_url catalog_url w1)) in
  let w3 := add_stdout
              (error_text ("Failed to download package list: "
                           +:+ str_exn offline
                                 (OSError "Network is unreachable")))
              (add_opened_url catalog_url w1) in
  (ensure_packages_file linux w = (w2, Return tt)
   /\ Os.node_at (fs w2) p = Some (File (JsonText.dump_bytes catalog))
   /\ Os.node_at (fs w2) (PyPath.parent p) = Some Dir)
  /\ (ensure_packages_file offline w = (w3, Exit 1%Z)
      /\ Os.node_at (fs w3) p = None
      /\ Os.node_at (fs w3) (PyPath.parent p) = Some Dir).
Proof.
  intros w p w1 w2 w3. split.
  - destruct (ensure_packages_file_fetches linux w w1) as [Hserved _];
      [evaluate|run|].
    apply (Hserved (JsonText.dump_bytes catalog)). evaluate.
  - destruct (ensure_packages_file_fetches offline w w1) as [_ Hrefused];
      [evaluate|run|].
    apply (Hrefused (OSError "Network is unreachable")). evaluate.
Defined.

(** X21 *)
Lemma find_package_first_match_witness :
  find_package ([foo] ++ bar :: [win]) (JStr "BAR") = Ok (Some bar).
Proof.
  apply (find_package_first_match "BAR" [foo] bar [win] "bar");
    [|evaluate|evaluate].
  repeat constructor; apply named_otherwise_descriptor; discriminate.
Defined.

(** X22 *)
Lemma install_leaves_other_packages_witness :
  let w := world foo_store [] in
  let w' := fst (install_package linux 2 (JStr "bar") true w) in
  (forall q, get_installation_path linux "foo" `prefix_of` q ->
             fs w' !! q = fs w !! q)
  /\ fs w' !! get_package_file_path linux = fs w !! get_package_file_path linux.
Proof.
  intros w w'.
  apply (install_leaves_other_packages linux 1 "bar" "foo" true w w'
           (snd (install_package linux 2 (JStr "bar") true w)));
    [reflexivity|discriminate|evaluate|evaluate|discriminate|discriminate
    | |paired].
  exists (File (JsonText.dump_bytes catalog)). evaluate.
Defined.

(** X23 *)
Lemma uninstall_toolbox_removes_catalog_witness :
  let w := world cached_store [] in
  let w' := fst (uninstall_package linux "toolbox" true w) in
  get_installation_path linux "toolbox"
  = PyPath.parent (get_package_file_path linux)
  /\ fs w' !! get_package_file_path linux = None.
Proof.
  intros w w'. apply (uninstall_toolbox_removes_catalog linux w w'). run.
Defined.

(** X25 *)
Lemma main_ends_witness :
  let w := world cached_store ["help"; "install nope -y"; "exit"] in
  exists w' r,
    main linux 4 2 w = Some (w', r)
    /\ (r = Return tt \/ r = Exit 1%Z)
    /\ advances w w'.
Proof. intros w. apply (main_ends linux 4 2 w). cbn. lia. Defined.

(** X26 *)
Lemma main_without_exit_line_witness :
  let w := world cached_store ["help"; "exit now"; "list"] in
  exists w', main linux 4 2 w = Some (w', Exit 1%Z).
Proof.
  intros w. apply (main_without_exit_line linux 4 2 w); [cbn; lia|].
  repeat constructor.
Defined.

(** X27 *)
Lemma main_loop_goes_on_witness :
  let w := world cached_store ["   "; "exit"] in
  let v := world cached_store ["exit now"; "exit"] in
  main_loop linux 2 2 w = main_loop linux 1 2 (prompted ["exit"] w)
  /\ main_loop linux 2 2 v
     = main_loop linux 1 2
         (add_stdout unknown_command_text (prompted ["exit"] v)).
Proof.
  intros w v. split.
  - destruct (main_loop_goes_on linux 1 2 w "   " ["exit"]) as [Hblank _];
      [evaluate|].
    apply Hblank. evaluate.
  - destruct (main_loop_goes_on linux 1 2 v "exit now" ["exit"])
      as [_ Hunknown]; [evaluate|].
    apply Hunknown; [discriminate|evaluate|].
    intros H. repeat (apply elem_of_cons in H as [H|H]; [discriminate H|]).
    by apply elem_of_nil in H.
Defined.

(** X28 *)
Lemma main_loop_stops_witness :
  let w := world cached_store [" EXIT "; "list"] in
  let v := world cached_store [] in
  main_loop linux 1 2 w
  = Some (add_stdout (Fore.GREEN +:+ "Goodbye!" +:+ Fore.RESET_ALL)
            (prompted ["list"] w),
          Return tt)
  /\ main_loop linux 1 2 v
     = Some (add_stdout
               (error_text ("An unexpected error occurred: "
                            +:+ str_exn linux EOFError))
               (add_stdout prompt v),
             Exit 1%Z).
Proof.
  intros w v. split.
  - destruct (main_loop_stops linux 0 2 w) as [Hexit _].
    apply (Hexit " EXIT " ["list"]); evaluate.
  - destruct (main_loop_stops linux 0 2 v) as [_ Heof].
    apply Heof. evaluate.
Defined.

(** X29 *)
Lemma main_loop_missing_package_name_witness :
  let w := world cached_store ["Install  "; "list"] in
  let v := world cached_store ["uninstall"] in
  main_loop linux 1 2 w
  = Some (add_stdout
            (error_text "You must specify the package name to install.")
            (prompted ["list"] w),
          Exit 1%Z)
  /\ main_loop linux 1 2 v
     = Some (add_stdout
               (error_text "You must specify the package name to uninstall.")
               (prompted [] v),
             Exit 1%Z).
Proof.
  intros w v. split.
  - destruct (main_loop_missing_package_name linux 0 2 w "Install  " ["list"]
                "Install") as [Hinstall _]; [evaluate|evaluate|].
    apply Hinstall. evaluate.
  - destruct (main_loop_missing_package_name linux 0 2 v "uninstall" []
                "uninstall") as [_ Huninstall]; [evaluate|evaluate|].
    apply Huninstall. evaluate.
Defined.
